(** * WorldSession: session state machine, packet queues, admission control

    A shallow embedding of [src/game/Server/WorldSession.cpp] (CMaNGOS,
    WotLK).  The session object is a record, the member functions are
    computations in a small monad that threads the session, accumulates a
    trace of the calls made to the collaborators (log, socket, database,
    player, managers) and distinguishes a normal return from a propagating
    [ByteBufferException] and from a dereference of a null pointer.

    The build modelled is the default one: the blocks under
    [BUILD_PLAYERBOT], [ENABLE_PLAYERBOTS] and [MANGOS_DEBUG] are not
    compiled in. *)

From Stdlib Require Import ZArith List String Bool Lia.
Import ListNotations.
Open Scope Z_scope.
Open Scope string_scope.

Set Implicit Arguments.

(** ** Data model *)

(** [uint16] opcode numbers and low GUIDs are kept as integers. *)
Definition Opcode := Z.
Definition ObjectGuid := Z.

(** [time_t] values. *)
Definition time_t := Z.

(** The processing-mode tag of an opcode ([PacketProcessing] in Opcodes.h). *)
Inductive PacketProcessing : Type :=
| PROCESS_INPLACE
| PROCESS_THREADUNSAFE
| PROCESS_MAP_THREAD
| PROCESS_IMMEDIATE.

(** The admission-status tag of an opcode ([SessionStatus] in Opcodes.h).
    [STATUS_other] stands for any value of the underlying integer type that
    is none of the named enumerators: the [default:] label of the switch in
    [WorldSession::Update]. *)
Inductive SessionStatus : Type :=
| STATUS_AUTHED
| STATUS_LOGGEDIN
| STATUS_TRANSFER
| STATUS_LOGGEDIN_OR_RECENTLY_LOGGEDOUT
| STATUS_NEVER
| STATUS_UNHANDLED
| STATUS_other (raw : Z).

(** [WorldSessionState]. *)
Inductive WorldSessionState : Type :=
| WORLD_SESSION_STATE_CREATED
| WORLD_SESSION_STATE_CHAR_SELECTION
| WORLD_SESSION_STATE_READY
| WORLD_SESSION_STATE_OFFLINE.

(** An inbound envelope: the opcode and the read and write cursors of its
    payload.  The payload bytes are only seen by the handlers. *)
Record WorldPacket : Type := mkPacket {
  GetOpcode : Opcode;
  rpos : nat;
  wpos : nat
}.

(** The outbound messages built in this file. *)
Inductive ServerPacket : Type :=
| SMSG_AUTH_RESPONSE_AUTH_OK
| SMSG_AUTH_RESPONSE_AUTH_WAIT_QUEUE (position : Z)
| SMSG_LOGOUT_COMPLETE.

(** The transport, as far as the session looks at it. *)
Record WorldSocket : Type := mkSocket {
  sock_id : nat;
  IsClosed : bool
}.

(** The part of [Player] that the session code reads.  [bgQueueTypeIds] has
    one entry per battleground queue slot ([0]: slot unused); [guild] is
    [Some slot] when [sGuildMgr.GetGuildById] finds the guild, [slot] telling
    whether the guild has a member slot for the player; [group] is
    [Some raid] when the player is in a group. *)
Record Player : Type := mkPlayer {
  GetGUIDLow : ObjectGuid;
  IsInWorld : bool;
  IsBeingTeleportedFar : bool;
  CanDelayTeleport : bool;
  IsHasDelayedTeleport : bool;
  heldLoot : bool;
  GetDeathTimer : Z;
  HasAuraSpiritOfRedemption : bool;
  IsInCombat : bool;
  GetBattleGround : option Z;
  m_InstanceValid : bool;
  IsGameMaster : bool;
  bgQueueTypeIds : list Z;
  guild : option bool;
  group : option bool;
  GetSocial : bool
}.

(** A closure posted to the session's Messager.  The only one posted by this
    file captures a GUID and calls [ObjectAccessor::KickPlayer] on it; the
    closures posted by other files are told apart by a tag. *)
Inductive Message : Type :=
| MsgKickPlayer (guid : ObjectGuid)
| MsgForeign (tag : nat).

Record WorldSession : Type := mkSession {
  m_GUIDLow : ObjectGuid;
  _player : option Player;
  m_Socket : option WorldSocket;
  m_requestSocket : option WorldSocket;
  _logoutTime : time_t;
  m_inQueue : bool;
  m_playerLoading : bool;
  m_playerLogout : bool;
  m_playerRecentlyLogout : bool;
  m_playerSave : bool;
  m_sessionState : WorldSessionState;
  m_kickTime : time_t;
  m_recvQueue : list WorldPacket;
  m_recvQueueMap : list WorldPacket;
  m_messager : list Message
}.

(** The two queue mutexes. *)
Inductive Mutex : Type :=
| m_recvQueueLock
| m_recvQueueMapLock.

(** Calls made on the player, the map and the managers during logout and
    around a handler; they are recorded in the trace in program order. *)
Inductive PlayerCall : Type :=
| LootRelease
| DeleteHostileReferences
| BuildPlayerRepop
| RepopAtGraveyard
| RemoveShapeshiftAuras
| KillPlayer
| CombatStopWithPets
| BgEventPlayerLoggedOut (bg : Z)
| TeleportToHomebind
| RemoveBattleGroundQueueId (bgQueueTypeId : Z)
| BgQueueRemovePlayer (bgQueueTypeId : Z)
| GuildSetMemberStats
| GuildUpdateLogoutTime
| GuildBroadcastSignedOff
| RemovePet
| SaveToDB
| CleanupChannels
| LfgLeave
| UninviteFromGroup
| RemoveFromGroup
| GroupUpdatePlayerOnlineStatus
| RemovePlayerSocial
| TicketOnPlayerOnlineState
| MapRemove
| CleanupsBeforeDelete
| MapDeleteFromWorld
| TeleportToDelayedDest
| MoveWorldportAck.

(** What the session does to the outside, in program order. *)
Inductive Event : Type :=
| EvIncrementOpcodeCounter (op : Opcode)
| EvLock (m : Mutex)
| EvUnlock (m : Mutex)
| EvLogUnexpectedOpcode (op : Opcode) (reason : string)
| EvLogUnprocessedTail (op : Opcode) (r w : nat)
| EvLogError (what : string) (op : Opcode)
| EvLogDebug (what : string) (op : Opcode)
| EvLogDetail (what : string)
| EvLogChar (guid : ObjectGuid)
| EvHexlike (op : Opcode)
| EvSocketSend (sock : nat) (pkt : ServerPacket)
| EvSocketClose (sock : nat)
| EvSocketFinalizeSession (sock : nat)
| EvSendFriendStatusOffline (guid : ObjectGuid)
| EvPlayer (guid : ObjectGuid) (call : PlayerCall)
| EvSqlAccountInactive
| EvSqlCharactersOffline
| EvHandlerEffect (op : Opcode) (note : nat).

(** ** Record updates *)

Definition set_GUIDLow (v : ObjectGuid) (s : WorldSession) : WorldSession :=
  mkSession v (_player s) (m_Socket s) (m_requestSocket s) (_logoutTime s)
    (m_inQueue s) (m_playerLoading s) (m_playerLogout s)
    (m_playerRecentlyLogout s) (m_playerSave s) (m_sessionState s)
    (m_kickTime s) (m_recvQueue s) (m_recvQueueMap s) (m_messager s).

Definition set_player (v : option Player) (s : WorldSession) : WorldSession :=
  mkSession (m_GUIDLow s) v (m_Socket s) (m_requestSocket s) (_logoutTime s)
    (m_inQueue s) (m_playerLoading s) (m_playerLogout s)
    (m_playerRecentlyLogout s) (m_playerSave s) (m_sessionState s)
    (m_kickTime s) (m_recvQueue s) (m_recvQueueMap s) (m_messager s).

Definition set_Socket (v : option WorldSocket) (s : WorldSession) : WorldSession :=
  mkSession (m_GUIDLow s) (_player s) v (m_requestSocket s) (_logoutTime s)
    (m_inQueue s) (m_playerLoading s) (m_playerLogout s)
    (m_playerRecentlyLogout s) (m_playerSave s) (m_sessionState s)
    (m_kickTime s) (m_recvQueue s) (m_recvQueueMap s) (m_messager s).

Definition set_requestSocket (v : option WorldSocket) (s : WorldSession) : WorldSession :=
  mkSession (m_GUIDLow s) (_player s) (m_Socket s) v (_logoutTime s)
    (m_inQueue s) (m_playerLoading s) (m_playerLogout s)
    (m_playerRecentlyLogout s) (m_playerSave s) (m_sessionState s)
    (m_kickTime s) (m_recvQueue s) (m_recvQueueMap s) (m_messager s).

Definition set_logoutTime (v : time_t) (s : WorldSession) : WorldSession :=
  mkSession (m_GUIDLow s) (_player s) (m_Socket s) (m_requestSocket s) v
    (m_inQueue s) (m_playerLoading s) (m_playerLogout s)
    (m_playerRecentlyLogout s) (m_playerSave s) (m_sessionState s)
    (m_kickTime s) (m_recvQueue s) (m_recvQueueMap s) (m_messager s).

Definition set_playerLogout (v : bool) (s : WorldSession) : WorldSession :=
  mkSession (m_GUIDLow s) (_player s) (m_Socket s) (m_requestSocket s)
    (_logoutTime s) (m_inQueue s) (m_playerLoading s) v
    (m_playerRecentlyLogout s) (m_playerSave s) (m_sessionState s)
    (m_kickTime s) (m_recvQueue s) (m_recvQueueMap s) (m_messager s).

Definition set_playerRecentlyLogout (v : bool) (s : WorldSession) : WorldSession :=
  mkSession (m_GUIDLow s) (_player s) (m_Socket s) (m_requestSocket s)
    (_logoutTime s) (m_inQueue s) (m_playerLoading s) (m_playerLogout s)
    v (m_playerSave s) (m_sessionState s)
    (m_kickTime s) (m_recvQueue s) (m_recvQueueMap s) (m_messager s).

Definition set_playerSave (v : bool) (s : WorldSession) : WorldSession :=
  mkSession (m_GUIDLow s) (_player s) (m_Socket s) (m_requestSocket s)
    (_logoutTime s) (m_inQueue s) (m_playerLoading s) (m_playerLogout s)
    (m_playerRecentlyLogout s) v (m_sessionState s)
    (m_kickTime s) (m_recvQueue s) (m_recvQueueMap s) (m_messager s).

Definition set_sessionState (v : WorldSessionState) (s : WorldSession) : WorldSession :=
  mkSession (m_GUIDLow s) (_player s) (m_Socket s) (m_requestSocket s)
    (_logoutTime s) (m_inQueue s) (m_playerLoading s) (m_playerLogout s)
    (m_playerRecentlyLogout s) (m_playerSave s) v
    (m_kickTime s) (m_recvQueue s) (m_recvQueueMap s) (m_messager s).

Definition set_kickTime (v : time_t) (s : WorldSession) : WorldSession :=
  mkSession (m_GUIDLow s) (_player s) (m_Socket s) (m_requestSocket s)
    (_logoutTime s) (m_inQueue s) (m_playerLoading s) (m_playerLogout s)
    (m_playerRecentlyLogout s) (m_playerSave s) (m_sessionState s)
    v (m_recvQueue s) (m_recvQueueMap s) (m_messager s).

Definition set_recvQueue (v : list WorldPacket) (s : WorldSession) : WorldSession :=
  mkSession (m_GUIDLow s) (_player s) (m_Socket s) (m_requestSocket s)
    (_logoutTime s) (m_inQueue s) (m_playerLoading s) (m_playerLogout s)
    (m_playerRecentlyLogout s) (m_playerSave s) (m_sessionState s)
    (m_kickTime s) v (m_recvQueueMap s) (m_messager s).

Definition set_recvQueueMap (v : list WorldPacket) (s : WorldSession) : WorldSession :=
  mkSession (m_GUIDLow s) (_player s) (m_Socket s) (m_requestSocket s)
    (_logoutTime s) (m_inQueue s) (m_playerLoading s) (m_playerLogout s)
    (m_playerRecentlyLogout s) (m_playerSave s) (m_sessionState s)
    (m_kickTime s) (m_recvQueue s) v (m_messager s).

Definition set_messager (v : list Message) (s : WorldSession) : WorldSession :=
  mkSession (m_GUIDLow s) (_player s) (m_Socket s) (m_requestSocket s)
    (_logoutTime s) (m_inQueue s) (m_playerLoading s) (m_playerLogout s)
    (m_playerRecentlyLogout s) (m_playerSave s) (m_sessionState s)
    (m_kickTime s) (m_recvQueue s) (m_recvQueueMap s) v.

Definition set_IsBeingTeleportedFar (v : bool) (p : Player) : Player :=
  mkPlayer (GetGUIDLow p) (IsInWorld p) v (CanDelayTeleport p)
    (IsHasDelayedTeleport p) (heldLoot p) (GetDeathTimer p)
    (HasAuraSpiritOfRedemption p) (IsInCombat p) (GetBattleGround p)
    (m_InstanceValid p) (IsGameMaster p) (bgQueueTypeIds p) (guild p)
    (group p) (GetSocial p).

Definition SetCanDelayTeleport (v : bool) (p : Player) : Player :=
  mkPlayer (GetGUIDLow p) (IsInWorld p) (IsBeingTeleportedFar p) v
    (IsHasDelayedTeleport p) (heldLoot p) (GetDeathTimer p)
    (HasAuraSpiritOfRedemption p) (IsInCombat p) (GetBattleGround p)
    (m_InstanceValid p) (IsGameMaster p) (bgQueueTypeIds p) (guild p)
    (group p) (GetSocial p).

Definition set_group (v : option bool) (p : Player) : Player :=
  mkPlayer (GetGUIDLow p) (IsInWorld p) (IsBeingTeleportedFar p)
    (CanDelayTeleport p) (IsHasDelayedTeleport p) (heldLoot p)
    (GetDeathTimer p) (HasAuraSpiritOfRedemption p) (IsInCombat p)
    (GetBattleGround p) (m_InstanceValid p) (IsGameMaster p)
    (bgQueueTypeIds p) (guild p) v (GetSocial p).

(** ** The monad of session code *)

(** How a member function ends: it returns a value with the session and the
    trace; or a [ByteBufferException] leaves it; or it dereferences a null
    pointer, after which nothing is defined; or a loop of the model ran past
    its bound (shown below never to happen for the code of this file). *)
Inductive Outcome (A : Type) : Type :=
| Returned (a : A) (s : WorldSession) (tr : list Event)
| Thrown (s : WorldSession) (tr : list Event)
| NullDereference (tr : list Event)
| LoopBound.

Arguments Thrown {A} s tr.
Arguments NullDereference {A} tr.
Arguments LoopBound {A}.

Definition M (A : Type) : Type := WorldSession -> Outcome A.

Definition after {A : Type} (t : list Event) (o : Outcome A) : Outcome A :=
  match o with
  | Returned a s tr => Returned a s (t ++ tr)
  | Thrown s tr => Thrown s (t ++ tr)
  | NullDereference tr => NullDereference (t ++ tr)
  | LoopBound => LoopBound
  end.

Definition ret {A : Type} (a : A) : M A := fun s => Returned a s [].

Definition bind {A B : Type} (m : M A) (f : A -> M B) : M B :=
  fun s =>
    match m s with
    | Returned a s1 t1 => after t1 (f a s1)
    | Thrown s1 t1 => Thrown s1 t1
    | NullDereference t1 => NullDereference t1
    | LoopBound => LoopBound
    end.

Notation "x <- c1 ;; c2" := (bind c1 (fun x => c2))
  (at level 61, c1 at next level, right associativity).
Notation "c1 ;; c2" := (bind c1 (fun _ => c2))
  (at level 61, right associativity).

Definition emit (e : Event) : M unit := fun s => Returned tt s [e].
Definition get : M WorldSession := fun s => Returned s s [].
Definition modify (f : WorldSession -> WorldSession) : M unit :=
  fun s => Returned tt (f s) [].
Definition when (b : bool) (m : M unit) : M unit := if b then m else ret tt.
Definition null_dereference {A : Type} : M A := fun _ => NullDereference [].

(** [try { body } catch (ByteBufferException&) { handler }] *)
Definition try_catch {A : Type} (body handler : M A) : M A :=
  fun s =>
    match body s with
    | Thrown s1 t1 => after t1 (handler s1)
    | o => o
    end.

(** A [while] loop, cut after [bound] runs of its body. *)
Fixpoint while (bound : nat) (cond : WorldSession -> bool) (body : M unit) : M unit :=
  fun s =>
    if cond s then
      match bound with
      | O => LoopBound
      | S n => (body ;; while n cond body) s
      end
    else Returned tt s [].

(** [while] with a condition that is itself a computation (it may
    dereference the player). *)
Fixpoint while_do (bound : nat) (cond : M bool) (body : M unit) : M unit :=
  c <- cond ;;
  if c then
    match bound with
    | O => fun _ => LoopBound
    | S n => body ;; while_do n cond body
    end
  else ret tt.

(** ** The collaborators *)

(** One line of [opcodeTable].  A handler receives the envelope and the
    session; it returns the envelope as it has left the read cursor. *)
Record OpcodeHandler : Type := mkOpcodeHandler {
  status : SessionStatus;
  packetProcessing : PacketProcessing;
  handler : WorldPacket -> M WorldPacket
}.

(** What this file takes from the rest of the server.  Opcodes.h,
    WorldSession.h, World and Log are not part of the sources at hand:
    the opcode table, the opcode constant, the configuration switches, the
    two deadline tests of WorldSession.h and the default of [KickPlayer]'s
    second argument are parameters. *)
Record Env : Type := mkEnv {
  opcodeTable : Opcode -> OpcodeHandler;
  CMSG_SET_ACTIVE_VOICE_CHANNEL : Opcode;
  CONFIG_BOOL_KICK_PLAYER_ON_BAD_PACKET : bool;
  HasLogLevelDebug : bool;
  GetQueuedSessionPos : Z;
  ShouldLogOut : time_t -> WorldSession -> bool;
  ShouldDisconnect : time_t -> WorldSession -> bool;
  KickPlayer_inPlace_default : bool;
  runMessage : Message -> M unit
}.

(** ** Small accessors *)

(** [m_Socket && !m_Socket->IsClosed()] *)
Definition socket_open (s : WorldSession) : bool :=
  match m_Socket s with
  | Some sock => negb (IsClosed sock)
  | None => false
  end.

(** [m_Socket && m_Socket->IsClosed()] *)
Definition socket_closed (s : WorldSession) : bool :=
  match m_Socket s with
  | Some sock => IsClosed sock
  | None => false
  end.

(** [_player->...]: reading through the player pointer. *)
Definition deref_player : M Player :=
  fun s =>
    match _player s with
    | Some p => Returned p s []
    | None => NullDereference []
    end.

Definition player_call (c : PlayerCall) : M unit :=
  p <- deref_player ;;
  emit (EvPlayer (GetGUIDLow p) c).

Definition update_player (f : Player -> Player) : M unit :=
  p <- deref_player ;;
  modify (set_player (Some (f p))).

(** Modelled from the spec: [IsOffline] is declared in WorldSession.h, which
    is missing; the session is offline when its state is OFFLINE. *)
Definition IsOffline (s : WorldSession) : bool :=
  match m_sessionState s with
  | WORLD_SESSION_STATE_OFFLINE => true
  | _ => false
  end.

(** Modelled from the spec: [LogoutRequest] is declared in WorldSession.h,
    which is missing; it arms the scheduled-logout timestamp
    ([LogoutRequest(0)] is "clear any pending scheduled-logout timestamp",
    [LogoutRequest(time(nullptr))] "arm a short reconnection grace
    deadline").  What its optional second argument does is described
    nowhere and is left out. *)
Definition LogoutRequest (requestTime : time_t) : M unit :=
  modify (set_logoutTime requestTime).

(** Modelled from the spec: [HandleMoveWorldportAckOpcode] is defined in
    another file, which is missing; it resolves the player's in-flight
    long-distance relocation to completion. *)
Definition HandleMoveWorldportAckOpcode : M unit :=
  player_call MoveWorldportAck ;;
  update_player (set_IsBeingTeleportedFar false).

(** Modelled from the spec: [Player::TeleportToHomebind] is defined in
    another file, which is missing; it starts the relocation to the home
    region, which the logout then resolves. *)
Definition Player_TeleportToHomebind : M unit :=
  player_call TeleportToHomebind ;;
  update_player (set_IsBeingTeleportedFar true).

(** Modelled from the spec: [Player::RemoveFromGroup] is defined in another
    file, which is missing; it detaches the player from the group. *)
Definition Player_RemoveFromGroup : M unit :=
  player_call RemoveFromGroup ;;
  update_player (set_group None).

Section Session.

Variable world : Env.

(** ** Plain members *)

(** [WorldSession::SendPacket] *)
Definition SendPacket (packet : ServerPacket) : M unit :=
  s <- get ;;
  match m_Socket s with
  | None => ret tt
  | Some sock =>
      if IsClosed sock then ret tt
      else emit (EvSocketSend (sock_id sock) packet)
  end.

(** [WorldSession::SendAuthOk] *)
Definition SendAuthOk : M unit := SendPacket SMSG_AUTH_RESPONSE_AUTH_OK.

(** [WorldSession::SendAuthQueued] *)
Definition SendAuthQueued : M unit :=
  SendPacket (SMSG_AUTH_RESPONSE_AUTH_WAIT_QUEUE (GetQueuedSessionPos world)).

(** [m_Socket->Close()] *)
Definition Socket_Close (sock : WorldSocket) : M unit :=
  emit (EvSocketClose (sock_id sock)) ;;
  modify (set_Socket (Some (mkSocket (sock_id sock) true))).

(** [WorldSession::SetOffline] *)
Definition SetOffline (now : time_t) : M unit :=
  s <- get ;;
  match _player s with
  | Some p =>
      emit (EvSendFriendStatusOffline (GetGUIDLow p)) ;;
      LogoutRequest now
  | None => ret tt
  end ;;
  s <- get ;;
  match m_Socket s with
  | Some sock =>
      when (negb (IsClosed sock)) (Socket_Close sock) ;;
      emit (EvSocketFinalizeSession (sock_id sock)) ;;
      modify (set_Socket None)
  | None => ret tt
  end ;;
  modify (set_sessionState WORLD_SESSION_STATE_OFFLINE).

(** [WorldSession::SetOnline] *)
Definition SetOnline : M unit :=
  s <- get ;;
  match _player s with
  | Some _ =>
      when (socket_open s)
        (modify (set_sessionState WORLD_SESSION_STATE_READY) ;;
         modify (set_kickTime 0))
  | None => ret tt
  end.

(** [WorldSession::SetInCharSelection] *)
Definition SetInCharSelection (now : time_t) : M unit :=
  modify (set_sessionState WORLD_SESSION_STATE_CHAR_SELECTION) ;;
  modify (set_kickTime (now + 15 * 60)).

(** [WorldSession::RequestNewSocket] *)
Definition RequestNewSocket (socket : WorldSocket) : M bool :=
  emit (EvLock m_recvQueueLock) ;;
  s <- get ;;
  match m_requestSocket s with
  | Some _ => emit (EvUnlock m_recvQueueLock) ;; ret false
  | None =>
      modify (set_requestSocket (Some socket)) ;;
      modify (set_sessionState WORLD_SESSION_STATE_CREATED) ;;
      emit (EvUnlock m_recvQueueLock) ;;
      ret true
  end.

(** [WorldSession::SetPlayer] *)
Definition SetPlayer (plr : option Player) (playerGuid : ObjectGuid) : M unit :=
  modify (set_player plr) ;;
  modify (set_GUIDLow playerGuid).

(** [WorldSession::LogUnexpectedOpcode] *)
Definition LogUnexpectedOpcode (packet : WorldPacket) (reason : string) : M unit :=
  emit (EvLogUnexpectedOpcode (GetOpcode packet) reason).

(** [WorldSession::LogUnprocessedTail] *)
Definition LogUnprocessedTail (packet : WorldPacket) : M unit :=
  emit (EvLogUnprocessedTail (GetOpcode packet) (rpos packet) (wpos packet)).

(** [packet.rpos() < packet.wpos() && sLog.HasLogLevelOrHigher(LOG_LVL_DEBUG)] *)
Definition has_unread_tail (packet : WorldPacket) : bool :=
  Nat.ltb (rpos packet) (wpos packet) && HasLogLevelDebug world.

(** ** Ingestion *)

(** [WorldSession::QueuePacket] *)
Definition QueuePacket (new_packet : WorldPacket) : M unit :=
  emit (EvIncrementOpcodeCounter (GetOpcode new_packet)) ;;
  let opHandle := opcodeTable world (GetOpcode new_packet) in
  match packetProcessing opHandle with
  | PROCESS_IMMEDIATE =>
      read <- handler opHandle new_packet ;;
      when (has_unread_tail read) (LogUnprocessedTail read)
  | PROCESS_MAP_THREAD =>
      emit (EvLock m_recvQueueMapLock) ;;
      modify (fun s => set_recvQueueMap (m_recvQueueMap s ++ [new_packet]) s) ;;
      emit (EvUnlock m_recvQueueMapLock)
  | _ =>
      emit (EvLock m_recvQueueLock) ;;
      modify (fun s => set_recvQueue (m_recvQueue s ++ [new_packet]) s) ;;
      emit (EvUnlock m_recvQueueLock)
  end.

(** ** Dispatch *)

(** [WorldSession::ProcessByteBufferException] *)
Definition ProcessByteBufferException (packet : WorldPacket) : M unit :=
  emit (EvLogError "ByteBufferException occured while parsing a packet"
          (GetOpcode packet)) ;;
  when (HasLogLevelDebug world)
    (emit (EvLogDebug "Dumping error causing packet:" (GetOpcode packet)) ;;
     emit (EvHexlike (GetOpcode packet))) ;;
  when (CONFIG_BOOL_KICK_PLAYER_ON_BAD_PACKET world)
    (emit (EvLogDetail "Disconnecting session for badly formatted packet.") ;;
     p <- deref_player ;;
     let guid := GetGUIDLow p in
     modify (fun s => set_messager (m_messager s ++ [MsgKickPlayer guid]) s)).

(** [WorldSession::ExecuteOpcode] *)
Definition ExecuteOpcode (opHandle : OpcodeHandler) (packet : WorldPacket) : M unit :=
  s <- get ;;
  match _player s with
  | Some _ => update_player (SetCanDelayTeleport true)
  | None => ret tt
  end ;;
  read <- handler opHandle packet ;;
  s <- get ;;
  match _player s with
  | Some _ =>
      update_player (SetCanDelayTeleport false) ;;
      p <- deref_player ;;
      when (IsHasDelayedTeleport p) (player_call TeleportToDelayedDest)
  | None => ret tt
  end ;;
  when (has_unread_tail read) (LogUnprocessedTail read).

(** The [switch (opHandle.status)] of [WorldSession::Update]. *)
Definition Update_dispatch (packet : WorldPacket) : M unit :=
  let opHandle := opcodeTable world (GetOpcode packet) in
  s <- get ;;
  match status opHandle with
  | STATUS_LOGGEDIN =>
      match _player s with
      | None =>
          when (negb (m_playerRecentlyLogout s))
            (LogUnexpectedOpcode packet "the player has not logged in yet")
      | Some p =>
          when (IsInWorld p) (ExecuteOpcode opHandle packet)
      end
  | STATUS_LOGGEDIN_OR_RECENTLY_LOGGEDOUT =>
      match _player s with
      | None =>
          if m_playerRecentlyLogout s then ExecuteOpcode opHandle packet
          else LogUnexpectedOpcode packet
                 "the player has not logged in yet and not recently logout"
      | Some _ => ExecuteOpcode opHandle packet
      end
  | STATUS_TRANSFER =>
      match _player s with
      | None => LogUnexpectedOpcode packet "the player has not logged in yet"
      | Some p =>
          if IsInWorld p then
            LogUnexpectedOpcode packet "the player is still in world"
          else ExecuteOpcode opHandle packet
      end
  | STATUS_AUTHED =>
      if m_inQueue s then
        LogUnexpectedOpcode packet "the player not pass queue yet"
      else
        when (negb (Z.eqb (GetOpcode packet) (CMSG_SET_ACTIVE_VOICE_CHANNEL world)))
          (modify (set_playerRecentlyLogout false)) ;;
        ExecuteOpcode opHandle packet
  | STATUS_NEVER =>
      emit (EvLogError "SESSION: received not allowed opcode" (GetOpcode packet))
  | STATUS_UNHANDLED =>
      emit (EvLogDebug "SESSION: received not handled opcode" (GetOpcode packet))
  | STATUS_other _ =>
      emit (EvLogError "SESSION: received wrong-status-req opcode"
              (GetOpcode packet))
  end.

(** One turn of the [while] of [WorldSession::Update]: the [try] block
    around the switch and its [catch]. *)
Definition Update_packet (packet : WorldPacket) : M unit :=
  try_catch (Update_dispatch packet) (ProcessByteBufferException packet).

(** The [while] of [WorldSession::Update] over the swapped-out queue:
    [while (m_Socket && !m_Socket->IsClosed() && !recvQueueCopy.empty())]. *)
Fixpoint Update_drain (recvQueueCopy : list WorldPacket) : M unit :=
  fun s =>
    match recvQueueCopy with
    | [] => Returned tt s []
    | packet :: rest =>
        if socket_open s then (Update_packet packet ;; Update_drain rest) s
        else Returned tt s []
    end.

(** One turn of the [for] of [WorldSession::UpdateMap]. *)
Definition UpdateMap_packet (packet : WorldPacket) : M unit :=
  let opHandle := opcodeTable world (GetOpcode packet) in
  try_catch
    (match status opHandle with
     | STATUS_LOGGEDIN => ExecuteOpcode opHandle packet
     | _ => ret tt
     end)
    (ProcessByteBufferException packet).

(** The [for] of [WorldSession::UpdateMap]:
    [for (size_t i = 0; m_Socket && !m_Socket->IsClosed()
                        && i < recvQueueMapCopy.size(); ++i)],
    whose body pops the front of the queue. *)
Fixpoint UpdateMap_drain (i : nat) (recvQueueMapCopy : list WorldPacket) : M unit :=
  fun s =>
    match recvQueueMapCopy with
    | [] => Returned tt s []
    | packet :: rest =>
        if socket_open s && Nat.ltb i (List.length recvQueueMapCopy) then
          (UpdateMap_packet packet ;; UpdateMap_drain (S i) rest) s
        else Returned tt s []
    end.

(** [WorldSession::UpdateMap] *)
Definition UpdateMap : M unit :=
  emit (EvLock m_recvQueueMapLock) ;;
  s <- get ;;
  modify (set_recvQueueMap []) ;;
  emit (EvUnlock m_recvQueueMapLock) ;;
  UpdateMap_drain 0 (m_recvQueueMap s).

(** ** The Logout Protocol *)

(** [for (...) body] over a list, in order. *)
Fixpoint for_each (A : Type) (l : list A) (body : A -> M unit) : M unit :=
  match l with
  | [] => ret tt
  | x :: rest => body x ;; for_each rest body
  end.

(** [_player && _player->IsBeingTeleportedFar()] *)
Definition player_and_teleported_far : M bool :=
  s <- get ;;
  match _player s with
  | Some p => ret (IsBeingTeleportedFar p)
  | None => ret false
  end.

(** [_player->IsBeingTeleportedFar()] *)
Definition player_teleported_far : M bool :=
  p <- deref_player ;;
  ret (IsBeingTeleportedFar p).

(** The bound given to the two [while] loops of [LogoutPlayer]; one run of
    the body resolves the relocation. *)
Definition teleport_loop_bound : nat := 1.

(** The body of [if (_player) { ... }] in [WorldSession::LogoutPlayer]. *)
Definition LogoutPlayer_teardown : M unit :=
  p <- deref_player ;;
  emit (EvLogChar (GetGUIDLow p)) ;;
  when (heldLoot p) (player_call LootRelease) ;;
  (if negb (Z.eqb (GetDeathTimer p) 0) then
     player_call DeleteHostileReferences ;;
     player_call BuildPlayerRepop ;;
     player_call RepopAtGraveyard
   else if HasAuraSpiritOfRedemption p then
     player_call RemoveShapeshiftAuras ;;
     player_call KillPlayer ;;
     player_call BuildPlayerRepop ;;
     player_call RepopAtGraveyard
   else when (IsInCombat p) (player_call CombatStopWithPets)) ;;
  match GetBattleGround p with
  | Some bg => player_call (BgEventPlayerLoggedOut bg)
  | None => ret tt
  end ;;
  when (negb (m_InstanceValid p) && negb (IsGameMaster p))
    Player_TeleportToHomebind ;;
  while_do teleport_loop_bound player_teleported_far
    HandleMoveWorldportAckOpcode ;;
  for_each (bgQueueTypeIds p)
    (fun bgQueueTypeId =>
       when (negb (Z.eqb bgQueueTypeId 0))
         (player_call (RemoveBattleGroundQueueId bgQueueTypeId) ;;
          player_call (BgQueueRemovePlayer bgQueueTypeId))) ;;
  emit EvSqlAccountInactive ;;
  match guild p with
  | Some slot =>
      when slot
        (player_call GuildSetMemberStats ;;
         player_call GuildUpdateLogoutTime) ;;
      player_call GuildBroadcastSignedOff
  | None => ret tt
  end ;;
  player_call RemovePet ;;
  s <- get ;;
  when (m_playerSave s) (player_call SaveToDB) ;;
  player_call CleanupChannels ;;
  player_call LfgLeave ;;
  player_call UninviteFromGroup ;;
  p <- deref_player ;;
  s <- get ;;
  match group p with
  | Some raid => when (negb raid && socket_open s) Player_RemoveFromGroup
  | None => ret tt
  end ;;
  p <- deref_player ;;
  match group p with
  | Some _ => player_call GroupUpdatePlayerOnlineStatus
  | None => ret tt
  end ;;
  when (GetSocial p)
    (emit (EvSendFriendStatusOffline (GetGUIDLow p)) ;;
     player_call RemovePlayerSocial) ;;
  player_call TicketOnPlayerOnlineState ;;
  (if IsInWorld p then player_call MapRemove
   else player_call CleanupsBeforeDelete ;; player_call MapDeleteFromWorld) ;;
  SetPlayer None 0 ;;
  SendPacket SMSG_LOGOUT_COMPLETE ;;
  emit EvSqlCharactersOffline ;;
  emit (EvLogDebug "SESSION: Sent SMSG_LOGOUT_COMPLETE Message" 0).

(** [WorldSession::LogoutPlayer] *)
Definition LogoutPlayer (now : time_t) : M unit :=
  while_do teleport_loop_bound player_and_teleported_far
    HandleMoveWorldportAckOpcode ;;
  modify (set_playerLogout true) ;;
  s <- get ;;
  match _player s with
  | Some _ => LogoutPlayer_teardown
  | None => ret tt
  end ;;
  modify (set_playerLogout false) ;;
  modify (set_playerRecentlyLogout true) ;;
  SetInCharSelection now ;;
  LogoutRequest 0.

(** [WorldSession::KickPlayer] *)
Definition KickPlayer (now : time_t) (save inPlace : bool) : M unit :=
  modify (set_playerSave save) ;;
  if inPlace then LogoutPlayer now
  else LogoutRequest (now - 20).

(** ** The tick *)

(** Modelled from the spec: the Messager is defined in another file, which
    is missing; [Execute] takes the closures posted so far out of the queue
    and runs them, in order, on the session's own tick. *)
Definition Messager_Execute : M unit :=
  s <- get ;;
  modify (set_messager []) ;;
  for_each (m_messager s) (runMessage world).

(** The [switch (m_sessionState)] of [WorldSession::Update]; [now] is what
    [time(nullptr)] returns during the tick. *)
Definition Update_state (now : time_t) : M bool :=
  s <- get ;;
  match m_sessionState s with
  | WORLD_SESSION_STATE_CREATED =>
      match m_requestSocket s with
      | Some _ =>
          when (negb (IsOffline s)) (SetOffline now) ;;
          s1 <- get ;;
          modify (set_Socket (m_requestSocket s1)) ;;
          modify (set_requestSocket None) ;;
          emit (EvLogDetail "New Session key") ;;
          SendAuthOk
      | None =>
          if m_inQueue s then SendAuthQueued else SendAuthOk
      end ;;
      SetInCharSelection now ;;
      ret true
  | WORLD_SESSION_STATE_CHAR_SELECTION =>
      if negb (socket_open s) then ret false
      else
        when (ShouldLogOut world now s && negb (m_playerLoading s))
          (LogoutPlayer now) ;;
        s1 <- get ;;
        when (negb (Z.eqb (m_kickTime s1) 0) && Z.leb (m_kickTime s1) now)
          (KickPlayer now true (KickPlayer_inPlace_default world)) ;;
        ret true
  | WORLD_SESSION_STATE_READY =>
      if socket_closed s then
        match _player s with
        | None => ret false
        | Some _ => SetOffline now ;; ret true
        end
      else
        when (ShouldLogOut world now s && negb (m_playerLoading s))
          (LogoutPlayer now) ;;
        ret true
  | WORLD_SESSION_STATE_OFFLINE =>
      if ShouldDisconnect world now s then
        LogoutPlayer now ;;
        s1 <- get ;;
        match m_requestSocket s1 with
        | None => if negb (socket_open s1) then ret false else ret true
        | Some _ => ret true
        end
      else ret true
  end.

(** [WorldSession::Update] *)
Definition Update (now : time_t) : M bool :=
  Messager_Execute ;;
  emit (EvLock m_recvQueueLock) ;;
  s <- get ;;
  modify (set_recvQueue []) ;;
  emit (EvUnlock m_recvQueueLock) ;;
  Update_drain (m_recvQueue s) ;;
  Update_state now.

End Session.

(** ** Reference values used in the statements *)

(** What [SendPacket packet] puts on the wire, given the active transport. *)
Definition sent_on (sock : option WorldSocket) (packet : ServerPacket) : list Event :=
  match sock with
  | Some k => if IsClosed k then [] else [EvSocketSend (sock_id k) packet]
  | None => []
  end.

(** What [SetOffline] does to the transport it drops: close unless closed
    already, then finalize. *)
Definition force_closed (sock : option WorldSocket) : list Event :=
  match sock with
  | Some k =>
      (if IsClosed k then [] else [EvSocketClose (sock_id k)])
      ++ [EvSocketFinalizeSession (sock_id k)]
  | None => []
  end.

(** What [SetOffline] tells the friends of the attached player. *)
Definition friends_told (plr : option Player) : list Event :=
  match plr with
  | Some p => [EvSendFriendStatusOffline (GetGUIDLow p)]
  | None => []
  end.

(** The session as [LogoutPlayer] leaves it. *)
Definition logged_out (now : time_t) (s : WorldSession) : WorldSession :=
  mkSession (match _player s with Some _ => 0 | None => m_GUIDLow s end)
    None (m_Socket s) (m_requestSocket s) 0 (m_inQueue s)
    (m_playerLoading s) false true (m_playerSave s)
    WORLD_SESSION_STATE_CHAR_SELECTION (now + 15 * 60)
    (m_recvQueue s) (m_recvQueueMap s) (m_messager s).

(** The session with exactly the four flags reset that the specification
    lists for a logout without player: logout in progress, recent-logout
    grace, char-selection deadline, scheduled-logout timestamp. *)
Definition four_flags_reset (now : time_t) (s : WorldSession) : WorldSession :=
  set_playerLogout false
    (set_playerRecentlyLogout true
       (set_kickTime (now + 15 * 60) (set_logoutTime 0 s))).

(** The session as the CREATED branch of the tick leaves it: a pending
    transport has become the active one (and an attached player has got a
    scheduled-logout timestamp from [SetOffline]). *)
Definition entered_char_selection (now : time_t) (s : WorldSession) : WorldSession :=
  mkSession (m_GUIDLow s) (_player s)
    (match m_requestSocket s with
     | Some pending => Some pending
     | None => m_Socket s
     end)
    None
    (match m_requestSocket s, _player s with
     | Some _, Some _ => now
     | _, _ => _logoutTime s
     end)
    (m_inQueue s) (m_playerLoading s) (m_playerLogout s)
    (m_playerRecentlyLogout s) (m_playerSave s)
    WORLD_SESSION_STATE_CHAR_SELECTION (now + 15 * 60)
    (m_recvQueue s) (m_recvQueueMap s) (m_messager s).

(** What the CREATED branch of the tick does to the outside. *)
Definition created_trace (queuePos : Z) (s : WorldSession) : list Event :=
  match m_requestSocket s with
  | Some pending =>
      friends_told (_player s) ++ force_closed (m_Socket s)
      ++ [EvLogDetail "New Session key"]
      ++ sent_on (Some pending) SMSG_AUTH_RESPONSE_AUTH_OK
  | None =>
      sent_on (m_Socket s)
        (if m_inQueue s then SMSG_AUTH_RESPONSE_AUTH_WAIT_QUEUE queuePos
         else SMSG_AUTH_RESPONSE_AUTH_OK)
  end.

(** The session as [SetOffline] leaves it when a player is attached. *)
Definition gone_offline (now : time_t) (s : WorldSession) : WorldSession :=
  set_sessionState WORLD_SESSION_STATE_OFFLINE
    (set_Socket None (set_logoutTime now s)).

(** The admission outcome the specification gives a LOGGED-IN envelope on a
    session without player: not handled, a warning unless the grace flag is
    set. *)
Definition dropped_for_missing_player (packet : WorldPacket) (s : WorldSession)
  : Outcome unit :=
  Returned tt s
    (if m_playerRecentlyLogout s then []
     else [EvLogUnexpectedOpcode (GetOpcode packet)
             "the player has not logged in yet"]).

(** The session as [ExecuteOpcode] hands it to the handler: delayed
    teleport is allowed on the attached player. *)
Definition handed_to_handler (s : WorldSession) : WorldSession :=
  match _player s with
  | Some p => set_player (Some (SetCanDelayTeleport true p)) s
  | None => s
  end.

(** What [ExecuteOpcode] does once the handler has returned, leaving the
    session [s] and the envelope [read]: delayed teleport is switched off on
    the player attached by then and a delayed teleport is carried out, then
    an unread tail is logged. *)
Definition handler_returned (world : Env) (read : WorldPacket)
           (s : WorldSession) : Outcome unit :=
  Returned tt
    (match _player s with
     | Some p => set_player (Some (SetCanDelayTeleport false p)) s
     | None => s
     end)
    ((match _player s with
      | Some p =>
          if IsHasDelayedTeleport p
          then [EvPlayer (GetGUIDLow p) TeleportToDelayedDest] else []
      | None => []
      end)
     ++ (if has_unread_tail world read
         then [EvLogUnprocessedTail (GetOpcode read) (rpos read) (wpos read)]
         else []))%list.

(** ** A concrete world *)

(** A handler that reads its whole payload and leaves a mark in the trace. *)
Definition reading_handler (packet : WorldPacket) : M WorldPacket :=
  emit (EvHandlerEffect (GetOpcode packet) 0) ;;
  ret (mkPacket (GetOpcode packet) (wpos packet) (wpos packet)).

(** A handler that runs past the end of its payload. *)
Definition overreading_handler (packet : WorldPacket) : M WorldPacket :=
  fun s => Thrown s [EvHandlerEffect (GetOpcode packet) 1].

(** A handler that closes the transport. *)
Definition closing_handler (packet : WorldPacket) : M WorldPacket :=
  modify (fun s =>
            match m_Socket s with
            | Some k => set_Socket (Some (mkSocket (sock_id k) true)) s
            | None => s
            end) ;;
  ret packet.

Definition example_table (op : Opcode) : OpcodeHandler :=
  if Z.eqb op 1 then
    mkOpcodeHandler STATUS_LOGGEDIN PROCESS_MAP_THREAD reading_handler
  else if Z.eqb op 2 then
    mkOpcodeHandler STATUS_AUTHED PROCESS_THREADUNSAFE reading_handler
  else if Z.eqb op 3 then
    mkOpcodeHandler STATUS_AUTHED PROCESS_INPLACE overreading_handler
  else if Z.eqb op 4 then
    mkOpcodeHandler STATUS_AUTHED PROCESS_IMMEDIATE reading_handler
  else if Z.eqb op 5 then
    mkOpcodeHandler STATUS_LOGGEDIN PROCESS_THREADUNSAFE closing_handler
  else if Z.eqb op 6 then
    mkOpcodeHandler STATUS_LOGGEDIN PROCESS_THREADUNSAFE reading_handler
  else if Z.eqb op 979 then
    mkOpcodeHandler STATUS_AUTHED PROCESS_THREADUNSAFE reading_handler
  else
    mkOpcodeHandler STATUS_NEVER PROCESS_INPLACE reading_handler.

(** The deadline tests as a 20 s logout delay and a 60 s reconnection
    grace. *)
Definition example_ShouldLogOut (currTime : time_t) (s : WorldSession) : bool :=
  Z.ltb 0 (_logoutTime s) && Z.leb (_logoutTime s + 20) currTime.

Definition example_ShouldDisconnect (currTime : time_t) (s : WorldSession) : bool :=
  Z.ltb 0 (_logoutTime s) && Z.leb (_logoutTime s + 60) currTime.

Definition example_runMessage (m : Message) : M unit :=
  match m with
  | MsgKickPlayer _ => modify (set_logoutTime 1)
  | MsgForeign _ => ret tt
  end.

Definition example_world (kick : bool) : Env :=
  mkEnv example_table 979 kick false 3
    example_ShouldLogOut example_ShouldDisconnect false example_runMessage.

Definition example_player : Player :=
  mkPlayer 7 true false false false false 0 false true None true false
    [0; 2] (Some true) (Some false) true.

Definition open_socket : WorldSocket := mkSocket 1 false.
Definition closed_socket : WorldSocket := mkSocket 1 true.
Definition new_socket : WorldSocket := mkSocket 2 false.

Definition envelope (op : Opcode) : WorldPacket := mkPacket op 0 4.

(** A session that has passed authentication and has no player. *)
Definition session_without_player : WorldSession :=
  mkSession 0 None (Some open_socket) None 0 false false false false true
    WORLD_SESSION_STATE_CHAR_SELECTION 5000 [] [] [].

(** A session playing character 7. *)
Definition session_playing : WorldSession :=
  mkSession 7 (Some example_player) (Some open_socket) None 0 false false
    false false true WORLD_SESSION_STATE_READY 0 [] [] [].

(** A session without player whose state is OFFLINE. *)
Definition session_offline_without_player : WorldSession :=
  mkSession 0 None None None 940 false false false false true
    WORLD_SESSION_STATE_OFFLINE 0 [] [] [].

(** A READY session whose transport is closed and that has no player. *)
Definition session_ready_without_player : WorldSession :=
  mkSession 0 None (Some closed_socket) None 0 false false false false true
    WORLD_SESSION_STATE_READY 0 [] [] [].

(** A queued session: authenticated, not yet admitted. *)
Definition session_queued : WorldSession :=
  mkSession 0 None (Some open_socket) None 0 true false false false true
    WORLD_SESSION_STATE_CHAR_SELECTION 5000 [] [] [].

(** A session taken over by a new connection: no transport, one pending. *)
Definition session_reconnecting : WorldSession :=
  mkSession 0 None None (Some new_socket) 0 false false false false true
    WORLD_SESSION_STATE_CREATED 0 [] [] [].

(** A session playing character 7 whose transport has just closed. *)
Definition session_dropped : WorldSession :=
  mkSession 7 (Some example_player) (Some closed_socket) None 0 false false
    false false true WORLD_SESSION_STATE_READY 0 [] [] [].

(** The same session 60 s after it went offline at 940. *)
Definition session_offline : WorldSession :=
  mkSession 7 (Some example_player) None None 940 false false
    false false true WORLD_SESSION_STATE_OFFLINE 0 [] [] [].

(** A session as the constructor leaves it, whose transport has closed
    before the first tick. *)
Definition session_created_closed : WorldSession :=
  mkSession 0 None (Some closed_socket) None 0 false false false false true
    WORLD_SESSION_STATE_CREATED 0 [] [] [].

(** A session taken over by a new connection that has closed again before
    the tick. *)
Definition session_pending_closed : WorldSession :=
  mkSession 0 None None (Some (mkSocket 2 true)) 0 false false false false
    true WORLD_SESSION_STATE_CREATED 0 [] [] [].

(** A session back in character selection after a logout. *)
Definition session_recently_logged_out : WorldSession :=
  mkSession 0 None (Some open_socket) None 0 false false false true true
    WORLD_SESSION_STATE_CHAR_SELECTION 5000 [] [] [].

(** ** Predicates used in the proofs *)

(** A computation keeps the player when, started with a player attached, it
    returns and has changed nothing of the session but the player object. *)
Definition keeps_player (A : Type) (m : M A) : Prop :=
  forall s p, _player s = Some p ->
    exists a p' tr, m s = Returned a (set_player (Some p') s) tr.

(** A computation tears the player down when, started with a player
    attached, it returns with the player reference and the stored GUID
    cleared and nothing else changed. *)
Definition tears_down (A : Type) (m : M A) : Prop :=
  forall s p, _player s = Some p ->
    exists a tr, m s = Returned a (set_GUIDLow 0 (set_player None s)) tr.

(** A pending transport, or an active transport that is open. *)
Definition still_connected (s : WorldSession) : bool :=
  match m_requestSocket s with
  | Some _ => true
  | None => socket_open s
  end.

(** ** Further members of the session *)

(** [WorldSession::~WorldSession]; [now] is the time of the logout it may
    run. *)
Definition WorldSession_destructor (now : time_t) : M unit :=
  s <- get ;;
  match _player s with
  | Some _ => LogoutPlayer now
  | None => ret tt
  end ;;
  s1 <- get ;;
  match m_Socket s1 with
  | Some sock =>
      when (negb (IsClosed sock)) (Socket_Close sock) ;;
      emit (EvSocketFinalizeSession (sock_id sock))
  | None => ret tt
  end.

(** Several calls of [QueuePacket], as the network thread makes them. *)
Definition QueuePackets (world : Env) (packets : list WorldPacket) : M unit :=
  for_each packets (QueuePacket world).

(** The envelopes of a list whose opcode carries the MAP_THREAD tag. *)
Definition is_map_thread (world : Env) (packet : WorldPacket) : bool :=
  match packetProcessing (opcodeTable world (GetOpcode packet)) with
  | PROCESS_MAP_THREAD => true
  | _ => false
  end.

Definition is_immediate (world : Env) (packet : WorldPacket) : bool :=
  match packetProcessing (opcodeTable world (GetOpcode packet)) with
  | PROCESS_IMMEDIATE => true
  | _ => false
  end.

(** A drain that takes every envelope in turn while the transport is open,
    with the body of the [for] of [UpdateMap]: what the loop of [UpdateMap]
    would be without its counter.  It is the yardstick for the statement
    about that counter. *)
Fixpoint drain_every (world : Env) (queue : list WorldPacket) : M unit :=
  fun s =>
    match queue with
    | [] => Returned tt s []
    | packet :: rest =>
        if socket_open s then
          (UpdateMap_packet world packet ;; drain_every world rest) s
        else Returned tt s []
    end.

(** The number of [SaveToDB] calls in a trace. *)
Definition is_save (e : Event) : bool :=
  match e with
  | EvPlayer _ SaveToDB => true
  | _ => false
  end.

Definition save_count (tr : list Event) : nat :=
  List.length (filter is_save tr).

(** A computation keeps the player and saves it [n] times when, started
    with a player attached and the save flag at [flag], it returns, has
    changed nothing of the session but the player object and has called
    [SaveToDB] [n] times. *)
Definition keeps_saving (flag : bool) (n : nat) (A : Type) (m : M A) : Prop :=
  forall s p, _player s = Some p -> m_playerSave s = flag ->
    exists a p' tr,
      m s = Returned a (set_player (Some p') s) tr /\ save_count tr = n.

(** The same for a computation that ends with the player torn down. *)
Definition tears_down_saving (flag : bool) (n : nat) (A : Type) (m : M A)
  : Prop :=
  forall s p, _player s = Some p -> m_playerSave s = flag ->
    exists a tr,
      m s = Returned a (set_GUIDLow 0 (set_player None s)) tr
      /\ save_count tr = n.

(** The admission test of the generic drain: the envelopes that
    [WorldSession::Update] hands to [ExecuteOpcode]. *)
Definition admitted (world : Env) (packet : WorldPacket) (s : WorldSession)
  : bool :=
  match status (opcodeTable world (GetOpcode packet)) with
  | STATUS_LOGGEDIN =>
      match _player s with Some p => IsInWorld p | None => false end
  | STATUS_LOGGEDIN_OR_RECENTLY_LOGGEDOUT =>
      match _player s with Some _ => true | None => m_playerRecentlyLogout s end
  | STATUS_TRANSFER =>
      match _player s with Some p => negb (IsInWorld p) | None => false end
  | STATUS_AUTHED => negb (m_inQueue s)
  | STATUS_NEVER | STATUS_UNHANDLED | STATUS_other _ => false
  end.

(** The session an admitted envelope is executed on: an AUTHED envelope
    other than [CMSG_SET_ACTIVE_VOICE_CHANNEL] clears the recent-logout
    flag first. *)
Definition session_at_execution (world : Env) (packet : WorldPacket)
           (s : WorldSession) : WorldSession :=
  match status (opcodeTable world (GetOpcode packet)) with
  | STATUS_AUTHED =>
      if Z.eqb (GetOpcode packet) (CMSG_SET_ACTIVE_VOICE_CHANNEL world)
      then s else set_playerRecentlyLogout false s
  | _ => s
  end.

(** An envelope whose status is LOGGED-IN. *)
Definition is_loggedin (world : Env) (packet : WorldPacket) : bool :=
  match status (opcodeTable world (GetOpcode packet)) with
  | STATUS_LOGGEDIN => true
  | _ => false
  end.

(** The sessions for which the state switch of the tick answers "remove
    me". *)
Definition reported_for_removal (world : Env) (now : time_t) (s : WorldSession)
  : bool :=
  match m_sessionState s with
  | WORLD_SESSION_STATE_CREATED => false
  | WORLD_SESSION_STATE_CHAR_SELECTION => negb (socket_open s)
  | WORLD_SESSION_STATE_READY =>
      socket_closed s && match _player s with None => true | Some _ => false end
  | WORLD_SESSION_STATE_OFFLINE =>
      ShouldDisconnect world now s
      && match m_requestSocket s with None => true | Some _ => false end
      && negb (socket_open s)
  end.

(** ** The packet filters *)

(** [MapSessionFilterHelper] *)
Definition MapSessionFilterHelper (session : WorldSession)
           (opHandle : OpcodeHandler) : bool :=
  match packetProcessing opHandle with
  | PROCESS_THREADUNSAFE => false
  | _ =>
      match _player session with
      | None => false
      | Some plr => IsInWorld plr
      end
  end.

(** [MapSessionFilter::Process] *)
Definition MapSessionFilter_Process (world : Env) (m_pSession : WorldSession)
           (packet : WorldPacket) : bool :=
  let opHandle := opcodeTable world (GetOpcode packet) in
  match packetProcessing opHandle with
  | PROCESS_INPLACE => true
  | _ => MapSessionFilterHelper m_pSession opHandle
  end.

(** [WorldSessionFilter::Process] *)
Definition WorldSessionFilter_Process (world : Env) (m_pSession : WorldSession)
           (packet : WorldPacket) : bool :=
  let opHandle := opcodeTable world (GetOpcode packet) in
  match packetProcessing opHandle with
  | PROCESS_INPLACE => true
  | _ => negb (MapSessionFilterHelper m_pSession opHandle)
  end.

(** ** Dropping queued movement *)

(** The two opcodes named in [DeleteMovementPackets]; their numbers are in
    Opcodes.h and are parameters here. *)
Record MovementOpcodes : Type := mkMovementOpcodes {
  MSG_MOVE_SET_FACING : Opcode;
  MSG_MOVE_HEARTBEAT : Opcode
}.

(** The [switch] of [DeleteMovementPackets]: the cases that erase. *)
Definition is_movement (ops : MovementOpcodes) (packet : WorldPacket) : bool :=
  Z.eqb (GetOpcode packet) (MSG_MOVE_SET_FACING ops)
  || Z.eqb (GetOpcode packet) (MSG_MOVE_HEARTBEAT ops).

(** The loop of [DeleteMovementPackets]: [itr = erase(itr)] on a movement
    envelope, [++itr] on any other. *)
Fixpoint erase_movement (ops : MovementOpcodes) (queue : list WorldPacket)
  : list WorldPacket :=
  match queue with
  | [] => []
  | packet :: rest =>
      if is_movement ops packet then erase_movement ops rest
      else packet :: erase_movement ops rest
  end.

(** [WorldSession::DeleteMovementPackets] *)
Definition DeleteMovementPackets (ops : MovementOpcodes) : M unit :=
  emit (EvLock m_recvQueueMapLock) ;;
  modify (fun s => set_recvQueueMap (erase_movement ops (m_recvQueueMap s)) s) ;;
  emit (EvUnlock m_recvQueueMapLock).

(** ** Caches of the session: account data, tutorials, addons, time sync *)

(** A field appended to an outbound packet. *)
Inductive Field : Type :=
| U8 (v : Z)
| U32 (v : Z)
| CString (text : string)
| Bytes (raw : list Z).

(** Bytes a field takes in the packet; a string is followed by its
    terminating zero. *)
Definition field_size (f : Field) : nat :=
  match f with
  | U8 _ => 1
  | U32 _ => 4
  | CString text => S (String.length text)
  | Bytes raw => List.length raw
  end.

Inductive OutOpcode : Type :=
| SMSG_TIME_SYNC_REQ
| SMSG_ADDON_INFO
| SMSG_MOTD
| SMSG_TUTORIAL_FLAGS
| SMSG_ACCOUNT_DATA_TIMES.

Record OutPacket : Type := mkOutPacket {
  out_opcode : OutOpcode;
  out_fields : list Field
}.

Definition packet_size (pkt : OutPacket) : nat :=
  list_sum (map field_size (out_fields pkt)).

Inductive SqlArg : Type :=
| SqlInt (v : Z)
| SqlText (text : string).

(** What these members do to the outside. *)
Inductive Effect : Type :=
| EfSend (sock : nat) (pkt : OutPacket)
| EfBeginTransaction
| EfCommitTransaction
| EfSql (statement : string) (args : list SqlArg)
| EfLogError (what : string) (arg : Z).

(** [SendPacket(data)] for the packets of this part: nothing without an
    open transport. *)
Definition SendData (sock : option WorldSocket) (data : OutPacket) : list Effect :=
  match sock with
  | Some k => if IsClosed k then [] else [EfSend (sock_id k) data]
  | None => []
  end.

(** [AccountData] *)
Record AccountData : Type := mkAccountData {
  Time : time_t;
  Data : string
}.

(** [AddonInfo] *)
Record AddonInfo : Type := mkAddonInfo {
  Name : string;
  Enabled : Z;
  CRC : Z
}.

Inductive TutorialDataState : Type :=
| TUTORIALDATA_UNCHANGED
| TUTORIALDATA_CHANGED
| TUTORIALDATA_NEW.

(** The members of [WorldSession] behind the account-data, tutorial, addon
    and time-synchronisation functions. *)
Record SessionData : Type := mkSessionData {
  _accountId : Z;
  m_accountData : list AccountData;
  m_Tutorials : list Z;
  m_tutorialState : TutorialDataState;
  m_addonsList : list AddonInfo;
  m_timeSyncNextCounter : Z;
  m_pendingTimeSyncRequests : list (Z * Z);
  m_timeSyncTimer : Z;
  m_timeSyncClockDelta : Z
}.

Definition set_accountData (v : list AccountData) (d : SessionData) : SessionData :=
  mkSessionData (_accountId d) v (m_Tutorials d) (m_tutorialState d)
    (m_addonsList d) (m_timeSyncNextCounter d) (m_pendingTimeSyncRequests d)
    (m_timeSyncTimer d) (m_timeSyncClockDelta d).

Definition set_Tutorials (v : list Z) (d : SessionData) : SessionData :=
  mkSessionData (_accountId d) (m_accountData d) v (m_tutorialState d)
    (m_addonsList d) (m_timeSyncNextCounter d) (m_pendingTimeSyncRequests d)
    (m_timeSyncTimer d) (m_timeSyncClockDelta d).

Definition set_tutorialState (v : TutorialDataState) (d : SessionData) : SessionData :=
  mkSessionData (_accountId d) (m_accountData d) (m_Tutorials d) v
    (m_addonsList d) (m_timeSyncNextCounter d) (m_pendingTimeSyncRequests d)
    (m_timeSyncTimer d) (m_timeSyncClockDelta d).

Definition set_addonsList (v : list AddonInfo) (d : SessionData) : SessionData :=
  mkSessionData (_accountId d) (m_accountData d) (m_Tutorials d)
    (m_tutorialState d) v (m_timeSyncNextCounter d)
    (m_pendingTimeSyncRequests d) (m_timeSyncTimer d) (m_timeSyncClockDelta d).

Definition set_timeSync (counter : Z) (pending : list (Z * Z)) (timer : Z)
           (d : SessionData) : SessionData :=
  mkSessionData (_accountId d) (m_accountData d) (m_Tutorials d)
    (m_tutorialState d) (m_addonsList d) counter pending timer
    (m_timeSyncClockDelta d).

(** [array[index] = value]; the index is within the array at every use in
    this file's callers (an index past the end is undefined in C++ and
    leaves the list alone here). *)
Fixpoint array_set (A : Type) (index : nat) (value : A) (array : list A) : list A :=
  match array, index with
  | [], _ => []
  | _ :: rest, O => value :: rest
  | x :: rest, S i => x :: array_set i value rest
  end.

(** [mask & (1 << i)] is not zero. *)
Definition mask_has (mask : Z) (i : nat) : bool :=
  negb (Z.eqb (Z.land mask (Z.shiftl 1 (Z.of_nat i))) 0).

(** The constants of the account-data cache: [NUM_ACCOUNT_DATA_TYPES],
    [GLOBAL_CACHE_MASK] and the default-constructed [AccountData()] are in
    WorldSession.h and are parameters here. *)
Record AccountDataConsts : Type := mkAccountDataConsts {
  NUM_ACCOUNT_DATA_TYPES : nat;
  GLOBAL_CACHE_MASK : Z;
  AccountData_default : AccountData
}.

(** [uint32] arithmetic, and the conversion [uint32(v)]. *)
Definition uint32_wrap (v : Z) : Z := v mod 2 ^ 32.

(** The conversion [uint64(v)]. *)
Definition uint64_wrap (v : Z) : Z := v mod 2 ^ 64.

(** [WorldSession::SetAccountData]; [guid] is the session's [m_GUIDLow].
    The time goes to the INSERT as [uint64(time_)] and into the cache as
    it is. *)
Definition SetAccountData (consts : AccountDataConsts) (guid : ObjectGuid)
           (type : nat) (time_ : time_t) (data : string) (d : SessionData)
  : SessionData * list Effect :=
  let store :=
    set_accountData
      (array_set type (mkAccountData time_ data) (m_accountData d)) d in
  if mask_has (GLOBAL_CACHE_MASK consts) type then
    (store,
     [EfBeginTransaction;
      EfSql "DELETE FROM account_data WHERE account=? AND type=?"
        [SqlInt (_accountId d); SqlInt (Z.of_nat type)];
      EfSql "INSERT INTO account_data VALUES (?,?,?,?)"
        [SqlInt (_accountId d); SqlInt (Z.of_nat type);
         SqlInt (uint64_wrap time_); SqlText data];
      EfCommitTransaction])
  else if Z.eqb guid 0 then (d, [])
  else
    (store,
     [EfBeginTransaction;
      EfSql "DELETE FROM character_account_data WHERE guid=? AND type=?"
        [SqlInt guid; SqlInt (Z.of_nat type)];
      EfSql "INSERT INTO character_account_data VALUES (?,?,?,?)"
        [SqlInt guid; SqlInt (Z.of_nat type); SqlInt (uint64_wrap time_);
         SqlText data];
      EfCommitTransaction]).

(** A row of [SELECT type, time, data]. *)
Record AccountDataRow : Type := mkAccountDataRow {
  row_type : nat;
  row_time : time_t;
  row_data : string
}.

(** The first loop of [LoadAccountData]: the entries of the mask are reset. *)
Fixpoint reset_masked (consts : AccountDataConsts) (mask : Z) (i : nat)
         (array : list AccountData) : list AccountData :=
  match array with
  | [] => []
  | x :: rest =>
      (if mask_has mask i then AccountData_default consts else x)
      :: reset_masked consts mask (S i) rest
  end.

(** One turn of the [do ... while (result->NextRow())] of
    [LoadAccountData]. *)
Definition load_row (consts : AccountDataConsts) (mask : Z)
           (acc : list AccountData * list Effect) (row : AccountDataRow)
  : list AccountData * list Effect :=
  if Nat.leb (NUM_ACCOUNT_DATA_TYPES consts) (row_type row) then
    (fst acc,
     (snd acc ++ [EfLogError "have invalid account data type, ignore."
                    (Z.of_nat (row_type row))])%list)
  else if negb (mask_has mask (row_type row)) then
    (fst acc,
     (snd acc ++ [EfLogError
                    "have non appropriate for table account data type, ignore."
                    (Z.of_nat (row_type row))])%list)
  else
    (array_set (row_type row) (mkAccountData (row_time row) (row_data row))
       (fst acc),
     snd acc).

(** [WorldSession::LoadAccountData]; [result] is the query result, [None]
    for a null pointer. *)
Definition LoadAccountData (consts : AccountDataConsts)
           (result : option (list AccountDataRow)) (mask : Z) (d : SessionData)
  : SessionData * list Effect :=
  let cleared := reset_masked consts mask 0 (m_accountData d) in
  match result with
  | None => (set_accountData cleared d, [])
  | Some rows =>
      let loaded := fold_left (load_row consts mask) rows (cleared, []) in
      (set_accountData (fst loaded) d, snd loaded)
  end.

(** The [for] of [SendAccountDataTimes]: the time of every type of the
    mask, in index order. *)
Fixpoint masked_times (mask : Z) (i : nat) (array : list AccountData) : list Field :=
  match array with
  | [] => []
  | x :: rest =>
      (if mask_has mask i then [U32 (uint32_wrap (Time x))] else [])
      ++ masked_times mask (S i) rest
  end.

(** [WorldSession::SendAccountDataTimes]; [m_accountData] holds
    [NUM_ACCOUNT_DATA_TYPES] entries. *)
Definition SendAccountDataTimes (sock : option WorldSocket) (now : time_t)
           (mask : Z) (d : SessionData) : list Effect :=
  SendData sock
    (mkOutPacket SMSG_ACCOUNT_DATA_TIMES
       ([U32 (uint32_wrap now); U8 1; U32 (uint32_wrap mask)]
        ++ masked_times mask 0 (m_accountData d))).

(** [m_Tutorials[iI] = fields[iI].GetUInt32()] for [iI] below 8. *)
Definition store_tutorial_row (row : list Z) (tutorials : list Z) : list Z :=
  fold_left (fun acc iI => array_set iI (nth iI row 0) acc) (seq 0 8) tutorials.

(** [WorldSession::LoadTutorialsData]; [result] is the query result. *)
Definition LoadTutorialsData (result : option (list (list Z))) (d : SessionData)
  : SessionData :=
  let zeroed := map (fun _ => 0) (m_Tutorials d) in
  match result with
  | None => set_tutorialState TUTORIALDATA_NEW (set_Tutorials zeroed d)
  | Some rows =>
      set_tutorialState TUTORIALDATA_UNCHANGED
        (set_Tutorials
           (fold_left (fun acc row => store_tutorial_row row acc) rows zeroed)
           d)
  end.

(** [WorldSession::SendTutorialsData] *)
Definition SendTutorialsData (sock : option WorldSocket) (d : SessionData)
  : list Effect :=
  SendData sock (mkOutPacket SMSG_TUTORIAL_FLAGS (map U32 (m_Tutorials d))).

(** [WorldSession::SaveTutorialsData] *)
Definition SaveTutorialsData (d : SessionData) : SessionData * list Effect :=
  (set_tutorialState TUTORIALDATA_UNCHANGED d,
   match m_tutorialState d with
   | TUTORIALDATA_CHANGED =>
       [EfSql "UPDATE character_tutorial SET tut0=?, tut1=?, tut2=?, tut3=?, tut4=?, tut5=?, tut6=?, tut7=? WHERE account = ?"
          (map SqlInt (m_Tutorials d) ++ [SqlInt (_accountId d)])]
   | TUTORIALDATA_NEW =>
       [EfSql "INSERT INTO character_tutorial (account,tut0,tut1,tut2,tut3,tut4,tut5,tut6,tut7) VALUES (?, ?, ?, ?, ?, ?, ?, ?, ?)"
          (SqlInt (_accountId d) :: map SqlInt (m_Tutorials d))]
   | TUTORIALDATA_UNCHANGED => []
   end).

(** The public key [tdata] of [SendAddonsInfo], byte by byte. *)
Definition tdata : list Z :=
  [
     195; 91; 80; 132; 185; 62; 50; 66; 140; 208; 199; 72; 250; 14; 93; 84;
     90; 163; 14; 20; 186; 158; 13; 185; 93; 139; 238; 182; 132; 147; 69; 117;
     255; 49; 254; 47; 100; 63; 61; 109; 7; 217; 68; 155; 64; 133; 89; 52;
     78; 16; 225; 231; 67; 105; 239; 124; 22; 252; 180; 237; 27; 149; 40; 168;
     35; 118; 81; 49; 87; 48; 43; 121; 8; 80; 16; 28; 74; 26; 44; 200;
     139; 143; 5; 45; 34; 61; 219; 90; 36; 122; 15; 19; 80; 55; 143; 90;
     204; 158; 4; 68; 14; 135; 1; 212; 163; 21; 148; 22; 52; 198; 194; 195;
     251; 73; 254; 225; 249; 218; 140; 80; 60; 190; 44; 187; 87; 237; 70; 185;
     173; 139; 198; 223; 14; 214; 15; 190; 128; 179; 139; 30; 119; 207; 173; 34;
     207; 183; 75; 207; 251; 240; 107; 17; 69; 45; 122; 129; 24; 242; 146; 126;
     152; 86; 93; 94; 105; 114; 10; 13; 3; 10; 133; 162; 133; 156; 203; 251;
     86; 110; 143; 68; 187; 143; 2; 34; 104; 99; 151; 188; 133; 186; 168; 247;
     181; 64; 104; 60; 119; 134; 111; 75; 215; 136; 202; 138; 215; 206; 54; 240;
     69; 110; 213; 100; 121; 15; 23; 252; 100; 221; 16; 111; 243; 245; 224; 166;
     195; 251; 27; 140; 41; 239; 142; 229; 52; 203; 209; 42; 206; 121; 195; 154;
     13; 54; 234; 1; 224; 170; 145; 32; 84; 240; 114; 216; 30; 199; 137; 210].

(** The CRC of a standard addon. *)
Definition standard_addon_crc : Z := 0x4c1c776d.

(** The fields [SendAddonsInfo] appends for one addon. *)
Definition addon_fields (itr : AddonInfo) : list Field :=
  let unk2 := negb (Z.eqb (CRC itr) standard_addon_crc) in
  ([U8 2; U8 1; U8 (if unk2 then 1 else 0)]
   ++ (if unk2 then [Bytes tdata] else [])
   ++ [U32 0; U8 0])%list.

(** [WorldSession::SendAddonsInfo] *)
Definition SendAddonsInfo (sock : option WorldSocket) (d : SessionData)
  : SessionData * list Effect :=
  (set_addonsList [] d,
   SendData sock
     (mkOutPacket SMSG_ADDON_INFO
        (flat_map addon_fields (m_addonsList d) ++ [U32 0])%list)).

(** The delimiter of the message of the day, ['@'] (code 64). *)
Definition motd_delimiter : Ascii.ascii := Ascii.ascii_of_nat 64.

(** [while (std::getline(ss, token, '@')) lines.push_back(token);] over the
    characters still to read.  [token] is [Some] of the characters
    extracted by the call of [getline] under way, [None] between two calls:
    a call that finds the end of the input at once fails and ends the loop;
    a call that has extracted characters when the input ends yields them. *)
Fixpoint getline_loop (token : option string) (input : string) : list string :=
  match input with
  | EmptyString =>
      match token with
      | Some text => [text]
      | None => []
      end
  | String c rest =>
      let text := match token with Some text => text | None => EmptyString end in
      if Ascii.eqb c motd_delimiter then text :: getline_loop None rest
      else getline_loop (Some (text ++ String c EmptyString)) rest
  end.

(** [WorldSession::SendMotd]; [motd] is [sWorld.GetMotd()]. *)
Definition SendMotd (sock : option WorldSocket) (motd : string) : list Effect :=
  let lines := getline_loop None motd in
  SendData sock
    (mkOutPacket SMSG_MOTD
       (U32 (Z.of_nat (List.length lines)) :: map CString lines)).

(** [m_pendingTimeSyncRequests[key] = value] on the map kept as a list of
    bindings. *)
Definition map_assign (key value : Z) (bindings : list (Z * Z)) : list (Z * Z) :=
  (key, value) :: filter (fun kv => negb (Z.eqb (fst kv) key)) bindings.

Fixpoint map_find (key : Z) (bindings : list (Z * Z)) : option Z :=
  match bindings with
  | [] => None
  | (k, v) :: rest => if Z.eqb k key then Some v else map_find key rest
  end.

(** [WorldSession::ResetTimeSync] *)
Definition ResetTimeSync (d : SessionData) : SessionData :=
  set_timeSync 0 [] (m_timeSyncTimer d) d.

(** [WorldSession::SendTimeSync]; [msTime] is [WorldTimer::getMSTime()]. *)
Definition SendTimeSync (sock : option WorldSocket) (msTime : Z)
           (d : SessionData) : SessionData * list Effect :=
  (set_timeSync
     (uint32_wrap (m_timeSyncNextCounter d + 1))
     (map_assign (m_timeSyncNextCounter d) msTime (m_pendingTimeSyncRequests d))
     (if Z.eqb (m_timeSyncNextCounter d) 0 then 5000 else 10000)
     d,
   SendData sock
     (mkOutPacket SMSG_TIME_SYNC_REQ [U32 (m_timeSyncNextCounter d)])).

(** Several time-sync requests in a row, at the given clock readings. *)
Fixpoint SendTimeSyncs (sock : option WorldSocket) (msTimes : list Z)
         (d : SessionData) : SessionData * list Effect :=
  match msTimes with
  | [] => (d, [])
  | msTime :: rest =>
      let first := SendTimeSync sock msTime d in
      let others := SendTimeSyncs sock rest (fst first) in
      (fst others, (snd first ++ snd others)%list)
  end.

(** [int64] arithmetic, two's complement. *)
Definition int64_wrap (v : Z) : Z := (v + 2 ^ 63) mod 2 ^ 64 - 2 ^ 63.

(** [WorldSession::SynchronizeMovement]: the server time written to
    [movementInfo.stime] and whether the fallback was taken; [ctime] is
    [movementInfo.ctime], [currentMSTime] is [World::GetCurrentMSTime()]. *)
Definition SynchronizeMovement (ctime currentMSTime : Z) (d : SessionData)
  : Z * bool :=
  let movementTime := int64_wrap (ctime + m_timeSyncClockDelta d) in
  if Z.eqb (m_timeSyncClockDelta d) 0
     || Z.ltb movementTime 0
     || Z.ltb 0xFFFFFFFF movementTime
  then (currentMSTime, true)
  else (movementTime, false).

(** ** Reference values for the caches *)

(** Every line followed by the delimiter, in one string. *)
Fixpoint terminated_lines (lines : list string) : string :=
  match lines with
  | [] => EmptyString
  | line :: rest => line ++ String motd_delimiter (terminated_lines rest)
  end.

(** Whether the text read so far ends inside a line: [inside] at the end of
    the input, and after each character whether it was not the delimiter. *)
Fixpoint unterminated (inside : bool) (input : string) : bool :=
  match input with
  | EmptyString => inside
  | String c rest => unterminated (negb (Ascii.eqb c motd_delimiter)) rest
  end.

Fixpoint has_delimiter (text : string) : bool :=
  match text with
  | EmptyString => false
  | String c rest => Ascii.eqb c motd_delimiter || has_delimiter rest
  end.

(** [m_Socket && !m_Socket->IsClosed()] on a transport reference. *)
Definition socket_is_open (sock : option WorldSocket) : bool :=
  match sock with
  | Some k => negb (IsClosed k)
  | None => false
  end.

(** The characters extracted by the call of [getline] under way. *)
Definition token_text (token : option string) : string :=
  match token with
  | Some text => text
  | None => EmptyString
  end.

Definition token_open (token : option string) : bool :=
  match token with
  | Some _ => true
  | None => false
  end.

(** What [SendTimeSync] sends for a counter value. *)
Definition time_sync_request (sock : option WorldSocket) (counter : nat)
  : list Effect :=
  SendData sock (mkOutPacket SMSG_TIME_SYNC_REQ [U32 (Z.of_nat counter)]).

(** The last row of the given type, as [LoadAccountData] stores it. *)
Definition last_row_of (i : nat) (rows : list AccountDataRow) : option AccountData :=
  match find (fun row => Nat.eqb (row_type row) i) (rev rows) with
  | Some row => Some (mkAccountData (row_time row) (row_data row))
  | None => None
  end.

(** Example constants: eight account-data types, the global ones being 0, 2
    and 4; the movement opcodes 218 and 238. *)
Definition example_consts : AccountDataConsts :=
  mkAccountDataConsts 8 21 (mkAccountData 0 "").

Definition example_ops : MovementOpcodes := mkMovementOpcodes 218 238.

Definition example_data : SessionData :=
  mkSessionData 42 (repeat (mkAccountData 0 "") 8) (repeat 0 8)
    TUTORIALDATA_UNCHANGED
    [mkAddonInfo "Blizzard_AuctionUI" 1 standard_addon_crc;
     mkAddonInfo "ThirdParty" 1 7]
    0 [] 0 500.

(** ** Laws of the monad *)

Lemma after_nil (A : Type) (o : Outcome A) : after [] o = o.
Proof. destruct o; reflexivity. Qed.

Lemma after_app (A : Type) (t1 t2 : list Event) (o : Outcome A) :
  after t1 (after t2 o) = after (t1 ++ t2) o.
Proof. destruct o; simpl; rewrite ?app_assoc; reflexivity. Qed.

Lemma bind_get (A : Type) (f : WorldSession -> M A) (s : WorldSession) :
  (x <- get ;; f x) s = f s s.
Proof. unfold bind, get. apply after_nil. Qed.

Lemma bind_modify (A : Type) (g : WorldSession -> WorldSession) (m : M A)
      (s : WorldSession) :
  (modify g ;; m) s = m (g s).
Proof. unfold bind, modify. apply after_nil. Qed.

Lemma bind_emit (A : Type) (e : Event) (m : M A) (s : WorldSession) :
  (emit e ;; m) s = after [e] (m s).
Proof. reflexivity. Qed.

Lemma bind_ret (A B : Type) (a : A) (f : A -> M B) (s : WorldSession) :
  (x <- ret a ;; f x) s = f a s.
Proof. unfold bind, ret. apply after_nil. Qed.

Lemma try_catch_returned (A : Type) (body handler : M A) (s s1 : WorldSession)
      (a : A) (tr : list Event) :
  body s = Returned a s1 tr -> try_catch body handler s = Returned a s1 tr.
Proof. intros H. unfold try_catch. rewrite H. reflexivity. Qed.

Lemma after_returned (A : Type) (t : list Event) (o : Outcome A) (a : A)
      (s : WorldSession) (tr : list Event) :
  after t o = Returned a s tr ->
  exists t', o = Returned a s t' /\ tr = app t t'.
Proof.
  destruct o as [a0 s0 t0| | |]; simpl; intros H; try discriminate H.
  injection H as -> -> <-. exists t0. split; reflexivity.
Qed.

Lemma bind_returned (A B : Type) (m : M A) (f : A -> M B) (s s' : WorldSession)
      (b : B) (tr : list Event) :
  (x <- m ;; f x) s = Returned b s' tr ->
  exists a s1 t1 t2,
    m s = Returned a s1 t1 /\ f a s1 = Returned b s' t2 /\ tr = app t1 t2.
Proof.
  unfold bind. destruct (m s) as [a s1 t1| | |]; intros H; try discriminate H.
  apply after_returned in H. destruct H as (t2 & H & ->).
  exists a, s1, t1, t2. repeat split. exact H.
Qed.

Section Admission.

Variable world : Env.

(** ** Admission control in the two drains *)

Lemma Update_dispatch_loggedin (packet : WorldPacket) (s : WorldSession) :
  status (opcodeTable world (GetOpcode packet)) = STATUS_LOGGEDIN ->
  Update_dispatch world packet s =
  match _player s with
  | None => dropped_for_missing_player packet s
  | Some p =>
      if IsInWorld p then
        ExecuteOpcode world (opcodeTable world (GetOpcode packet)) packet s
      else Returned tt s []
  end.
Proof.
  intros Hst. unfold Update_dispatch. rewrite bind_get, Hst.
  destruct (_player s) as [p|].
  - destruct (IsInWorld p); reflexivity.
  - unfold dropped_for_missing_player.
    destruct (m_playerRecentlyLogout s); reflexivity.
Qed.

(** C1 (as amended).  On the generic drain a LOGGED-IN envelope reaches
    [ExecuteOpcode] exactly when a player is attached and in world; without
    player it is dropped, with the "has not logged in yet" warning unless the
    recent-logout flag is set; with a player that is not in world it is
    dropped silently.  On the map drain a LOGGED-IN envelope is handed to
    [ExecuteOpcode] whatever the player reference is. *)
Theorem C1_loggedin_admission (packet : WorldPacket) (s : WorldSession) :
  status (opcodeTable world (GetOpcode packet)) = STATUS_LOGGEDIN ->
  (_player s = None ->
   Update_packet world packet s = dropped_for_missing_player packet s)
  /\ (forall p, _player s = Some p -> IsInWorld p = false ->
      Update_packet world packet s = Returned tt s [])
  /\ (forall p, _player s = Some p -> IsInWorld p = true ->
      Update_packet world packet s =
      try_catch
        (ExecuteOpcode world (opcodeTable world (GetOpcode packet)) packet)
        (ProcessByteBufferException world packet) s)
  /\ UpdateMap_packet world packet s =
     try_catch
       (ExecuteOpcode world (opcodeTable world (GetOpcode packet)) packet)
       (ProcessByteBufferException world packet) s.
Proof.
  intros Hst. repeat split.
  - intros Hp. unfold Update_packet, try_catch.
    rewrite (Update_dispatch_loggedin _ _ Hst), Hp. reflexivity.
  - intros p Hp Hw. unfold Update_packet, try_catch.
    rewrite (Update_dispatch_loggedin _ _ Hst), Hp, Hw. reflexivity.
  - intros p Hp Hw. unfold Update_packet, try_catch.
    rewrite (Update_dispatch_loggedin _ _ Hst), Hp, Hw. reflexivity.
  - unfold UpdateMap_packet. rewrite Hst. reflexivity.
Qed.

(** [ExecuteOpcode] is its handler, run on the session with delayed
    teleport allowed, followed by the closing steps. *)
Lemma ExecuteOpcode_runs_handler (opHandle : OpcodeHandler)
      (packet : WorldPacket) (s0 : WorldSession) :
  ExecuteOpcode world opHandle packet s0 =
  match handler opHandle packet (handed_to_handler s0) with
  | Returned read s1 t => after t (handler_returned world read s1)
  | Thrown s1 t => Thrown s1 t
  | NullDereference t => NullDereference t
  | LoopBound => LoopBound
  end.
Proof.
  assert (Hpost : forall read s1,
    (s <- get ;;
     match _player s with
     | Some _ =>
         update_player (SetCanDelayTeleport false) ;;
         p <- deref_player ;;
         when (IsHasDelayedTeleport p) (player_call TeleportToDelayedDest)
     | None => ret tt
     end ;;
     when (has_unread_tail world read) (LogUnprocessedTail read)) s1
    = handler_returned world read s1).
  { intros read s1. rewrite bind_get. unfold handler_returned.
    destruct s1 as [g pl so rs lt iq ld lo rl sv st kt q qm ms].
    destruct pl as [p|]; cbn [_player].
    - destruct (IsHasDelayedTeleport p) eqn:Hd;
        destruct (has_unread_tail world read) eqn:Ht;
        unfold bind, update_player, deref_player, player_call, modify, emit,
          when, ret, LogUnprocessedTail, bind; cbn; rewrite ?Hd, ?Ht; cbn;
          rewrite ?Hd; reflexivity.
    - destruct (has_unread_tail world read) eqn:Ht;
        unfold bind, when, ret, LogUnprocessedTail, emit; cbn; reflexivity. }
  unfold ExecuteOpcode. rewrite bind_get.
  assert (Hpre : forall (k : M unit),
    (match _player s0 with
     | Some _ => update_player (SetCanDelayTeleport true)
     | None => ret tt
     end ;; k) s0 = k (handed_to_handler s0)).
  { intros k. unfold handed_to_handler.
    destruct (_player s0) as [p|] eqn:Hp.
    - unfold bind at 1. unfold update_player, bind, deref_player.
      rewrite Hp. cbn. rewrite !after_nil. reflexivity.
    - rewrite bind_ret. reflexivity. }
  rewrite Hpre. unfold bind at 1.
  destruct (handler opHandle packet (handed_to_handler s0))
    as [read s1 t| | |]; try reflexivity.
  rewrite Hpost. reflexivity.
Qed.

Lemma try_catch_ExecuteOpcode (opHandle : OpcodeHandler)
      (packet : WorldPacket) (s0 : WorldSession) :
  try_catch (ExecuteOpcode world opHandle packet)
    (ProcessByteBufferException world packet) s0 =
  match handler opHandle packet (handed_to_handler s0) with
  | Returned read s1 t => after t (handler_returned world read s1)
  | Thrown s1 t => after t (ProcessByteBufferException world packet s1)
  | NullDereference t => NullDereference t
  | LoopBound => LoopBound
  end.
Proof.
  unfold try_catch. rewrite ExecuteOpcode_runs_handler.
  destruct (handler opHandle packet (handed_to_handler s0))
    as [read s1 t| | |]; reflexivity.
Qed.

(** C9.  On the generic drain an AUTHED envelope of a queued session is
    answered by the "not pass queue yet" warning alone, whatever its handler
    is.  Otherwise the recent-logout flag is cleared, unless the opcode is
    [CMSG_SET_ACTIVE_VOICE_CHANNEL], and the handler of the opcode runs on
    that session (with delayed teleport allowed on an attached player): when
    it returns, its effects come first in the trace and [ExecuteOpcode]
    finishes on the session it has left; when it runs past its payload, its
    effects are followed by [ProcessByteBufferException]. *)
Theorem C9_authed_admission (packet : WorldPacket) (s : WorldSession) :
  status (opcodeTable world (GetOpcode packet)) = STATUS_AUTHED ->
  (m_inQueue s = true ->
   Update_packet world packet s =
   Returned tt s
     [EvLogUnexpectedOpcode (GetOpcode packet) "the player not pass queue yet"])
  /\ (m_inQueue s = false ->
      Update_packet world packet s =
      match
        handler (opcodeTable world (GetOpcode packet)) packet
          (handed_to_handler
             (if Z.eqb (GetOpcode packet) (CMSG_SET_ACTIVE_VOICE_CHANNEL world)
              then s else set_playerRecentlyLogout false s))
      with
      | Returned read s1 t => after t (handler_returned world read s1)
      | Thrown s1 t => after t (ProcessByteBufferException world packet s1)
      | NullDereference t => NullDereference t
      | LoopBound => LoopBound
      end).
Proof.
  intros Hst. split; intros Hq.
  - apply try_catch_returned. unfold Update_dispatch.
    rewrite bind_get, Hst, Hq. reflexivity.
  - unfold Update_packet, Update_dispatch.
    assert (E : forall s0,
      try_catch
        (ExecuteOpcode world (opcodeTable world (GetOpcode packet)) packet)
        (ProcessByteBufferException world packet) s0 =
      match
        handler (opcodeTable world (GetOpcode packet)) packet
          (handed_to_handler s0)
      with
      | Returned read s1 t => after t (handler_returned world read s1)
      | Thrown s1 t => after t (ProcessByteBufferException world packet s1)
      | NullDereference t => NullDereference t
      | LoopBound => LoopBound
      end).
    { intros s0. apply try_catch_ExecuteOpcode. }
    rewrite <- E. unfold try_catch.
    rewrite bind_get, Hst, Hq.
    destruct (Z.eqb (GetOpcode packet) (CMSG_SET_ACTIVE_VOICE_CHANNEL world)).
    + simpl. rewrite bind_ret. reflexivity.
    + simpl. rewrite bind_modify. reflexivity.
Qed.

End Admission.

Section Queues.

Variable world : Env.

(** ** Ingestion and the two drains *)


Lemma Update_drain_closed (q : list WorldPacket) (s : WorldSession) :
  socket_open s = false -> Update_drain world q s = Returned tt s [].
Proof. intros H. destruct q; simpl; rewrite ?H; reflexivity. Qed.

Lemma UpdateMap_drain_closed (i : nat) (q : list WorldPacket) (s : WorldSession) :
  socket_open s = false -> UpdateMap_drain world i q s = Returned tt s [].
Proof. intros H. destruct q; simpl; rewrite ?H; reflexivity. Qed.

Lemma set_messager_same (s : WorldSession) :
  m_messager s = [] -> set_messager [] s = s.
Proof. destruct s; simpl; intros ->; reflexivity. Qed.

Lemma Messager_Execute_empty (s : WorldSession) :
  m_messager s = [] -> Messager_Execute world s = Returned tt s [].
Proof.
  intros H. unfold Messager_Execute. rewrite bind_get, bind_modify, H.
  simpl. unfold ret. rewrite (set_messager_same _ H). reflexivity.
Qed.

(** Once the transport is found closed after some envelopes, whatever
    follows them in the swapped-out queue changes nothing. *)
Lemma Update_drain_prefix (pre post : list WorldPacket) :
  forall s s1 tr,
    Update_drain world pre s = Returned tt s1 tr ->
    socket_open s1 = false ->
    Update_drain world (pre ++ post) s = Returned tt s1 tr.
Proof.
  induction pre as [|p pre IH]; intros s s1 tr H Hc.
  - simpl in H. injection H as <- <-. apply Update_drain_closed. exact Hc.
  - simpl in H |- *. destruct (socket_open s) eqn:Ho.
    + unfold bind in H |- *.
      destruct (Update_packet world p s) as [a s2 t2| | |]; try discriminate H.
      destruct (Update_drain world pre s2) as [u s3 t3| | |] eqn:E;
        try discriminate H.
      simpl in H. injection H as Hu Hs Ht. subst.
      rewrite (IH _ _ _ E Hc). reflexivity.
    + injection H as <- <-. reflexivity.
Qed.

(** A tick with nothing posted and nothing queued is the state switch. *)
Lemma Update_idle (now : time_t) (s : WorldSession) :
  m_messager s = [] -> m_recvQueue s = [] ->
  Update world now s =
  after [EvLock m_recvQueueLock; EvUnlock m_recvQueueLock]
    (Update_state world now s).
Proof.
  intros Hm Hq. unfold Update, bind at 1.
  rewrite (Messager_Execute_empty _ Hm), after_nil.
  rewrite bind_emit, bind_get, bind_modify, bind_emit, Hq.
  unfold bind at 1. simpl. rewrite after_nil, after_app.
  destruct s as [g pl so rs lt iq ld lo rl sv st kt q qm ms].
  simpl in Hq. subst. reflexivity.
Qed.

(** C10.  In both drains an envelope that comes up while the transport is
    null or closed ends the loop: neither it nor any envelope behind it is
    dispatched and nothing is logged, whatever the queue holds; this is so at
    the start of the drain and after any envelope whose processing left the
    transport closed.  The swapped-out envelopes are gone: the session's
    queue has been emptied by the swap. *)
Theorem C10_closed_transport_discards :
  (forall q s, socket_open s = false ->
     Update_drain world q s = Returned tt s [])
  /\ (forall i q s, socket_open s = false ->
        UpdateMap_drain world i q s = Returned tt s [])
  /\ (forall packet rest s s1 tr,
        socket_open s = true ->
        Update_packet world packet s = Returned tt s1 tr ->
        socket_open s1 = false ->
        Update_drain world (packet :: rest) s = Returned tt s1 tr)
  /\ (forall pre post s s1 tr,
        Update_drain world pre s = Returned tt s1 tr ->
        socket_open s1 = false ->
        Update_drain world (pre ++ post) s = Returned tt s1 tr)
  /\ (forall i packet rest s s1 tr,
        socket_open s = true ->
        (i < List.length (packet :: rest))%nat ->
        UpdateMap_packet world packet s = Returned tt s1 tr ->
        socket_open s1 = false ->
        UpdateMap_drain world i (packet :: rest) s = Returned tt s1 tr)
  /\ (forall s, socket_open s = false ->
        UpdateMap world s =
        Returned tt (set_recvQueueMap [] s)
          [EvLock m_recvQueueMapLock; EvUnlock m_recvQueueMapLock])
  /\ (forall now s, socket_open s = false -> m_messager s = [] ->
        Update world now s =
        after [EvLock m_recvQueueLock; EvUnlock m_recvQueueLock]
          (Update_state world now (set_recvQueue [] s))).
Proof.
  split; [exact Update_drain_closed|].
  split; [exact UpdateMap_drain_closed|].
  split; [|split; [|split; [|split]]].
  - intros packet rest s s1 tr Ho Hp Hc. simpl. rewrite Ho.
    unfold bind. rewrite Hp, (Update_drain_closed rest _ Hc). simpl.
    rewrite app_nil_r. reflexivity.
  - intros pre post. apply Update_drain_prefix.
  - intros i packet rest s s1 tr Ho Hi Hp Hc.
    apply Nat.ltb_lt in Hi. cbn [UpdateMap_drain]. rewrite Ho, Hi.
    unfold bind. simpl. rewrite Hp, (UpdateMap_drain_closed _ rest _ Hc). simpl.
    rewrite app_nil_r. reflexivity.
  - intros s Hc. unfold UpdateMap.
    rewrite bind_emit, bind_get, bind_modify, bind_emit.
    rewrite UpdateMap_drain_closed by exact Hc. reflexivity.
  - intros now s Hc Hm. unfold Update, bind at 1.
    rewrite (Messager_Execute_empty _ Hm), after_nil.
    rewrite bind_emit, bind_get, bind_modify, bind_emit.
    unfold bind at 1. rewrite Update_drain_closed by exact Hc.
    rewrite !after_nil, after_app. reflexivity.
Qed.

End Queues.

(** ** The Logout Protocol returns *)

Lemma set_player_same (s : WorldSession) (p : Player) :
  _player s = Some p -> set_player (Some p) s = s.
Proof. destruct s; simpl; intros ->; reflexivity. Qed.

Lemma keeps_ret (A : Type) (a : A) : keeps_player (ret a).
Proof.
  intros s p Hp. exists a, p, []. rewrite (set_player_same _ Hp). reflexivity.
Qed.

Lemma keeps_emit (e : Event) : keeps_player (emit e).
Proof.
  intros s p Hp. exists tt, p, [e]. rewrite (set_player_same _ Hp). reflexivity.
Qed.

Lemma keeps_get : keeps_player get.
Proof.
  intros s p Hp. exists s, p, []. rewrite (set_player_same _ Hp). reflexivity.
Qed.

Lemma keeps_deref : keeps_player deref_player.
Proof.
  intros s p Hp. exists p, p, []. rewrite (set_player_same _ Hp).
  unfold deref_player. rewrite Hp. reflexivity.
Qed.

Lemma keeps_bind (A B : Type) (m : M A) (f : A -> M B) :
  keeps_player m -> (forall a, keeps_player (f a)) -> keeps_player (bind m f).
Proof.
  intros Hm Hf s p Hp.
  destruct (Hm s p Hp) as (a & p1 & t1 & E1).
  destruct (Hf a (set_player (Some p1) s) p1 eq_refl) as (b & p2 & t2 & E2).
  exists b, p2, (app t1 t2). unfold bind. rewrite E1, E2. reflexivity.
Qed.

Lemma keeps_update_player (f : Player -> Player) : keeps_player (update_player f).
Proof.
  intros s p Hp. exists tt, (f p), [].
  unfold update_player, bind, deref_player, modify. rewrite Hp. reflexivity.
Qed.

Lemma keeps_player_call (c : PlayerCall) : keeps_player (player_call c).
Proof.
  unfold player_call. apply keeps_bind; [apply keeps_deref|].
  intros a. apply keeps_emit.
Qed.

Lemma keeps_when (b : bool) (m : M unit) :
  keeps_player m -> keeps_player (when b m).
Proof. intros H. destruct b; [exact H | apply keeps_ret]. Qed.

Lemma keeps_for_each (A : Type) (l : list A) (body : A -> M unit) :
  (forall x, keeps_player (body x)) -> keeps_player (for_each l body).
Proof.
  intros H. induction l as [|x l IH]; simpl.
  - apply keeps_ret.
  - apply keeps_bind; [apply H | intros _; exact IH].
Qed.

Lemma keeps_ack : keeps_player HandleMoveWorldportAckOpcode.
Proof.
  unfold HandleMoveWorldportAckOpcode.
  apply keeps_bind; [apply keeps_player_call|].
  intros _. apply keeps_update_player.
Qed.

(** The loop [while (_player->IsBeingTeleportedFar())
    HandleMoveWorldportAckOpcode();] stays within its bound. *)
Lemma keeps_teleport_loop :
  keeps_player
    (while_do teleport_loop_bound player_teleported_far
       HandleMoveWorldportAckOpcode).
Proof.
  intros s p Hp. destruct (IsBeingTeleportedFar p) eqn:Ht.
  - exists tt, (set_IsBeingTeleportedFar false p),
      [EvPlayer (GetGUIDLow p) MoveWorldportAck].
    destruct s; simpl in Hp; subst. destruct p; simpl in Ht; subst.
    reflexivity.
  - exists tt, p, [].
    destruct s; simpl in Hp; subst. destruct p; simpl in Ht; subst.
    reflexivity.
Qed.

(** The loop [while (_player && _player->IsBeingTeleportedFar())
    HandleMoveWorldportAckOpcode();] stays within its bound. *)
Lemma keeps_guarded_teleport_loop :
  keeps_player
    (while_do teleport_loop_bound player_and_teleported_far
       HandleMoveWorldportAckOpcode).
Proof.
  intros s p Hp. destruct (IsBeingTeleportedFar p) eqn:Ht.
  - exists tt, (set_IsBeingTeleportedFar false p),
      [EvPlayer (GetGUIDLow p) MoveWorldportAck].
    destruct s; simpl in Hp; subst. destruct p; simpl in Ht; subst.
    reflexivity.
  - exists tt, p, [].
    destruct s; simpl in Hp; subst. destruct p; simpl in Ht; subst.
    reflexivity.
Qed.

Lemma tears_bind (A B : Type) (m : M A) (f : A -> M B) :
  keeps_player m -> (forall a, tears_down (f a)) -> tears_down (bind m f).
Proof.
  intros Hm Hf s p Hp.
  destruct (Hm s p Hp) as (a & p1 & t1 & E1).
  destruct (Hf a (set_player (Some p1) s) p1 eq_refl) as (b & t2 & E2).
  exists b, (app t1 t2). unfold bind. rewrite E1, E2. reflexivity.
Qed.

Lemma tears_last :
  tears_down
    (SetPlayer None 0 ;;
     SendPacket SMSG_LOGOUT_COMPLETE ;;
     emit EvSqlCharactersOffline ;;
     emit (EvLogDebug "SESSION: Sent SMSG_LOGOUT_COMPLETE Message" 0)).
Proof.
  intros s p Hp.
  destruct s as [g pl so rs lt iq ld lo rl sv st kt q qm ms].
  destruct so as [[i c]|]; [destruct c|]; eexists; eexists; reflexivity.
Qed.

Ltac keeps :=
  repeat first
    [ apply keeps_ret | apply keeps_emit | apply keeps_get
    | apply keeps_deref | apply keeps_player_call
    | apply keeps_update_player | apply keeps_teleport_loop
    | apply keeps_ack
    | apply keeps_when
    | apply keeps_for_each; intros ?
    | match goal with
      | |- keeps_player (if ?c then _ else _) => destruct c
      | |- keeps_player (match ?x with Some _ => _ | None => _ end) =>
          destruct x
      end
    | apply keeps_bind; [|intros ?] ].

Lemma keeps_TeleportToHomebind : keeps_player Player_TeleportToHomebind.
Proof. unfold Player_TeleportToHomebind. keeps. Qed.

Lemma keeps_RemoveFromGroup : keeps_player Player_RemoveFromGroup.
Proof. unfold Player_RemoveFromGroup. keeps. Qed.

Lemma tears_LogoutPlayer_teardown : tears_down LogoutPlayer_teardown.
Proof.
  unfold LogoutPlayer_teardown.
  repeat (apply tears_bind;
          [solve [keeps; first [apply keeps_TeleportToHomebind
                               | apply keeps_RemoveFromGroup]; keeps | keeps]
          | intros ?]).
  apply tears_last.
Qed.

Lemma LogoutPlayer_without_player (now : time_t) (s : WorldSession) :
  _player s = None -> LogoutPlayer now s = Returned tt (logged_out now s) [].
Proof.
  intros Hp. destruct s as [g pl so rs lt iq ld lo rl sv st kt q qm ms].
  simpl in Hp. subst. reflexivity.
Qed.

Lemma LogoutPlayer_with_player (now : time_t) (s : WorldSession) (p : Player) :
  _player s = Some p ->
  exists tr, LogoutPlayer now s = Returned tt (logged_out now s) tr.
Proof.
  intros Hp.
  destruct (keeps_guarded_teleport_loop s Hp) as (u & p1 & t1 & E1).
  destruct (tears_LogoutPlayer_teardown
              (set_playerLogout true (set_player (Some p1) s)) (p := p1) eq_refl)
    as (v & t2 & E2).
  unfold LogoutPlayer, bind at 1. rewrite E1.
  rewrite bind_modify, bind_get. simpl _player. cbv iota.
  unfold bind at 1. rewrite E2.
  destruct s as [g pl so rs lt iq ld lo rl sv st kt q qm ms].
  simpl in Hp. subst. simpl. eexists. reflexivity.
Qed.

(** [LogoutPlayer] always returns, and the session it leaves is
    [logged_out]. *)
Lemma LogoutPlayer_returns (now : time_t) (s : WorldSession) :
  exists tr, LogoutPlayer now s = Returned tt (logged_out now s) tr.
Proof.
  destruct (_player s) as [p|] eqn:Hp.
  - exact (LogoutPlayer_with_player now s Hp).
  - exists []. exact (LogoutPlayer_without_player now s Hp).
Qed.

Lemma LogoutPlayer_state (now : time_t) (s s' : WorldSession) (u : unit)
      (tr : list Event) :
  LogoutPlayer now s = Returned u s' tr ->
  m_sessionState s' = WORLD_SESSION_STATE_CHAR_SELECTION.
Proof.
  intros H. destruct (LogoutPlayer_returns now s) as [t E].
  rewrite E in H. injection H as _ <- _. reflexivity.
Qed.

Lemma SetOffline_state (now : time_t) (s s' : WorldSession) (u : unit)
      (tr : list Event) :
  SetOffline now s = Returned u s' tr ->
  m_sessionState s' = WORLD_SESSION_STATE_OFFLINE.
Proof.
  destruct s as [g pl so rs lt iq ld lo rl sv st kt q qm ms].
  destruct pl as [p|]; destruct so as [[i c]|]; try destruct c;
    intros H; injection H as _ <- _; reflexivity.
Qed.

(** The persisted identity does not survive the logout of a player:
    [SetPlayer(nullptr, 0)] overwrites it. *)
Lemma LogoutPlayer_clears_GUIDLow (now : time_t) (s : WorldSession) (p : Player) :
  _player s = Some p ->
  exists s' tr,
    LogoutPlayer now s = Returned tt s' tr
    /\ _player s' = None /\ m_GUIDLow s' = 0.
Proof.
  intros Hp. destruct (LogoutPlayer_with_player now s Hp) as [tr E].
  exists (logged_out now s), tr. split; [exact E|].
  unfold logged_out. rewrite Hp. split; reflexivity.
Qed.

(** C2 (the code at the failing input).  A session playing character 7 is
    logged out: the call returns, the player reference is cleared and
    [m_GUIDLow], which was 7, is 0. *)
Theorem C2_logout_zeroes_GUIDLow :
  m_GUIDLow session_playing = 7
  /\ _player session_playing = Some example_player
  /\ GetGUIDLow example_player = 7
  /\ exists s' tr,
       LogoutPlayer 1000 session_playing = Returned tt s' tr
       /\ _player s' = None
       /\ m_GUIDLow s' = 0.
Proof.
  repeat split. eexists. eexists. repeat split.
Qed.

(** ** Idempotence of the Logout Protocol *)

(** C4 (as amended).  Without player, [LogoutPlayer] touches no collaborator
    and leaves the session as it was but for the four flags (logout in
    progress cleared, recent-logout set, kick deadline at now + 15 min,
    scheduled-logout timestamp cleared) and the state, which becomes
    CHAR_SELECTION.  Whatever the session, a second call right after the
    first touches no collaborator and changes nothing but the kick deadline,
    which it arms again (to the same value when the clock has not moved). *)
Theorem C4_logout_idempotent (now now' : time_t) (s : WorldSession) :
  (_player s = None ->
   LogoutPlayer now s =
   Returned tt
     (set_sessionState WORLD_SESSION_STATE_CHAR_SELECTION
        (four_flags_reset now s)) [])
  /\ exists s1 tr,
       LogoutPlayer now s = Returned tt s1 tr
       /\ _player s1 = None
       /\ LogoutPlayer now' s1 =
          Returned tt (set_kickTime (now' + 15 * 60) s1) []
       /\ LogoutPlayer now s1 = Returned tt s1 [].
Proof.
  split.
  - intros Hp. rewrite (LogoutPlayer_without_player now s Hp).
    destruct s as [g pl so rs lt iq ld lo rl sv st kt q qm ms].
    simpl in Hp. subst. reflexivity.
  - destruct (LogoutPlayer_returns now s) as [tr E].
    exists (logged_out now s), tr. split; [exact E|].
    split; [reflexivity|].
    split; rewrite LogoutPlayer_without_player by reflexivity; reflexivity.
Qed.

Section StateMachine.

Variable world : Env.

(** ** The state switch of the tick *)

Lemma Update_state_in_CREATED (now : time_t) (s : WorldSession) :
  m_sessionState s = WORLD_SESSION_STATE_CREATED ->
  Update_state world now s =
  Returned true (entered_char_selection now s)
    (created_trace (GetQueuedSessionPos world) s).
Proof.
  intros Hst. destruct s as [g pl so rs lt iq ld lo rl sv st kt q qm ms].
  simpl in Hst. subst.
  destruct rs as [[ri rc]|]; [destruct rc|];
    destruct pl as [p|]; destruct so as [[i c]|]; try destruct c;
    destruct iq; vm_compute; reflexivity.
Qed.

(** C6 (as amended).  In state CREATED the switch returns [true] with the
    session in CHAR_SELECTION and the kick deadline at now + 15 min.  With a
    pending transport: the friends of an attached player are told, the
    previous transport, if any, is closed (unless closed already) and
    finalized, the pending transport becomes the active one, the pending
    slot is emptied and auth-ok goes to [SendPacket], which puts it on the
    new transport if that is open and drops it otherwise.  Without:
    auth-queued (session in queue) or auth-ok goes to [SendPacket], which
    puts it on the active transport if there is one and it is open, and
    drops it otherwise. *)
Theorem C6_created_tick (now : time_t) (s : WorldSession) :
  m_sessionState s = WORLD_SESSION_STATE_CREATED ->
  exists s' tr,
    Update_state world now s = Returned true s' tr
    /\ m_sessionState s' = WORLD_SESSION_STATE_CHAR_SELECTION
    /\ m_kickTime s' = now + 15 * 60
    /\ m_requestSocket s' = None
    /\ _player s' = _player s
    /\ match m_requestSocket s with
       | Some pending =>
           m_Socket s' = Some pending
           /\ tr = (friends_told (_player s) ++ force_closed (m_Socket s)
                    ++ [EvLogDetail "New Session key"]
                    ++ sent_on (Some pending) SMSG_AUTH_RESPONSE_AUTH_OK)%list
       | None =>
           m_Socket s' = m_Socket s
           /\ tr = sent_on (m_Socket s)
                     (if m_inQueue s
                      then SMSG_AUTH_RESPONSE_AUTH_WAIT_QUEUE
                             (GetQueuedSessionPos world)
                      else SMSG_AUTH_RESPONSE_AUTH_OK)
       end.
Proof.
  intros Hst.
  exists (entered_char_selection now s),
    (created_trace (GetQueuedSessionPos world) s).
  split; [exact (Update_state_in_CREATED now s Hst)|].
  unfold created_trace, entered_char_selection. simpl.
  destruct (m_requestSocket s); repeat split; reflexivity.
Qed.

(** C7 (as amended).  In state READY with a player attached and the
    transport closed, the switch tells the friends that the player went
    offline, arms the scheduled-logout timestamp at now, finalizes and drops
    the transport, moves to OFFLINE, keeps the player attached and returns
    [true]. *)
Theorem C7_ready_transport_closed (now : time_t) (s : WorldSession)
        (p : Player) (k : WorldSocket) :
  m_sessionState s = WORLD_SESSION_STATE_READY ->
  m_Socket s = Some k -> IsClosed k = true ->
  _player s = Some p ->
  Update_state world now s =
  Returned true (gone_offline now s)
    [EvSendFriendStatusOffline (GetGUIDLow p);
     EvSocketFinalizeSession (sock_id k)]
  /\ m_sessionState (gone_offline now s) = WORLD_SESSION_STATE_OFFLINE
  /\ _logoutTime (gone_offline now s) = now
  /\ _player (gone_offline now s) = Some p.
Proof.
  intros Hst Hk Hc Hp. destruct s as [g pl so rs lt iq ld lo rl sv st kt q qm ms].
  simpl in Hst, Hk, Hp. subst. destruct k as [i c]. simpl in Hc. subst.
  repeat split.
Qed.


(** The switch never leaves the session in CREATED: from CREATED it moves
    to CHAR_SELECTION, and no other branch sets CREATED. *)
Lemma Update_state_leaves_CREATED (now : time_t) (s s' : WorldSession)
      (b : bool) (tr : list Event) :
  Update_state world now s = Returned b s' tr ->
  m_sessionState s' <> WORLD_SESSION_STATE_CREATED.
Proof.
  intros H. destruct (m_sessionState s) eqn:Hst.
  - rewrite (Update_state_in_CREATED now s Hst) in H.
    injection H as _ <- _. discriminate.
  - unfold Update_state in H. rewrite bind_get, Hst in H.
    destruct (negb (socket_open s)).
    + injection H as _ <- _. rewrite Hst. discriminate.
    + apply bind_returned in H. destruct H as (u & s1 & t1 & t2 & H1 & H2 & _).
      assert (Hs1 : m_sessionState s1 = WORLD_SESSION_STATE_CHAR_SELECTION).
      { destruct (ShouldLogOut world now s && negb (m_playerLoading s)).
        - simpl in H1. exact (LogoutPlayer_state _ _ H1).
        - injection H1 as _ <- _. exact Hst. }
      rewrite bind_get in H2.
      apply bind_returned in H2.
      destruct H2 as (v & s2 & t3 & t4 & H3 & H4 & _).
      injection H4 as _ <- _.
      destruct (negb (Z.eqb (m_kickTime s1) 0) && Z.leb (m_kickTime s1) now).
      * simpl in H3. unfold KickPlayer in H3. rewrite bind_modify in H3.
        destruct (KickPlayer_inPlace_default world).
        -- rewrite (LogoutPlayer_state _ _ H3). discriminate.
        -- injection H3 as _ <- _. simpl. rewrite Hs1. discriminate.
      * injection H3 as _ <- _. rewrite Hs1. discriminate.
  - unfold Update_state in H. rewrite bind_get, Hst in H.
    destruct (socket_closed s).
    + destruct (_player s).
      * apply bind_returned in H.
        destruct H as (u & s1 & t1 & t2 & H1 & H2 & _).
        injection H2 as _ <- _. rewrite (SetOffline_state _ _ H1). discriminate.
      * injection H as _ <- _. rewrite Hst. discriminate.
    + apply bind_returned in H. destruct H as (u & s1 & t1 & t2 & H1 & H2 & _).
      injection H2 as _ <- _.
      destruct (ShouldLogOut world now s && negb (m_playerLoading s)).
      * simpl in H1. rewrite (LogoutPlayer_state _ _ H1). discriminate.
      * injection H1 as _ <- _. rewrite Hst. discriminate.
  - unfold Update_state in H. rewrite bind_get, Hst in H.
    destruct (ShouldDisconnect world now s).
    + apply bind_returned in H. destruct H as (u & s1 & t1 & t2 & H1 & H2 & _).
      rewrite bind_get in H2.
      assert (Hs1 : s' = s1).
      { destruct (m_requestSocket s1); [|destruct (negb (socket_open s1))];
          injection H2 as _ <- _; reflexivity. }
      subst s'. rewrite (LogoutPlayer_state _ _ H1). discriminate.
    + injection H as _ <- _. rewrite Hst. discriminate.
Qed.

(** Whatever the Messager and the handlers did before the switch, a tick
    that returns does not leave the session in CREATED. *)
Lemma Update_leaves_CREATED (now : time_t) (s s' : WorldSession)
      (b : bool) (tr : list Event) :
  Update world now s = Returned b s' tr ->
  m_sessionState s' <> WORLD_SESSION_STATE_CREATED.
Proof.
  intros H. unfold Update in H.
  apply bind_returned in H. destruct H as (u & s1 & t1 & t2 & _ & H & _).
  rewrite bind_emit in H. apply after_returned in H. destruct H as (t3 & H & _).
  rewrite bind_get, bind_modify, bind_emit in H.
  apply after_returned in H. destruct H as (t4 & H & _).
  apply bind_returned in H. destruct H as (v & s2 & t5 & t6 & _ & H & _).
  exact (Update_state_leaves_CREATED _ _ H).
Qed.

End StateMachine.

Section Faults.

Variable world : Env.

(** ** Payload-framing faults *)

(** The catch path with a player attached: the fault is logged and, when
    kicking is configured, one closure carrying the player's GUID is posted
    to the Messager; the player, the transport and the state are as they
    were. *)
Lemma ProcessByteBufferException_with_player (packet : WorldPacket)
      (s : WorldSession) (p : Player) :
  _player s = Some p ->
  HasLogLevelDebug world = false ->
  ProcessByteBufferException world packet s =
  if CONFIG_BOOL_KICK_PLAYER_ON_BAD_PACKET world then
    Returned tt
      (set_messager (m_messager s ++ [MsgKickPlayer (GetGUIDLow p)]) s)
      [EvLogError "ByteBufferException occured while parsing a packet"
         (GetOpcode packet);
       EvLogDetail "Disconnecting session for badly formatted packet."]
  else
    Returned tt s
      [EvLogError "ByteBufferException occured while parsing a packet"
         (GetOpcode packet)].
Proof.
  intros Hp Hd. unfold ProcessByteBufferException. rewrite Hd.
  destruct (CONFIG_BOOL_KICK_PLAYER_ON_BAD_PACKET world).
  - unfold bind, deref_player, when, emit, ret, modify. simpl.
    rewrite Hp. reflexivity.
  - reflexivity.
Qed.

(** The catch path without player, kicking configured:
    [_player->GetObjectGuid()] goes through a null pointer. *)
Lemma ProcessByteBufferException_without_player (packet : WorldPacket)
      (s : WorldSession) :
  _player s = None ->
  HasLogLevelDebug world = false ->
  CONFIG_BOOL_KICK_PLAYER_ON_BAD_PACKET world = true ->
  ProcessByteBufferException world packet s =
  NullDereference
    [EvLogError "ByteBufferException occured while parsing a packet"
       (GetOpcode packet);
     EvLogDetail "Disconnecting session for badly formatted packet."].
Proof.
  intros Hp Hd Hk. unfold ProcessByteBufferException. rewrite Hd, Hk.
  unfold bind, deref_player, when, emit, ret, modify. simpl.
  rewrite Hp. reflexivity.
Qed.

(** A fault that the catch path survives does not end the drain: the loop
    goes on with the next envelope. *)
Lemma Update_drain_after_fault (packet : WorldPacket) (rest : list WorldPacket)
      (s s1 s2 : WorldSession) (t1 t2 : list Event) :
  socket_open s = true ->
  Update_dispatch world packet s = Thrown s1 t1 ->
  ProcessByteBufferException world packet s1 = Returned tt s2 t2 ->
  Update_drain world (packet :: rest) s =
  after (t1 ++ t2) (Update_drain world rest s2).
Proof.
  intros Ho Ht Hc. simpl. rewrite Ho.
  unfold bind, Update_packet, try_catch. rewrite Ht, Hc. reflexivity.
Qed.

End Faults.

(** C3 (the code at the failing input).  Kicking on bad packets is
    configured; a session without player holds an AUTHED envelope whose
    handler overreads, followed by another envelope.  The fault is caught,
    the catch path dereferences the null player and the tick ends there: the
    second envelope is never looked at. *)
Theorem C3_bad_packet_without_player :
  _player session_without_player = None
  /\ CONFIG_BOOL_KICK_PLAYER_ON_BAD_PACKET (example_world true) = true
  /\ status (example_table 3) = STATUS_AUTHED
  /\ Update (example_world true) 1000
       (set_recvQueue [envelope 3; envelope 2] session_without_player) =
     NullDereference
       [EvLock m_recvQueueLock; EvUnlock m_recvQueueLock;
        EvHandlerEffect 3 1;
        EvLogError "ByteBufferException occured while parsing a packet" 3;
        EvLogDetail "Disconnecting session for badly formatted packet."].
Proof. repeat split. Qed.

(** ** Concrete runs *)

(** C1, counterexample to the specified property on the map drain: a
    LOGGED-IN envelope in the map queue of a session without player is
    handled. *)
Lemma C1_map_drain_handles_without_player :
  status (opcodeTable (example_world false) (GetOpcode (envelope 1)))
    = STATUS_LOGGEDIN
  /\ _player session_without_player = None
  /\ UpdateMap_packet (example_world false) (envelope 1) session_without_player
     <> dropped_for_missing_player (envelope 1) session_without_player
  /\ UpdateMap (example_world false)
       (set_recvQueueMap [envelope 1] session_without_player) =
     Returned tt session_without_player
       [EvLock m_recvQueueMapLock; EvUnlock m_recvQueueMapLock;
        EvHandlerEffect 1 0].
Proof.
  split; [reflexivity|]. split; [reflexivity|]. split; [|reflexivity].
  intros H. vm_compute in H. discriminate H.
Qed.

(** C4, counterexample to the specified property: without player,
    [LogoutPlayer] resets more than the four flags listed; here it moves the
    session from OFFLINE to CHAR_SELECTION. *)
Lemma C4_logout_changes_state :
  _player session_offline_without_player = None
  /\ LogoutPlayer 1000 session_offline_without_player
     <> Returned tt (four_flags_reset 1000 session_offline_without_player) []
  /\ exists s' tr,
       LogoutPlayer 1000 session_offline_without_player = Returned tt s' tr
       /\ m_sessionState session_offline_without_player
          = WORLD_SESSION_STATE_OFFLINE
       /\ m_sessionState s' = WORLD_SESSION_STATE_CHAR_SELECTION.
Proof.
  split; [reflexivity|]. split.
  - intros H. vm_compute in H. discriminate H.
  - eexists. eexists. repeat split.
Qed.

(** C7, counterexample to the specified property: a READY session with a
    closed transport and no player is reported for removal; nothing is sent
    and the state stays READY. *)
Lemma C7_ready_without_player_removed :
  m_sessionState session_ready_without_player = WORLD_SESSION_STATE_READY
  /\ socket_closed session_ready_without_player = true
  /\ Update_state (example_world false) 1000 session_ready_without_player =
     Returned false session_ready_without_player []
  /\ Update (example_world false) 1000 session_ready_without_player =
     Returned false session_ready_without_player
       [EvLock m_recvQueueLock; EvUnlock m_recvQueueLock].
Proof. repeat split. Qed.

(** C6, counterexample to the specified property: a session in CREATED
    whose transport has closed before the tick goes to CHAR_SELECTION with
    the deadline armed, and neither auth-ok nor auth-queued is sent; the
    same when the pending transport that takes over is closed already. *)
Lemma C6_created_closed_transport_sends_nothing :
  m_sessionState session_created_closed = WORLD_SESSION_STATE_CREATED
  /\ Update (example_world false) 1000 session_created_closed =
     Returned true
       (set_kickTime (1000 + 15 * 60)
          (set_sessionState WORLD_SESSION_STATE_CHAR_SELECTION
             session_created_closed))
       [EvLock m_recvQueueLock; EvUnlock m_recvQueueLock]
  /\ m_sessionState session_pending_closed = WORLD_SESSION_STATE_CREATED
  /\ Update (example_world false) 1000 session_pending_closed =
     Returned true
       (set_kickTime (1000 + 15 * 60)
          (set_sessionState WORLD_SESSION_STATE_CHAR_SELECTION
             (set_requestSocket None
                (set_Socket (Some (mkSocket 2 true))
                   (set_sessionState WORLD_SESSION_STATE_OFFLINE
                      session_pending_closed)))))
       [EvLock m_recvQueueLock; EvUnlock m_recvQueueLock;
        EvLogDetail "New Session key"].
Proof. repeat split. Qed.

(** ** The theorems at concrete sessions *)

Lemma C1_loggedin_admission_witness :
  status (opcodeTable (example_world false) (GetOpcode (envelope 6)))
    = STATUS_LOGGEDIN
  /\ _player session_without_player = None
  /\ Update_packet (example_world false) (envelope 6) session_without_player =
     dropped_for_missing_player (envelope 6) session_without_player.
Proof.
  split; [reflexivity|]. split; [reflexivity|].
  exact (proj1 (@C1_loggedin_admission (example_world false) (envelope 6)
                  session_without_player eq_refl) eq_refl).
Defined.

Lemma C9_authed_admission_witness :
  status (opcodeTable (example_world false) (GetOpcode (envelope 2)))
    = STATUS_AUTHED
  /\ m_inQueue session_queued = true
  /\ Update_packet (example_world false) (envelope 2) session_queued =
     Returned tt session_queued
       [EvLogUnexpectedOpcode 2 "the player not pass queue yet"]
  /\ m_inQueue session_recently_logged_out = false
  /\ Update_packet (example_world false) (envelope 2)
       session_recently_logged_out =
     Returned tt (set_playerRecentlyLogout false session_recently_logged_out)
       [EvHandlerEffect 2 0]
  /\ status (opcodeTable (example_world false) (GetOpcode (envelope 979)))
     = STATUS_AUTHED
  /\ Update_packet (example_world false) (envelope 979)
       session_recently_logged_out =
     Returned tt session_recently_logged_out [EvHandlerEffect 979 0]
  /\ status (opcodeTable (example_world false) (GetOpcode (envelope 3)))
     = STATUS_AUTHED
  /\ Update_packet (example_world false) (envelope 3)
       session_recently_logged_out =
     Returned tt (set_playerRecentlyLogout false session_recently_logged_out)
       [EvHandlerEffect 3 1;
        EvLogError "ByteBufferException occured while parsing a packet" 3].
Proof.
  split; [reflexivity|]. split; [reflexivity|].
  split.
  { exact (proj1 (@C9_authed_admission (example_world false) (envelope 2)
                    session_queued eq_refl) eq_refl). }
  split; [reflexivity|].
  split.
  { exact (proj2 (@C9_authed_admission (example_world false) (envelope 2)
                    session_recently_logged_out eq_refl) eq_refl). }
  split; [reflexivity|].
  split.
  { exact (proj2 (@C9_authed_admission (example_world false) (envelope 979)
                    session_recently_logged_out eq_refl) eq_refl). }
  split; [reflexivity|].
  exact (proj2 (@C9_authed_admission (example_world false) (envelope 3)
                  session_recently_logged_out eq_refl) eq_refl).
Defined.

Lemma C10_closed_transport_discards_witness :
  socket_open session_ready_without_player = false
  /\ Update_drain (example_world false) [envelope 2; envelope 6]
       session_ready_without_player =
     Returned tt session_ready_without_player [].
Proof.
  split; [reflexivity|].
  exact (proj1 (C10_closed_transport_discards (example_world false))
           [envelope 2; envelope 6] session_ready_without_player eq_refl).
Defined.

Lemma C4_logout_idempotent_witness :
  _player session_without_player = None
  /\ LogoutPlayer 1000 session_without_player =
     Returned tt
       (set_sessionState WORLD_SESSION_STATE_CHAR_SELECTION
          (four_flags_reset 1000 session_without_player)) [].
Proof.
  split; [reflexivity|].
  exact (proj1 (C4_logout_idempotent 1000 1000 session_without_player)
           eq_refl).
Defined.

Lemma C6_created_tick_witness :
  m_sessionState session_reconnecting = WORLD_SESSION_STATE_CREATED
  /\ exists s' tr,
       Update_state (example_world false) 1000 session_reconnecting
       = Returned true s' tr
       /\ m_sessionState s' = WORLD_SESSION_STATE_CHAR_SELECTION
       /\ m_kickTime s' = 1000 + 15 * 60
       /\ m_requestSocket s' = None
       /\ _player s' = None
       /\ m_Socket s' = Some new_socket
       /\ tr = [EvLogDetail "New Session key";
                EvSocketSend 2 SMSG_AUTH_RESPONSE_AUTH_OK].
Proof.
  split; [reflexivity|].
  exact (@C6_created_tick (example_world false) 1000 session_reconnecting
           eq_refl).
Defined.

Lemma C7_ready_transport_closed_witness :
  m_sessionState session_dropped = WORLD_SESSION_STATE_READY
  /\ m_Socket session_dropped = Some closed_socket
  /\ IsClosed closed_socket = true
  /\ _player session_dropped = Some example_player
  /\ Update_state (example_world false) 1000 session_dropped =
     Returned true (gone_offline 1000 session_dropped)
       [EvSendFriendStatusOffline 7; EvSocketFinalizeSession 1].
Proof.
  repeat (split; [reflexivity|]).
  exact (proj1 (@C7_ready_transport_closed (example_world false) 1000
                  session_dropped example_player closed_socket
                  eq_refl eq_refl eq_refl eq_refl)).
Defined.


(** * Further properties of the session code *)

Lemma bind_after (A B : Type) (t : list Event) (o : Outcome A) (f : A -> M B) :
  match after t o with
  | Returned a s1 t1 => after t1 (f a s1)
  | Thrown s1 t1 => Thrown s1 t1
  | NullDereference t1 => NullDereference t1
  | LoopBound => LoopBound
  end =
  after t
    match o with
    | Returned a s1 t1 => after t1 (f a s1)
    | Thrown s1 t1 => Thrown s1 t1
    | NullDereference t1 => NullDereference t1
    | LoopBound => LoopBound
    end.
Proof. destruct o; simpl; rewrite ?after_app; reflexivity. Qed.

(** The three routes of [QueuePacket]. *)
Lemma QueuePacket_routes (world : Env) (new_packet : WorldPacket) (s : WorldSession) :
  let opHandle := opcodeTable world (GetOpcode new_packet) in
  QueuePacket world new_packet s =
  match packetProcessing opHandle with
  | PROCESS_IMMEDIATE =>
      after [EvIncrementOpcodeCounter (GetOpcode new_packet)]
        ((read <- handler opHandle new_packet ;;
          when (has_unread_tail world read) (LogUnprocessedTail read)) s)
  | PROCESS_MAP_THREAD =>
      Returned tt (set_recvQueueMap (m_recvQueueMap s ++ [new_packet]) s)
        [EvIncrementOpcodeCounter (GetOpcode new_packet);
         EvLock m_recvQueueMapLock; EvUnlock m_recvQueueMapLock]
  | PROCESS_INPLACE | PROCESS_THREADUNSAFE =>
      Returned tt (set_recvQueue (m_recvQueue s ++ [new_packet]) s)
        [EvIncrementOpcodeCounter (GetOpcode new_packet);
         EvLock m_recvQueueLock; EvUnlock m_recvQueueLock]
  end.
Proof.
  intros opHandle. unfold QueuePacket. rewrite bind_emit. fold opHandle.
  destruct (packetProcessing opHandle); reflexivity.
Qed.

Section Drains.

Variable world : Env.

(** ** The order of dispatch *)

Lemma Update_drain_cons_open (p : WorldPacket) (q : list WorldPacket)
      (s : WorldSession) :
  socket_open s = true ->
  Update_drain world (p :: q) s =
  (Update_packet world p ;; Update_drain world q) s.
Proof. intros H. simpl. rewrite H. reflexivity. Qed.

(** X1.  The generic drain takes the envelopes in queue order: draining
    [q1 ++ q2] is draining [q1] and then, from the session this leaves,
    [q2]; this holds whatever the handlers do (close the transport, throw,
    fault). *)
Theorem X1_Update_drain_app (q1 q2 : list WorldPacket) (s : WorldSession) :
  Update_drain world (q1 ++ q2) s =
  (Update_drain world q1 ;; Update_drain world q2) s.
Proof.
  revert s. induction q1 as [|p q1 IH]; intros s.
  - simpl. unfold bind. simpl. rewrite after_nil. reflexivity.
  - destruct (socket_open s) eqn:Ho.
    + change ((p :: q1) ++ q2)%list with (p :: (q1 ++ q2))%list.
      unfold bind at 1. rewrite !(Update_drain_cons_open _ _ _ Ho).
      unfold bind.
      destruct (Update_packet world p s) as [a s1 t1| | |]; try reflexivity.
      rewrite IH. unfold bind. rewrite bind_after. reflexivity.
    + unfold bind. rewrite !(Update_drain_closed world _ s Ho). simpl.
      rewrite ?(Update_drain_closed world q2 s Ho). reflexivity.
Qed.

Lemma half_step (n i : nat) :
  (i < S n)%nat ->
  ((S n - i + 1) / 2 = S ((n - S i + 1) / 2))%nat.
Proof.
  intros H.
  assert (E : (S n - i + 1 = (n - S i + 1) + 1 * 2)%nat
              \/ (i = n /\ S n - i + 1 = 2 /\ n - S i + 1 = 1)%nat) by lia.
  destruct E as [E | (E1 & E2 & E3)].
  - rewrite E, Nat.div_add by discriminate. lia.
  - rewrite E2, E3. reflexivity.
Qed.

Lemma UpdateMap_drain_counts (q : list WorldPacket) :
  forall i s,
    UpdateMap_drain world i q s =
    drain_every world (firstn ((List.length q - i + 1) / 2) q) s.
Proof.
  induction q as [|p q IH]; intros i s.
  - cbn [UpdateMap_drain]. rewrite firstn_nil. reflexivity.
  - cbn [UpdateMap_drain]. destruct (Nat.ltb i (List.length (p :: q))) eqn:Hi.
    + apply Nat.ltb_lt in Hi. cbn [List.length] in Hi |- *.
      rewrite (half_step Hi). cbn [firstn drain_every].
      rewrite andb_true_r. destruct (socket_open s); [|reflexivity].
      unfold bind.
      destruct (UpdateMap_packet world p s) as [a s1 t1| | |]; try reflexivity.
      rewrite IH. reflexivity.
    + apply Nat.ltb_ge in Hi. rewrite andb_false_r.
      replace ((List.length (p :: q) - i + 1) / 2)%nat with 0%nat.
      * reflexivity.
      * replace (List.length (p :: q) - i + 1)%nat with 1%nat by lia.
        reflexivity.
Qed.

(** X2.  The loop of [UpdateMap] counts up while it pops the front of the
    queue: of [n] swapped-out envelopes it takes the first [(n + 1) / 2] in
    turn and never looks at the others, also when the transport stays
    open. *)
Theorem X2_UpdateMap_drain_half (q : list WorldPacket) (s : WorldSession) :
  UpdateMap_drain world 0 q s =
  drain_every world (firstn ((List.length q + 1) / 2) q) s.
Proof.
  rewrite UpdateMap_drain_counts. rewrite Nat.sub_0_r. reflexivity.
Qed.

(** X3.  Enqueueing keeps the order of arrival: after [QueuePacket] for
    each of a list of envelopes, none of them IMMEDIATE, the map queue has
    grown at its back by those with the MAP_THREAD tag, the generic queue by
    the others, each in the order given; nothing else of the session has
    changed. *)
Theorem X3_QueuePackets_fifo (packets : list WorldPacket) (s : WorldSession) :
  forallb (fun p => negb (is_immediate world p)) packets = true ->
  exists tr,
    QueuePackets world packets s =
    Returned tt
      (set_recvQueueMap
         (m_recvQueueMap s ++ filter (is_map_thread world) packets)
         (set_recvQueue
            (m_recvQueue s
             ++ filter (fun p => negb (is_map_thread world p)) packets) s))
      tr.
Proof.
  revert s. induction packets as [|p ps IH]; intros s H.
  - exists []. simpl. rewrite !app_nil_r.
    destruct s; reflexivity.
  - simpl in H. apply andb_prop in H. destruct H as [Hp Hps].
    unfold QueuePackets in IH |- *. cbn [for_each]. unfold bind.
    pose proof (QueuePacket_routes world p s) as E. cbv zeta in E.
    assert (Hm : is_map_thread world p =
                 match packetProcessing (opcodeTable world (GetOpcode p)) with
                 | PROCESS_MAP_THREAD => true
                 | _ => false
                 end) by reflexivity.
    unfold is_immediate in Hp. cbn [filter]. rewrite Hm.
    destruct (packetProcessing (opcodeTable world (GetOpcode p)));
      try discriminate Hp; rewrite E;
      match goal with
      | |- context [for_each ps _ ?s1] => destruct (IH s1 Hps) as [tr Etr]
      end;
      rewrite Etr; cbn [after negb]; eexists;
      destruct s; simpl; rewrite <- !app_assoc; reflexivity.
Qed.

End Drains.

Section MoreAdmission.

Variable world : Env.

(** ** Admission control, all statuses *)

(** X4.  On the generic drain an envelope that fails the admission test of
    its status never reaches a handler and leaves the session as it was;
    at most one line is logged.  An envelope that passes goes to
    [ExecuteOpcode], inside the [try], on the session as it was (with the
    recent-logout flag cleared for an AUTHED envelope that is not
    [CMSG_SET_ACTIVE_VOICE_CHANNEL]). *)
Theorem X4_admission_complete (packet : WorldPacket) (s : WorldSession) :
  (admitted world packet s = false ->
   exists tr,
     Update_packet world packet s = Returned tt s tr
     /\ (List.length tr <= 1)%nat)
  /\ (admitted world packet s = true ->
      Update_packet world packet s =
      try_catch
        (ExecuteOpcode world (opcodeTable world (GetOpcode packet)) packet)
        (ProcessByteBufferException world packet)
        (session_at_execution world packet s)).
Proof.
  unfold admitted, session_at_execution, Update_packet, try_catch,
    Update_dispatch.
  rewrite bind_get.
  destruct (status (opcodeTable world (GetOpcode packet))); split; intros H.
  - destruct (m_inQueue s); [|discriminate H].
    eexists. split; [reflexivity|]. simpl. lia.
  - destruct (m_inQueue s); [discriminate H|].
    destruct (Z.eqb (GetOpcode packet) (CMSG_SET_ACTIVE_VOICE_CHANNEL world));
      simpl.
    + rewrite bind_ret. reflexivity.
    + rewrite bind_modify. reflexivity.
  - destruct (_player s) as [p|].
    + rewrite H. eexists. split; [reflexivity|]. simpl. lia.
    + destruct (m_playerRecentlyLogout s); eexists;
        (split; [reflexivity|]); simpl; lia.
  - destruct (_player s) as [p|]; [|discriminate H]. rewrite H. reflexivity.
  - destruct (_player s) as [p|].
    + destruct (IsInWorld p); [|discriminate H].
      eexists. split; [reflexivity|]. simpl. lia.
    + eexists. split; [reflexivity|]. simpl. lia.
  - destruct (_player s) as [p|]; [|discriminate H].
    destruct (IsInWorld p); [discriminate H|]. reflexivity.
  - destruct (_player s) as [p|]; [discriminate H|].
    rewrite H. eexists. split; [reflexivity|]. simpl. lia.
  - destruct (_player s) as [p|]; [|rewrite H]; reflexivity.
  - eexists. split; [reflexivity|]. simpl. lia.
  - discriminate H.
  - eexists. split; [reflexivity|]. simpl. lia.
  - discriminate H.
  - eexists. split; [reflexivity|]. simpl. lia.
  - discriminate H.
Qed.

Lemma UpdateMap_packet_skips (packet : WorldPacket) (s : WorldSession) :
  is_loggedin world packet = false ->
  UpdateMap_packet world packet s = Returned tt s [].
Proof.
  unfold is_loggedin, UpdateMap_packet.
  destruct (status (opcodeTable world (GetOpcode packet)));
    intros H; try discriminate H; reflexivity.
Qed.

Lemma drain_every_skips (q : list WorldPacket) (s : WorldSession) :
  forallb (fun p => negb (is_loggedin world p)) q = true ->
  drain_every world q s = Returned tt s [].
Proof.
  induction q as [|p q IH]; intros H; simpl.
  - reflexivity.
  - simpl in H. apply andb_prop in H. destruct H as [Hp Hq].
    apply negb_true_iff in Hp.
    destruct (socket_open s); [|reflexivity].
    unfold bind. rewrite (UpdateMap_packet_skips _ _ Hp), (IH Hq).
    reflexivity.
Qed.


(** X6.  When [ExecuteOpcode] returns with a player attached, that player
    has delayed teleports switched off again, whatever the handler did. *)
Theorem X6_ExecuteOpcode_resets_delay (opHandle : OpcodeHandler)
        (packet : WorldPacket) (s s' : WorldSession) (u : unit)
        (tr : list Event) (p' : Player) :
  ExecuteOpcode world opHandle packet s = Returned u s' tr ->
  _player s' = Some p' ->
  CanDelayTeleport p' = false.
Proof.
  intros H Hp. unfold ExecuteOpcode in H. rewrite bind_get in H.
  apply bind_returned in H. destruct H as (a & s1 & t1 & t2 & _ & H & _).
  apply bind_returned in H. destruct H as (r & s2 & t3 & t4 & _ & H & _).
  rewrite bind_get in H.
  apply bind_returned in H. destruct H as (v & s3 & t5 & t6 & H3 & H4 & _).
  assert (E : s' = s3).
  { destruct (has_unread_tail world r); simpl in H4;
      injection H4 as _ <- _; reflexivity. }
  subst s'. destruct (_player s2) as [p2|] eqn:E2.
  - unfold update_player, player_call, deref_player, bind, modify, when, emit,
      ret in H3.
    rewrite E2 in H3. simpl in H3.
    destruct (IsHasDelayedTeleport p2); simpl in H3;
      injection H3 as _ <- _; simpl in Hp; injection Hp as <-; reflexivity.
  - injection H3 as _ <- _. rewrite E2 in Hp. discriminate Hp.
Qed.

End MoreAdmission.

Section Lifecycle.

Variable world : Env.

(** ** Going offline, coming back *)

(** X7.  [SetOffline] always returns and leaves the session OFFLINE without
    active transport: the transport it had is closed if it was open and
    finalized once; the player and the pending transport stay as they were;
    a player's friends are told and its scheduled-logout timestamp is set to
    now. *)
Theorem X7_SetOffline_drops_transport (now : time_t) (s : WorldSession) :
  exists s',
    SetOffline now s =
    Returned tt s' (friends_told (_player s) ++ force_closed (m_Socket s))
    /\ m_Socket s' = None
    /\ m_sessionState s' = WORLD_SESSION_STATE_OFFLINE
    /\ _player s' = _player s
    /\ m_requestSocket s' = m_requestSocket s
    /\ _logoutTime s' =
       match _player s with Some _ => now | None => _logoutTime s end.
Proof.
  destruct s as [g pl so rs lt iq ld lo rl sv st kt q qm ms].
  destruct pl as [p|]; destruct so as [[i c]|]; try destruct c;
    eexists; (split; [vm_compute; reflexivity|]); repeat split.
Qed.

(** X8.  [SetOnline] moves the session to READY and disarms the kick
    deadline exactly when a player is attached and the transport is open;
    otherwise it changes nothing.  Right after [SetOffline] it changes
    nothing: the session stays OFFLINE until a new transport is taken
    over. *)
Theorem X8_SetOnline_needs_player_and_transport (now : time_t)
        (s : WorldSession) :
  SetOnline s =
  Returned tt
    (if match _player s with Some _ => socket_open s | None => false end
     then set_kickTime 0 (set_sessionState WORLD_SESSION_STATE_READY s)
     else s) []
  /\ (SetOffline now ;; SetOnline) s = SetOffline now s.
Proof.
  split.
  - unfold SetOnline. rewrite bind_get.
    destruct (_player s); [destruct (socket_open s)|]; reflexivity.
  - destruct s as [g pl so rs lt iq ld lo rl sv st kt q qm ms].
    destruct pl as [p|]; destruct so as [[i c]|]; try destruct c;
      vm_compute; reflexivity.
Qed.

(** X9.  [RequestNewSocket] takes a pending transport only when none is
    pending: then it stores it, moves the session to CREATED and answers
    [true]; a request made while one is pending answers [false] and changes
    nothing, so of two requests in a row the first wins. *)
Theorem X9_RequestNewSocket_first_wins (k1 k2 : WorldSocket) (s : WorldSession) :
  (forall k, m_requestSocket s = Some k ->
     RequestNewSocket k1 s =
     Returned false s [EvLock m_recvQueueLock; EvUnlock m_recvQueueLock])
  /\ (m_requestSocket s = None ->
      RequestNewSocket k1 s =
      Returned true
        (set_sessionState WORLD_SESSION_STATE_CREATED
           (set_requestSocket (Some k1) s))
        [EvLock m_recvQueueLock; EvUnlock m_recvQueueLock]
      /\ (RequestNewSocket k1 ;; RequestNewSocket k2) s =
         Returned false
           (set_sessionState WORLD_SESSION_STATE_CREATED
              (set_requestSocket (Some k1) s))
           [EvLock m_recvQueueLock; EvUnlock m_recvQueueLock;
            EvLock m_recvQueueLock; EvUnlock m_recvQueueLock]).
Proof.
  destruct s as [g pl so rs lt iq ld lo rl sv st kt q qm ms]. simpl.
  split.
  - intros k ->. reflexivity.
  - intros ->. split; reflexivity.
Qed.

(** X10.  Taking over a session: after [RequestNewSocket] on a session
    without pending transport, the next state switch makes the new
    transport the active one, empties the pending slot, finalizes the
    transport the session had and leaves the session in CHAR_SELECTION with
    the kick deadline at now + 15 min; the player stays attached. *)
Theorem X10_reconnect_takes_over (now : time_t) (k : WorldSocket)
        (s : WorldSession) :
  m_requestSocket s = None ->
  exists s' tr,
    (RequestNewSocket k ;; Update_state world now) s = Returned true s' tr
    /\ m_Socket s' = Some k
    /\ m_requestSocket s' = None
    /\ m_sessionState s' = WORLD_SESSION_STATE_CHAR_SELECTION
    /\ m_kickTime s' = now + 15 * 60
    /\ _player s' = _player s
    /\ (forall old, m_Socket s = Some old ->
        In (EvSocketFinalizeSession (sock_id old)) tr).
Proof.
  intros Hr.
  set (s1 := set_sessionState WORLD_SESSION_STATE_CREATED
               (set_requestSocket (Some k) s)).
  assert (E1 : RequestNewSocket k s =
               Returned true s1
                 [EvLock m_recvQueueLock; EvUnlock m_recvQueueLock]).
  { destruct s as [g pl so rs lt iq ld lo rl sv st kt q qm ms].
    simpl in Hr. subst. reflexivity. }
  exists (entered_char_selection now s1).
  eexists. unfold bind. rewrite E1.
  rewrite (Update_state_in_CREATED world now s1 eq_refl).
  split; [reflexivity|]. repeat split.
  intros old Ho. simpl. right. right.
  unfold created_trace. simpl. rewrite Ho.
  apply in_or_app. right. apply in_or_app. left.
  unfold force_closed. apply in_or_app. right. left. reflexivity.
Qed.

End Lifecycle.

Section Removal.

Variable world : Env.

(** ** When a session is reported for removal *)

Lemma SetOffline_returns (now : time_t) (s : WorldSession) :
  exists s' tr, SetOffline now s = Returned tt s' tr.
Proof.
  destruct s as [g pl so rs lt iq ld lo rl sv st kt q qm ms].
  destruct pl as [p|]; destruct so as [[i c]|]; try destruct c;
    eexists; eexists; vm_compute; reflexivity.
Qed.

Lemma KickPlayer_returns (now : time_t) (save inPlace : bool) (s : WorldSession) :
  exists s' tr, KickPlayer now save inPlace s = Returned tt s' tr.
Proof.
  unfold KickPlayer. destruct inPlace.
  - destruct (LogoutPlayer_returns now (set_playerSave save s)) as [tr E].
    eexists. eexists. rewrite bind_modify. exact E.
  - eexists. eexists. reflexivity.
Qed.

Lemma when_logout_returns (now : time_t) (c : bool) (s : WorldSession) :
  exists tr,
    when c (LogoutPlayer now) s =
    Returned tt (if c then logged_out now s else s) tr.
Proof.
  destruct c; simpl.
  - exact (LogoutPlayer_returns now s).
  - exists []. reflexivity.
Qed.

(** X11.  The state switch of the tick always returns, and it answers
    "remove me" in three situations only: CHAR_SELECTION without open
    transport; READY with a closed transport and no player; OFFLINE with
    the reconnection grace elapsed, no pending transport and no open
    transport.  From READY or OFFLINE a session is never reported for
    removal with a player still attached. *)
Theorem X11_removal_cases (now : time_t) (s : WorldSession) :
  exists s' tr,
    Update_state world now s =
    Returned (negb (reported_for_removal world now s)) s' tr
    /\ (reported_for_removal world now s = true ->
        m_sessionState s <> WORLD_SESSION_STATE_CHAR_SELECTION ->
        _player s' = None).
Proof.
  unfold reported_for_removal.
  destruct (m_sessionState s) eqn:Hst.
  - eexists. eexists. split.
    + exact (Update_state_in_CREATED world now s Hst).
    + intros H. discriminate H.
  - unfold Update_state. rewrite bind_get, Hst.
    destruct (socket_open s); simpl.
    + destruct (when_logout_returns now
                  (ShouldLogOut world now s && negb (m_playerLoading s)) s)
        as [t1 E1].
      unfold bind at 1. rewrite E1. rewrite bind_get.
      match goal with
      | |- context [bind (when ?c (KickPlayer now true ?d)) _ ?s1] =>
          destruct c;
          [destruct (KickPlayer_returns now true d s1) as (s2 & t2 & E2)|]
      end.
      * unfold bind. simpl when. rewrite E2. simpl.
        eexists. eexists. split; [reflexivity|]. intros H. discriminate H.
      * eexists. eexists. split; [reflexivity|]. intros H. discriminate H.
    + eexists. eexists. split; [reflexivity|]. intros _ H. contradiction H.
      reflexivity.
  - unfold Update_state. rewrite bind_get, Hst.
    destruct (socket_closed s); simpl.
    + destruct (_player s) as [p|] eqn:Hp; simpl.
      * destruct (SetOffline_returns now s) as (s1 & t1 & E1).
        unfold bind. rewrite E1. simpl.
        eexists. eexists. split; [reflexivity|]. intros H. discriminate H.
      * eexists. eexists. split; [reflexivity|]. intros _ _. exact Hp.
    + destruct (when_logout_returns now
                  (ShouldLogOut world now s && negb (m_playerLoading s)) s)
        as [t1 E1].
      unfold bind. rewrite E1. simpl.
      eexists. eexists. split; [reflexivity|]. intros H. discriminate H.
  - unfold Update_state. rewrite bind_get, Hst.
    destruct (ShouldDisconnect world now s); simpl.
    + destruct (LogoutPlayer_returns now s) as [t1 E1].
      unfold bind at 1. rewrite E1. rewrite bind_get.
      change (m_requestSocket (logged_out now s)) with (m_requestSocket s).
      change (socket_open (logged_out now s)) with (socket_open s).
      destruct (m_requestSocket s); [|destruct (socket_open s)]; simpl;
        eexists; eexists; (split; [reflexivity|]); intros H;
        try discriminate H; intros _; reflexivity.
    + eexists. eexists. split; [reflexivity|]. intros H. discriminate H.
Qed.

End Removal.

(** ** Saving the player at logout *)

Lemma save_count_app (t1 t2 : list Event) :
  save_count (t1 ++ t2) = (save_count t1 + save_count t2)%nat.
Proof. unfold save_count. rewrite filter_app, length_app. reflexivity. Qed.

Section SaveFlag.

Variable flag : bool.

Lemma ks_eq (A : Type) (n n' : nat) (m : M A) :
  keeps_saving flag n m -> n = n' -> keeps_saving flag n' m.
Proof. intros H <-. exact H. Qed.

Lemma ks_ret (A : Type) (a : A) : keeps_saving flag 0 (ret a).
Proof.
  intros s p Hp _. exists a, p, []. rewrite (set_player_same _ Hp).
  split; reflexivity.
Qed.

Lemma ks_emit (e : Event) : is_save e = false -> keeps_saving flag 0 (emit e).
Proof.
  intros He s p Hp _. exists tt, p, [e]. rewrite (set_player_same _ Hp).
  split; [reflexivity|]. unfold save_count. simpl. rewrite He. reflexivity.
Qed.

Lemma ks_deref : keeps_saving flag 0 deref_player.
Proof.
  intros s p Hp _. exists p, p, []. rewrite (set_player_same _ Hp).
  unfold deref_player. rewrite Hp. split; reflexivity.
Qed.

Lemma ks_bind (A B : Type) (n1 n2 : nat) (m : M A) (f : A -> M B) :
  keeps_saving flag n1 m -> (forall a, keeps_saving flag n2 (f a)) ->
  keeps_saving flag (n1 + n2) (bind m f).
Proof.
  intros Hm Hf s p Hp Hs.
  destruct (Hm s p Hp Hs) as (a & p1 & t1 & E1 & C1).
  destruct (Hf a (set_player (Some p1) s) p1 eq_refl Hs)
    as (b & p2 & t2 & E2 & C2).
  exists b, p2, (app t1 t2). unfold bind. rewrite E1, E2.
  split; [reflexivity|]. rewrite save_count_app, C1, C2. reflexivity.
Qed.

Lemma ks_get_bind (B : Type) (n : nat) (f : WorldSession -> M B) :
  (forall s0, m_playerSave s0 = flag -> keeps_saving flag n (f s0)) ->
  keeps_saving flag n (bind get f).
Proof.
  intros Hf s p Hp Hs. rewrite bind_get. exact (Hf s Hs s p Hp Hs).
Qed.

Lemma ks_update_player (f : Player -> Player) :
  keeps_saving flag 0 (update_player f).
Proof.
  intros s p Hp _. exists tt, (f p), [].
  unfold update_player, bind, deref_player, modify. rewrite Hp.
  split; reflexivity.
Qed.

Lemma ks_player_call (c : PlayerCall) :
  match c with SaveToDB => False | _ => True end ->
  keeps_saving flag 0 (player_call c).
Proof.
  intros Hc. unfold player_call.
  apply (@ks_bind _ _ 0 0); [apply ks_deref|].
  intros a. apply ks_emit. destruct c; try reflexivity. contradiction Hc.
Qed.

Lemma ks_save_step :
  keeps_saving flag (if flag then 1 else 0)
    (when flag (player_call SaveToDB)).
Proof.
  intros s p Hp _. destruct flag; simpl.
  - exists tt, p, [EvPlayer (GetGUIDLow p) SaveToDB].
    rewrite (set_player_same _ Hp).
    unfold player_call, bind, deref_player, emit. rewrite Hp.
    split; reflexivity.
  - exists tt, p, []. rewrite (set_player_same _ Hp). split; reflexivity.
Qed.

Lemma ks_when (c : bool) (m : M unit) :
  keeps_saving flag 0 m -> keeps_saving flag 0 (when c m).
Proof. intros H. destruct c; [exact H | apply ks_ret]. Qed.

Lemma ks_for_each (A : Type) (l : list A) (body : A -> M unit) :
  (forall x, keeps_saving flag 0 (body x)) ->
  keeps_saving flag 0 (for_each l body).
Proof.
  intros H. induction l as [|x l IH]; simpl.
  - apply ks_ret.
  - apply (@ks_bind _ _ 0 0); [apply H | intros _; exact IH].
Qed.

Lemma ks_teleport_loop :
  keeps_saving flag 0
    (while_do teleport_loop_bound player_teleported_far
       HandleMoveWorldportAckOpcode).
Proof.
  intros s p Hp _. destruct (IsBeingTeleportedFar p) eqn:Ht.
  - exists tt, (set_IsBeingTeleportedFar false p),
      [EvPlayer (GetGUIDLow p) MoveWorldportAck].
    destruct s; simpl in Hp; subst. destruct p; simpl in Ht; subst.
    split; reflexivity.
  - exists tt, p, [].
    destruct s; simpl in Hp; subst. destruct p; simpl in Ht; subst.
    split; reflexivity.
Qed.

Lemma ks_guarded_teleport_loop :
  keeps_saving flag 0
    (while_do teleport_loop_bound player_and_teleported_far
       HandleMoveWorldportAckOpcode).
Proof.
  intros s p Hp _. destruct (IsBeingTeleportedFar p) eqn:Ht.
  - exists tt, (set_IsBeingTeleportedFar false p),
      [EvPlayer (GetGUIDLow p) MoveWorldportAck].
    destruct s; simpl in Hp; subst. destruct p; simpl in Ht; subst.
    split; reflexivity.
  - exists tt, p, [].
    destruct s; simpl in Hp; subst. destruct p; simpl in Ht; subst.
    split; reflexivity.
Qed.

Lemma ts_eq (A : Type) (n n' : nat) (m : M A) :
  tears_down_saving flag n m -> n = n' -> tears_down_saving flag n' m.
Proof. intros H <-. exact H. Qed.

Lemma ts_bind (A B : Type) (n1 n2 : nat) (m : M A) (f : A -> M B) :
  keeps_saving flag n1 m -> (forall a, tears_down_saving flag n2 (f a)) ->
  tears_down_saving flag (n1 + n2) (bind m f).
Proof.
  intros Hm Hf s p Hp Hs.
  destruct (Hm s p Hp Hs) as (a & p1 & t1 & E1 & C1).
  destruct (Hf a (set_player (Some p1) s) p1 eq_refl Hs) as (b & t2 & E2 & C2).
  exists b, (app t1 t2). unfold bind. rewrite E1, E2.
  split; [reflexivity|]. rewrite save_count_app, C1, C2. reflexivity.
Qed.

Lemma ts_get_bind (B : Type) (n : nat) (f : WorldSession -> M B) :
  (forall s0, m_playerSave s0 = flag -> tears_down_saving flag n (f s0)) ->
  tears_down_saving flag n (bind get f).
Proof.
  intros Hf s p Hp Hs. rewrite bind_get. exact (Hf s Hs s p Hp Hs).
Qed.

Lemma ts_last :
  tears_down_saving flag 0
    (SetPlayer None 0 ;;
     SendPacket SMSG_LOGOUT_COMPLETE ;;
     emit EvSqlCharactersOffline ;;
     emit (EvLogDebug "SESSION: Sent SMSG_LOGOUT_COMPLETE Message" 0)).
Proof.
  intros s p Hp _.
  destruct s as [g pl so rs lt iq ld lo rl sv st kt q qm ms].
  destruct so as [[i c]|]; [destruct c|]; eexists; eexists;
    split; reflexivity.
Qed.

Ltac ks :=
  repeat first
    [ apply ks_ret | apply ks_deref | apply ks_update_player
    | apply ks_teleport_loop
    | apply ks_emit; reflexivity
    | apply ks_player_call; exact I
    | apply ks_when
    | apply ks_for_each; intros ?
    | match goal with
      | |- keeps_saving _ _ (if ?c then _ else _) => destruct c
      | |- keeps_saving _ _ (match ?x with Some _ => _ | None => _ end) =>
          destruct x
      end
    | apply (@ks_bind _ _ 0 0); [|intros ?] ].

Lemma ks_ack : keeps_saving flag 0 HandleMoveWorldportAckOpcode.
Proof. unfold HandleMoveWorldportAckOpcode. ks. Qed.

Lemma ks_TeleportToHomebind : keeps_saving flag 0 Player_TeleportToHomebind.
Proof. unfold Player_TeleportToHomebind. ks. Qed.

Lemma ks_RemoveFromGroup : keeps_saving flag 0 Player_RemoveFromGroup.
Proof. unfold Player_RemoveFromGroup. ks. Qed.

Ltac ks_block :=
  solve [ ks; first [apply ks_TeleportToHomebind | apply ks_RemoveFromGroup];
          ks
        | ks ].

Lemma ts_teardown :
  tears_down_saving flag (if flag then 1 else 0) LogoutPlayer_teardown.
Proof.
  unfold LogoutPlayer_teardown.
  eapply ts_eq.
  - repeat first
      [ apply ts_last
      | apply ts_get_bind; intros ? ?;
        match goal with
        | H : m_playerSave _ = flag |- _ => rewrite ?H; clear H
        end
      | eapply ts_bind; [first [apply ks_save_step | ks_block] | intros ?] ].
  - destruct flag; reflexivity.
Qed.

End SaveFlag.

Lemma LogoutPlayer_counts_saves (now : time_t) (s : WorldSession) (p : Player) :
  _player s = Some p ->
  exists tr,
    LogoutPlayer now s = Returned tt (logged_out now s) tr
    /\ save_count tr = (if m_playerSave s then 1 else 0)%nat.
Proof.
  intros Hp.
  destruct (@ks_guarded_teleport_loop (m_playerSave s) s p Hp eq_refl)
    as (u & p1 & t1 & E1 & C1).
  destruct (@ts_teardown (m_playerSave s)
              (set_playerLogout true (set_player (Some p1) s)) p1
              eq_refl eq_refl)
    as (v & t2 & E2 & C2).
  unfold LogoutPlayer, bind at 1. rewrite E1.
  rewrite bind_modify, bind_get. simpl _player. cbv iota.
  unfold bind at 1. rewrite E2.
  destruct s as [g pl so rs lt iq ld lo rl sv st kt q qm ms].
  simpl in Hp, C2 |- *. subst. eexists. split; [reflexivity|].
  rewrite !save_count_app, C1, C2. destruct sv; reflexivity.
Qed.

(** X12.  With a player attached [LogoutPlayer] returns with the player
    reference cleared, the session in CHAR_SELECTION, the recent-logout flag
    set and the transports, queues and posted closures untouched; on the way
    it calls [SaveToDB] exactly once when the save flag is set and not at
    all when it is not. *)
Theorem X12_LogoutPlayer_saves_by_flag (now : time_t) (s : WorldSession)
        (p : Player) :
  _player s = Some p ->
  exists s' tr,
    LogoutPlayer now s = Returned tt s' tr
    /\ save_count tr = (if m_playerSave s then 1 else 0)%nat
    /\ _player s' = None
    /\ m_sessionState s' = WORLD_SESSION_STATE_CHAR_SELECTION
    /\ m_playerRecentlyLogout s' = true
    /\ m_playerLogout s' = false
    /\ m_Socket s' = m_Socket s
    /\ m_requestSocket s' = m_requestSocket s
    /\ m_recvQueue s' = m_recvQueue s
    /\ m_recvQueueMap s' = m_recvQueueMap s
    /\ m_messager s' = m_messager s.
Proof.
  intros Hp. destruct (LogoutPlayer_counts_saves now s Hp) as (tr & E & C).
  exists (logged_out now s), tr. repeat split; assumption.
Qed.

(** X13.  [KickPlayer(save, inPlace)]: not in place it only schedules,
    nothing is called, the player stays attached, the transports and the
    state stay as they are and the scheduled-logout timestamp is now - 20;
    in place it logs the player out at once and the player is saved exactly
    when [save] is set. *)
Theorem X13_KickPlayer (now : time_t) (save : bool) (s : WorldSession)
        (p : Player) :
  _player s = Some p ->
  (exists s',
     KickPlayer now save false s = Returned tt s' []
     /\ _player s' = Some p
     /\ _logoutTime s' = now - 20
     /\ m_Socket s' = m_Socket s
     /\ m_requestSocket s' = m_requestSocket s
     /\ m_sessionState s' = m_sessionState s)
  /\ exists s' tr,
       KickPlayer now save true s = Returned tt s' tr
       /\ save_count tr = (if save then 1 else 0)%nat
       /\ _player s' = None
       /\ m_sessionState s' = WORLD_SESSION_STATE_CHAR_SELECTION.
Proof.
  intros Hp. split.
  - eexists. split; [reflexivity|]. repeat split. exact Hp.
  - destruct (@LogoutPlayer_counts_saves now (set_playerSave save s) p Hp)
      as (tr & E & C).
    exists (logged_out now (set_playerSave save s)), tr.
    unfold KickPlayer. rewrite bind_modify.
    repeat split; assumption.
Qed.


(** * Properties of the filters, the queue cleaner and the caches *)

(** X15.  The two packet filters split the envelopes: an IN-PLACE envelope
    passes both; any other passes exactly one of them, the map filter if and
    only if its opcode is not THREAD-UNSAFE and a player is attached and in
    world, the world filter otherwise.  A session without player passes
    everything through the world filter. *)
Theorem X15_filters_partition (world : Env) (session : WorldSession)
        (packet : WorldPacket) :
  let tag := packetProcessing (opcodeTable world (GetOpcode packet)) in
  (tag = PROCESS_INPLACE ->
   MapSessionFilter_Process world session packet = true
   /\ WorldSessionFilter_Process world session packet = true)
  /\ (tag <> PROCESS_INPLACE ->
      WorldSessionFilter_Process world session packet =
      negb (MapSessionFilter_Process world session packet))
  /\ (tag <> PROCESS_INPLACE ->
      (MapSessionFilter_Process world session packet = true <->
       tag <> PROCESS_THREADUNSAFE
       /\ exists plr, _player session = Some plr /\ IsInWorld plr = true))
  /\ (_player session = None ->
      WorldSessionFilter_Process world session packet = true).
Proof.
  unfold MapSessionFilter_Process, WorldSessionFilter_Process,
    MapSessionFilterHelper. cbv zeta.
  destruct (packetProcessing (opcodeTable world (GetOpcode packet)));
    (split; [|split; [|split]]).
  all: try (intros H; discriminate H).
  all: try (intros H; exfalso; apply H; reflexivity).
  all: try (intros _; split; reflexivity).
  all: try (intros _; reflexivity).
  all: try (intros ->; reflexivity).
  all: intros _; split.
  all: try (intros H; discriminate H).
  all: try (intros [H _]; exfalso; apply H; reflexivity).
  all: try (intros H; split; [discriminate|];
            destruct (_player session) as [plr|];
            [exists plr; split; [reflexivity | exact H] | discriminate H]).
  all: intros [_ [plr [-> H]]]; exact H.
Qed.

Section Movement.

Variable ops : MovementOpcodes.

Lemma erase_movement_filter (q : list WorldPacket) :
  erase_movement ops q = filter (fun p => negb (is_movement ops p)) q.
Proof.
  induction q as [|p q IH]; simpl; [reflexivity|].
  destruct (is_movement ops p); simpl; rewrite IH; reflexivity.
Qed.


End Movement.

(** ** Time synchronisation *)

(** X17.  For a 32-bit client time and a clock delta that keeps the sum
    within 64 bits, [SynchronizeMovement] writes the client time shifted by
    the delta exactly when the delta is not zero and the shifted time is a
    32-bit unsigned value; it then is within 0 .. 0xFFFFFFFF, so that the
    32-bit field it is stored in holds it unchanged.  In every other case,
    a delta of zero included, it writes the current server time. *)
Theorem X17_SynchronizeMovement (ctime currentMSTime : Z) (d : SessionData) :
  0 <= ctime < 2 ^ 32 ->
  - 2 ^ 63 <= m_timeSyncClockDelta d < 2 ^ 63 - 2 ^ 32 ->
  let delta := m_timeSyncClockDelta d in
  let written := fst (SynchronizeMovement ctime currentMSTime d) in
  let fallback := snd (SynchronizeMovement ctime currentMSTime d) in
  (fallback = false <-> delta <> 0 /\ 0 <= ctime + delta <= 0xFFFFFFFF)
  /\ (fallback = false ->
      written = ctime + delta /\ 0 <= written < 2 ^ 32)
  /\ (fallback = true -> written = currentMSTime).
Proof.
  intros Hc Hd. cbv zeta. unfold SynchronizeMovement.
  assert (Hw : int64_wrap (ctime + m_timeSyncClockDelta d) =
               ctime + m_timeSyncClockDelta d).
  { unfold int64_wrap.
    change (2 ^ 63) with 9223372036854775808 in *.
    change (2 ^ 64) with 18446744073709551616.
    change (2 ^ 32) with 4294967296 in *.
    rewrite Z.mod_small; lia. }
  rewrite Hw. change (2 ^ 32) with 4294967296.
  destruct (Z.eqb_spec (m_timeSyncClockDelta d) 0) as [E0|E0];
    destruct (Z.ltb_spec (ctime + m_timeSyncClockDelta d) 0) as [El|El];
    destruct (Z.ltb_spec 0xFFFFFFFF (ctime + m_timeSyncClockDelta d))
      as [Eh|Eh];
    simpl; repeat split; intros; try discriminate; try reflexivity;
    try lia;
    match goal with
    | H : _ /\ _ |- _ => destruct H; lia
    end.
Qed.

Lemma map_find_assign (key key' value : Z) (bindings : list (Z * Z)) :
  map_find key (map_assign key' value bindings) =
  if Z.eqb key' key then Some value else map_find key bindings.
Proof.
  unfold map_assign. simpl.
  destruct (Z.eqb_spec key' key) as [E|E]; [reflexivity|].
  induction bindings as [|[k v] rest IH]; simpl; [reflexivity|].
  destruct (Z.eqb_spec k key') as [Ek|Ek]; simpl.
  - subst k. destruct (Z.eqb_spec key' key); [contradiction | exact IH].
  - destruct (Z.eqb k key); [reflexivity | exact IH].
Qed.

Section TimeSync.

Variable sock : option WorldSocket.

Lemma SendTimeSyncs_from (msTimes : list Z) :
  forall (c : nat) (d : SessionData),
    m_timeSyncNextCounter d = Z.of_nat c ->
    Z.of_nat c < 2 ^ 32 ->
    Z.of_nat c + Z.of_nat (List.length msTimes) <= 2 ^ 32 ->
    let r := SendTimeSyncs sock msTimes d in
    snd r = flat_map (time_sync_request sock) (seq c (List.length msTimes))
    /\ m_timeSyncNextCounter (fst r) =
       uint32_wrap (Z.of_nat c + Z.of_nat (List.length msTimes))
    /\ (forall i t, nth_error msTimes i = Some t ->
        map_find (Z.of_nat (c + i)) (m_pendingTimeSyncRequests (fst r))
        = Some t)
    /\ (forall k, k < Z.of_nat c ->
        map_find k (m_pendingTimeSyncRequests (fst r))
        = map_find k (m_pendingTimeSyncRequests d))
    /\ (msTimes <> [] ->
        m_timeSyncTimer (fst r) =
        if Nat.eqb (c + List.length msTimes) 1 then 5000 else 10000).
Proof.
  unfold uint32_wrap. change (2 ^ 32) with 4294967296.
  induction msTimes as [|t rest IH]; intros c d Hc Hlt Hb; cbv zeta.
  - cbn [SendTimeSyncs List.length seq flat_map fst snd]. repeat split.
    + rewrite Hc, Z.add_0_r. rewrite Z.mod_small; lia.
    + intros i t H. destruct i; discriminate H.
    + intros H. contradiction H. reflexivity.
  - cbn [SendTimeSyncs seq flat_map fst snd].
    set (d1 := fst (SendTimeSync sock t d)).
    assert (Hp1 : m_pendingTimeSyncRequests d1 =
                  map_assign (Z.of_nat c) t (m_pendingTimeSyncRequests d)).
    { unfold d1. simpl. rewrite Hc. reflexivity. }
    assert (Hs1 : snd (SendTimeSync sock t d) = time_sync_request sock c).
    { unfold time_sync_request. simpl. rewrite Hc. reflexivity. }
    assert (Ht1 : m_timeSyncTimer d1 =
                  if Z.eqb (Z.of_nat c) 0 then 5000 else 10000).
    { unfold d1. simpl. rewrite Hc. reflexivity. }
    assert (Hn1 : m_timeSyncNextCounter d1 =
                  (Z.of_nat c + 1) mod 4294967296).
    { unfold d1. simpl. rewrite Hc. reflexivity. }
    destruct rest as [|t' rest'].
    + cbn [SendTimeSyncs List.length seq flat_map fst snd]. repeat split.
      * rewrite Hs1. reflexivity.
      * rewrite Hn1. reflexivity.
      * intros i u H. destruct i as [|i]; [|destruct i; discriminate H].
        injection H as <-. rewrite Hp1, map_find_assign, Nat.add_0_r.
        rewrite Z.eqb_refl. reflexivity.
      * intros k Hk. rewrite Hp1, map_find_assign.
        destruct (Z.eqb_spec (Z.of_nat c) k); [lia | reflexivity].
      * intros _. rewrite Ht1.
        destruct c as [|c]; [reflexivity|].
        replace (S c + 1)%nat with (S (S c)) by lia.
        destruct (Z.eqb_spec (Z.of_nat (S c)) 0); [lia | reflexivity].
    + assert (Hne : t' :: rest' <> []) by discriminate.
      cbn [List.length] in Hb.
      assert (Hc1 : m_timeSyncNextCounter d1 = Z.of_nat (S c)).
      { rewrite Hn1. rewrite Z.mod_small; lia. }
      assert (Hlt1 : Z.of_nat (S c) < 4294967296) by lia.
      assert (Hb1 : Z.of_nat (S c) + Z.of_nat (List.length (t' :: rest'))
                    <= 4294967296)
        by (cbn [List.length]; lia).
      destruct (IH (S c) d1 Hc1 Hlt1 Hb1) as (A & B & C & D & E).
      repeat split.
      * rewrite A, Hs1. reflexivity.
      * rewrite B. f_equal. cbn [List.length]. lia.
      * intros i u H. destruct i as [|i].
        -- injection H as <-. rewrite Nat.add_0_r.
           rewrite D by lia.
           rewrite Hp1, map_find_assign, Z.eqb_refl. reflexivity.
        -- replace (c + S i)%nat with (S c + i)%nat by lia.
           exact (C i u H).
      * intros k Hk. rewrite D by lia. rewrite Hp1, map_find_assign.
        destruct (Z.eqb_spec (Z.of_nat c) k); [lia | reflexivity].
      * intros _. rewrite (E Hne).
        replace (c + List.length (t :: t' :: rest'))%nat
          with (S c + List.length (t' :: rest'))%nat
          by (cbn [List.length]; lia).
        reflexivity.
Qed.

(** X18.  After [ResetTimeSync], a run of up to 2^32 calls of
    [SendTimeSync] sends the counters 0, 1, 2, ... in this order, keeps for
    each of them the clock reading of its call in the table of pending
    requests, leaves the next counter at the number of calls (modulo 2^32)
    and the timer at 5000 after a single call, at 10000 after more. *)
Theorem X18_time_sync_run (msTimes : list Z) (d : SessionData) :
  Z.of_nat (List.length msTimes) <= 2 ^ 32 ->
  let r := SendTimeSyncs sock msTimes (ResetTimeSync d) in
  snd r = flat_map (time_sync_request sock) (seq 0 (List.length msTimes))
  /\ m_timeSyncNextCounter (fst r) =
     uint32_wrap (Z.of_nat (List.length msTimes))
  /\ (forall i t, nth_error msTimes i = Some t ->
      map_find (Z.of_nat i) (m_pendingTimeSyncRequests (fst r)) = Some t)
  /\ (msTimes <> [] ->
      m_timeSyncTimer (fst r) =
      if Nat.eqb (List.length msTimes) 1 then 5000 else 10000).
Proof.
  intros Hb.
  destruct (@SendTimeSyncs_from msTimes 0%nat (ResetTimeSync d) eq_refl
              eq_refl Hb)
    as (A & B & C & _ & E).
  cbv zeta. repeat split; assumption.
Qed.

End TimeSync.

(** ** The account-data cache *)

Lemma length_array_set (A : Type) (i : nat) (v : A) (l : list A) :
  List.length (array_set i v l) = List.length l.
Proof.
  revert i. induction l as [|x l IH]; intros [|i]; simpl; try reflexivity.
  rewrite IH. reflexivity.
Qed.

Lemma nth_error_array_set_same (A : Type) (i : nat) (v : A) (l : list A) :
  (i < List.length l)%nat -> nth_error (array_set i v l) i = Some v.
Proof.
  revert i. induction l as [|x l IH]; intros [|i] H; simpl in *; try lia.
  - reflexivity.
  - apply IH. lia.
Qed.

Lemma nth_error_array_set_other (A : Type) (i j : nat) (v : A) (l : list A) :
  i <> j -> nth_error (array_set i v l) j = nth_error l j.
Proof.
  revert i j. induction l as [|x l IH]; intros [|i] [|j] H; simpl;
    try reflexivity.
  - contradiction H. reflexivity.
  - apply IH. intros E. apply H. rewrite E. reflexivity.
Qed.

Section AccountDataCache.

Variable consts : AccountDataConsts.


(** X20.  Per-character account data after a logout is lost: once
    [LogoutPlayer] has logged a player out, [SetAccountData] with the
    session's [m_GUIDLow] and a type that is not global writes nothing to
    the database and leaves the cache as it was. *)
Theorem X20_character_data_lost_after_logout (now : time_t)
        (s : WorldSession) (p : Player) (type : nat) (time_ : time_t)
        (data : string) (d : SessionData) :
  _player s = Some p ->
  mask_has (GLOBAL_CACHE_MASK consts) type = false ->
  exists s' tr,
    LogoutPlayer now s = Returned tt s' tr
    /\ SetAccountData consts (m_GUIDLow s') type time_ data d = (d, []).
Proof.
  intros Hp Hm. destruct (LogoutPlayer_with_player now s Hp) as [tr E].
  exists (logged_out now s), tr. split; [exact E|].
  unfold SetAccountData. rewrite Hm. unfold logged_out. simpl.
  rewrite Hp. reflexivity.
Qed.

Lemma nth_error_reset_masked (mask : Z) (array : list AccountData) :
  forall k i,
    nth_error (reset_masked consts mask k array) i =
    match nth_error array i with
    | Some x =>
        Some (if mask_has mask (k + i) then AccountData_default consts else x)
    | None => None
    end.
Proof.
  induction array as [|x rest IH]; intros k [|i]; simpl; try reflexivity.
  - rewrite Nat.add_0_r. reflexivity.
  - rewrite IH. replace (S k + i)%nat with (k + S i)%nat by lia. reflexivity.
Qed.

Lemma length_reset_masked (mask : Z) (array : list AccountData) :
  forall k, List.length (reset_masked consts mask k array) = List.length array.
Proof.
  induction array as [|x rest IH]; intros k; simpl; [reflexivity|].
  rewrite IH. reflexivity.
Qed.

Lemma load_rows_entry (mask : Z) (rows : list AccountDataRow)
      (start : list AccountData) (i : nat) :
  List.length start = NUM_ACCOUNT_DATA_TYPES consts ->
  (i < NUM_ACCOUNT_DATA_TYPES consts)%nat ->
  let loaded := fst (fold_left (load_row consts mask) rows (start, [])) in
  List.length loaded = NUM_ACCOUNT_DATA_TYPES consts
  /\ nth_error loaded i =
     if mask_has mask i then
       match last_row_of i rows with
       | Some entry => Some entry
       | None => nth_error start i
       end
     else nth_error start i.
Proof.
  intros Hlen Hi. cbv zeta.
  induction rows as [|row rows IH] using rev_ind.
  - simpl. split; [exact Hlen|]. unfold last_row_of. simpl.
    destruct (mask_has mask i); reflexivity.
  - rewrite fold_left_app. cbn [fold_left].
    destruct IH as [IHlen IHnth].
    unfold last_row_of. rewrite rev_app_distr. cbn [rev app find].
    unfold load_row at 1 3.
    destruct (Nat.leb_spec (NUM_ACCOUNT_DATA_TYPES consts) (row_type row))
      as [Hbig|Hsmall]; cbn [fst].
    + split; [exact IHlen|].
      destruct (Nat.eqb_spec (row_type row) i) as [E|E]; [lia|].
      exact IHnth.
    + destruct (mask_has mask (row_type row)) eqn:Hm; cbn [negb fst].
      * split; [rewrite length_array_set; exact IHlen|].
        destruct (Nat.eqb_spec (row_type row) i) as [E|E].
        -- subst i. rewrite Hm.
           apply nth_error_array_set_same. rewrite IHlen. exact Hsmall.
        -- rewrite nth_error_array_set_other by exact E. exact IHnth.
      * split; [exact IHlen|].
        destruct (Nat.eqb_spec (row_type row) i) as [E|E].
        -- subst i. rewrite Hm in IHnth |- *. exact IHnth.
        -- exact IHnth.
Qed.

(** X21.  [LoadAccountData] touches the entries of the mask only.  Such an
    entry ends as the last row of its type, or as the default entry when no
    row has its type; rows whose type is past the array or outside the mask
    change nothing; a null result resets the entries of the mask. *)
Theorem X21_LoadAccountData_entries (result : option (list AccountDataRow))
        (mask : Z) (d : SessionData) (i : nat) :
  List.length (m_accountData d) = NUM_ACCOUNT_DATA_TYPES consts ->
  (i < NUM_ACCOUNT_DATA_TYPES consts)%nat ->
  let rows := match result with Some rows => rows | None => [] end in
  nth_error (m_accountData (fst (LoadAccountData consts result mask d))) i =
  if mask_has mask i then
    match last_row_of i rows with
    | Some entry => Some entry
    | None => Some (AccountData_default consts)
    end
  else nth_error (m_accountData d) i.
Proof.
  intros Hlen Hi. cbv zeta.
  assert (Hin : exists x, nth_error (m_accountData d) i = Some x).
  { destruct (nth_error (m_accountData d) i) eqn:E; [eexists; reflexivity|].
    apply nth_error_None in E. lia. }
  destruct Hin as [x Hx].
  assert (Hreset :
            nth_error (reset_masked consts mask 0 (m_accountData d)) i =
            Some (if mask_has mask i then AccountData_default consts else x)).
  { rewrite nth_error_reset_masked, Hx. reflexivity. }
  unfold LoadAccountData. destruct result as [rows|]; cbn [fst m_accountData set_accountData].
  - destruct (@load_rows_entry mask rows
                (reset_masked consts mask 0 (m_accountData d)) i) as [_ H].
    + rewrite length_reset_masked. exact Hlen.
    + exact Hi.
    + rewrite H, Hreset, Hx. destruct (mask_has mask i); reflexivity.
  - rewrite Hreset, Hx. unfold last_row_of. simpl.
    destruct (mask_has mask i); reflexivity.
Qed.

End AccountDataCache.

(** ** Tutorial flags *)

(** X22.  [SaveTutorialsData] gives the database at most one statement, an
    UPDATE when the flags have changed and an INSERT when they are new,
    leaves the flags as they are and the state UNCHANGED; a second call
    right after gives the database nothing. *)
Theorem X22_SaveTutorialsData_once (d : SessionData) :
  let r := SaveTutorialsData d in
  (List.length (snd r) <= 1)%nat
  /\ (snd r = [] <-> m_tutorialState d = TUTORIALDATA_UNCHANGED)
  /\ m_Tutorials (fst r) = m_Tutorials d
  /\ m_tutorialState (fst r) = TUTORIALDATA_UNCHANGED
  /\ SaveTutorialsData (fst r) = (fst r, []).
Proof.
  cbv zeta. unfold SaveTutorialsData. simpl.
  destruct (m_tutorialState d); simpl; repeat split;
    try lia; try reflexivity; try discriminate.
Qed.

Lemma store_tutorial_row_eight (row tutorials : list Z) :
  List.length tutorials = 8%nat ->
  store_tutorial_row row tutorials = map (fun iI => nth iI row 0) (seq 0 8).
Proof.
  intros H.
  do 8 (destruct tutorials as [|? tutorials]; [discriminate H|]).
  destruct tutorials; [|discriminate H]. reflexivity.
Qed.

Lemma load_tutorial_rows (rows : list (list Z)) (start : list Z) :
  List.length start = 8%nat ->
  fold_left (fun acc row => store_tutorial_row row acc) rows start =
  match rows with
  | [] => start
  | _ => map (fun iI => nth iI (last rows []) 0) (seq 0 8)
  end.
Proof.
  revert start. induction rows as [|row rows IH]; intros start H.
  - reflexivity.
  - cbn [fold_left]. rewrite IH.
    + destruct rows as [|row' rows'].
      * apply store_tutorial_row_eight. exact H.
      * reflexivity.
    + rewrite (store_tutorial_row_eight _ _ H). reflexivity.
Qed.

(** X23.  [LoadTutorialsData] with eight flags in the session: without
    result all flags are zero and the state is NEW, so that the next
    [SaveTutorialsData] inserts the account with eight zeros; with a result
    the flags are the first eight columns of the last row and the state is
    UNCHANGED, so that the next [SaveTutorialsData] writes nothing. *)
Theorem X23_LoadTutorialsData (rows : list (list Z)) (d : SessionData) :
  List.length (m_Tutorials d) = 8%nat ->
  rows <> [] ->
  m_Tutorials (LoadTutorialsData None d) = repeat 0 8
  /\ snd (SaveTutorialsData (LoadTutorialsData None d)) =
     [EfSql "INSERT INTO character_tutorial (account,tut0,tut1,tut2,tut3,tut4,tut5,tut6,tut7) VALUES (?, ?, ?, ?, ?, ?, ?, ?, ?)"
        (SqlInt (_accountId d) :: repeat (SqlInt 0) 8)]
  /\ m_Tutorials (LoadTutorialsData (Some rows) d) =
     map (fun iI => nth iI (last rows []) 0) (seq 0 8)
  /\ snd (SaveTutorialsData (LoadTutorialsData (Some rows) d)) = [].
Proof.
  intros H Hrows.
  assert (Hz : map (fun _ : Z => 0) (m_Tutorials d) = repeat 0 8).
  { destruct (m_Tutorials d) as [|a0 l]; [discriminate H|].
    do 7 (destruct l as [|? l]; [discriminate H|]).
    destruct l; [|discriminate H]. reflexivity. }
  unfold LoadTutorialsData, SaveTutorialsData. simpl. rewrite Hz.
  repeat split.
  rewrite load_tutorial_rows by reflexivity.
  destruct rows; [contradiction Hrows; reflexivity | reflexivity].
Qed.

(** ** The addon manifest *)

Lemma length_tdata : List.length tdata = 256%nat.
Proof. reflexivity. Qed.

(** Addons whose CRC is not the standard one. *)
Lemma addon_fields_size (itr : AddonInfo) :
  list_sum (map field_size (addon_fields itr)) =
  (8 + if Z.eqb (CRC itr) standard_addon_crc then 0 else 256)%nat.
Proof.
  unfold addon_fields. destruct (Z.eqb (CRC itr) standard_addon_crc); reflexivity.
Qed.

Lemma addons_size (addons : list AddonInfo) :
  list_sum (map field_size (flat_map addon_fields addons)) =
  (8 * List.length addons
   + 256 * List.length
             (filter (fun itr => negb (Z.eqb (CRC itr) standard_addon_crc))
                addons))%nat.
Proof.
  induction addons as [|itr addons IH]; [reflexivity|].
  cbn [flat_map]. rewrite map_app, list_sum_app, addon_fields_size, IH.
  cbn [filter List.length].
  destruct (Z.eqb (CRC itr) standard_addon_crc); cbn [negb List.length]; lia.
Qed.

(** X24.  [SendAddonsInfo] with an open transport sends one packet of
    [8 n + 256 k + 4] bytes for [n] addons of which [k] have a CRC other
    than the standard one (each of these gets the 256-byte public key), and
    empties the addon list: a second call sends the 4-byte trailer alone.
    Without open transport nothing is sent and the list is emptied all the
    same. *)
Theorem X24_SendAddonsInfo (sock : option WorldSocket) (d : SessionData) :
  let r := SendAddonsInfo sock d in
  m_addonsList (fst r) = []
  /\ (forall k, sock = Some k -> IsClosed k = false ->
      exists pkt,
        snd r = [EfSend (sock_id k) pkt]
        /\ out_opcode pkt = SMSG_ADDON_INFO
        /\ packet_size pkt =
           (8 * List.length (m_addonsList d)
            + 256 * List.length
                      (filter
                         (fun itr => negb (Z.eqb (CRC itr) standard_addon_crc))
                         (m_addonsList d))
            + 4)%nat)
  /\ (socket_is_open sock = false -> snd r = [])
  /\ SendAddonsInfo sock (fst r) =
     (fst r, SendData sock (mkOutPacket SMSG_ADDON_INFO [U32 0])).
Proof.
  cbv zeta. unfold SendAddonsInfo. simpl. repeat split.
  - intros k -> Hc. simpl. rewrite Hc. eexists. split; [reflexivity|].
    split; [reflexivity|].
    unfold packet_size. simpl out_fields.
    rewrite map_app, list_sum_app, addons_size. simpl. lia.
  - unfold socket_is_open, SendData.
    destruct sock as [k|]; [|reflexivity].
    destruct (IsClosed k); [reflexivity | discriminate].
Qed.

(** ** The message of the day *)

Lemma string_append_assoc (a b c : string) :
  ((a ++ b) ++ c)%string = (a ++ (b ++ c))%string.
Proof. induction a as [|x a IH]; simpl; [reflexivity | rewrite IH; reflexivity]. Qed.

Lemma has_delimiter_app (a b : string) :
  has_delimiter (a ++ b)%string = has_delimiter a || has_delimiter b.
Proof.
  induction a as [|x a IH]; simpl; [reflexivity|].
  rewrite IH, orb_assoc. reflexivity.
Qed.

Lemma getline_loop_terminated (input : string) :
  forall token,
    terminated_lines (getline_loop token input) =
    (token_text token ++ input
     ++ (if unterminated (token_open token) input
         then String motd_delimiter EmptyString else EmptyString))%string.
Proof.
  induction input as [|c rest IH]; intros token.
  - destruct token; reflexivity.
  - cbn [getline_loop unterminated]. fold (token_text token).
    destruct (Ascii.eqb c motd_delimiter) eqn:E.
    + apply Ascii.eqb_eq in E. subst c.
      cbn [terminated_lines]. rewrite IH. reflexivity.
    + rewrite IH. cbn [token_text token_open negb].
      rewrite string_append_assoc. reflexivity.
Qed.

Lemma getline_loop_no_delimiter (input : string) :
  forall token,
    has_delimiter (token_text token) = false ->
    Forall (fun line => has_delimiter line = false) (getline_loop token input).
Proof.
  induction input as [|c rest IH]; intros token H.
  - destruct token; constructor; [exact H | constructor].
  - cbn [getline_loop]. fold (token_text token).
    destruct (Ascii.eqb c motd_delimiter) eqn:E.
    + constructor; [exact H|]. apply IH. reflexivity.
    + apply IH. cbn [token_text]. rewrite has_delimiter_app, H.
      simpl. rewrite E. reflexivity.
Qed.

(** X25.  [SendMotd] splits the message of the day at ['@']: no line it
    sends contains the delimiter; the lines, each followed by ['@'], spell
    the message again, with one ['@'] added when the message is not empty
    and does not end in one (so a final ['@'] starts no empty last line, and
    an empty message gives no line at all); the packet carries the number
    of lines and then the lines. *)
Theorem X25_SendMotd_lines (sock : option WorldSocket) (motd : string) :
  let lines := getline_loop None motd in
  Forall (fun line => has_delimiter line = false) lines
  /\ terminated_lines lines =
     (motd ++ (if unterminated false motd
               then String motd_delimiter EmptyString else EmptyString))%string
  /\ (motd = EmptyString -> lines = [])
  /\ SendMotd sock motd =
     SendData sock
       (mkOutPacket SMSG_MOTD
          (U32 (Z.of_nat (List.length lines)) :: map CString lines)).
Proof.
  cbv zeta. split; [|split; [|split]].
  - apply getline_loop_no_delimiter. reflexivity.
  - rewrite getline_loop_terminated. reflexivity.
  - intros ->. reflexivity.
  - reflexivity.
Qed.

(** ** A fault with a player attached *)

(** X26.  The catch path returns whenever kicking is not configured or a
    player is attached; it then leaves the player, the transports, the
    state and the queues as they are and posts at most one closure, the
    kick of the attached player: the disconnect is never done inside the
    drain. *)
Theorem X26_fault_is_survived (world : Env) (packet : WorldPacket)
        (s : WorldSession) :
  CONFIG_BOOL_KICK_PLAYER_ON_BAD_PACKET world = false \/ _player s <> None ->
  exists s' tr,
    ProcessByteBufferException world packet s = Returned tt s' tr
    /\ _player s' = _player s
    /\ m_Socket s' = m_Socket s
    /\ m_requestSocket s' = m_requestSocket s
    /\ m_sessionState s' = m_sessionState s
    /\ m_recvQueue s' = m_recvQueue s
    /\ m_recvQueueMap s' = m_recvQueueMap s
    /\ m_messager s' =
       (m_messager s ++
        match _player s with
        | Some p =>
            if CONFIG_BOOL_KICK_PLAYER_ON_BAD_PACKET world
            then [MsgKickPlayer (GetGUIDLow p)] else []
        | None => []
        end)%list.
Proof.
  intros H. unfold ProcessByteBufferException.
  destruct (CONFIG_BOOL_KICK_PLAYER_ON_BAD_PACKET world) eqn:Hk.
  - destruct H as [H|H]; [discriminate H|].
    destruct (_player s) as [p|] eqn:Hp; [|contradiction H; reflexivity].
    destruct (HasLogLevelDebug world);
      unfold bind, deref_player, when, emit, ret, modify; simpl;
      rewrite Hp; simpl; eexists; eexists; (split; [reflexivity|]);
      simpl; rewrite Hp; repeat split.
  - destruct (HasLogLevelDebug world); simpl;
      eexists; eexists; (split; [reflexivity|]);
      repeat split; destruct (_player s); rewrite app_nil_r; reflexivity.
Qed.

(** X27.  Whatever the posted closures and the handlers did before the
    state switch, a tick that returns does not leave the session in
    CREATED: a session is in CREATED only from [RequestNewSocket] (or its
    construction) to the end of its next tick. *)
Theorem X27_tick_leaves_CREATED (world : Env) (now : time_t)
        (s s' : WorldSession) (b : bool) (tr : list Event) :
  Update world now s = Returned b s' tr ->
  m_sessionState s' <> WORLD_SESSION_STATE_CREATED.
Proof.
  intros H. unfold Update in H.
  apply bind_returned in H. destruct H as (u & s1 & t1 & t2 & _ & H & _).
  rewrite bind_emit in H. apply after_returned in H. destruct H as (t3 & H & _).
  rewrite bind_get, bind_modify, bind_emit in H.
  apply after_returned in H. destruct H as (t4 & H & _).
  apply bind_returned in H. destruct H as (v & s2 & t5 & t6 & _ & H & _).
  exact (@Update_state_leaves_CREATED world now s2 s' b t6 H).
Qed.

Lemma masked_times_size (mask : Z) (array : list AccountData) :
  forall k,
    (list_sum (map field_size (masked_times mask k array))
     <= 4 * List.length array)%nat.
Proof.
  induction array as [|x rest IH]; intros k; simpl; [lia|].
  rewrite map_app, list_sum_app. specialize (IH (S k)).
  destruct (mask_has mask k); simpl; lia.
Qed.

Lemma masked_times_zero (array : list AccountData) :
  forall k, masked_times 0 k array = [].
Proof.
  induction array as [|x rest IH]; intros k; [reflexivity|].
  cbn [masked_times]. unfold mask_has. rewrite Z.land_0_l.
  simpl. apply IH.
Qed.

(** X28.  The packet of [SendAccountDataTimes] never outgrows the size it
    is created with: with the eight entries of [m_accountData] it takes at
    most 4 + 1 + 4 + 8 * 4 bytes, whatever the mask; a mask of zero gives the
    9-byte header alone. *)
Theorem X28_SendAccountDataTimes_size (k : WorldSocket) (now : time_t)
        (mask : Z) (d : SessionData) :
  IsClosed k = false ->
  List.length (m_accountData d) = 8%nat ->
  exists pkt,
    SendAccountDataTimes (Some k) now mask d = [EfSend (sock_id k) pkt]
    /\ out_opcode pkt = SMSG_ACCOUNT_DATA_TIMES
    /\ (9 <= packet_size pkt <= 4 + 1 + 4 + 8 * 4)%nat
    /\ (mask = 0 -> packet_size pkt = 9%nat).
Proof.
  intros Hc Hl. unfold SendAccountDataTimes, SendData. rewrite Hc.
  eexists. split; [reflexivity|]. split; [reflexivity|].
  unfold packet_size. cbn [out_fields].
  rewrite map_app, list_sum_app.
  pose proof (masked_times_size mask (m_accountData d) 0) as H.
  rewrite Hl in H. split.
  - simpl. lia.
  - intros ->. rewrite masked_times_zero. reflexivity.
Qed.

(** ** The further properties at concrete inputs *)

Lemma X3_QueuePackets_fifo_witness :
  forallb (fun p => negb (is_immediate (example_world false) p))
    [envelope 1; envelope 2; envelope 1] = true
  /\ exists tr,
       QueuePackets (example_world false)
         [envelope 1; envelope 2; envelope 1] session_without_player =
       Returned tt
         (set_recvQueueMap [envelope 1; envelope 1]
            (set_recvQueue [envelope 2] session_without_player)) tr.
Proof.
  split; [reflexivity|].
  exact (@X3_QueuePackets_fifo (example_world false)
           [envelope 1; envelope 2; envelope 1] session_without_player
           eq_refl).
Defined.

Lemma X4_admission_complete_witness :
  admitted (example_world false) (envelope 6) session_without_player = false
  /\ exists tr,
       Update_packet (example_world false) (envelope 6) session_without_player
       = Returned tt session_without_player tr
       /\ (List.length tr <= 1)%nat.
Proof.
  split; [reflexivity|].
  exact (proj1 (@X4_admission_complete (example_world false) (envelope 6)
                  session_without_player) eq_refl).
Defined.


Lemma X6_ExecuteOpcode_resets_delay_witness :
  exists s' tr p',
    ExecuteOpcode (example_world false) (example_table 6) (envelope 6)
      session_playing = Returned tt s' tr
    /\ _player s' = Some p'
    /\ CanDelayTeleport p' = false.
Proof.
  eexists. eexists. eexists.
  split; [reflexivity|]. split; [reflexivity|].
  eapply (@X6_ExecuteOpcode_resets_delay (example_world false)
            (example_table 6) (envelope 6) session_playing); reflexivity.
Defined.

Lemma X9_RequestNewSocket_first_wins_witness :
  m_requestSocket session_without_player = None
  /\ RequestNewSocket new_socket session_without_player =
     Returned true
       (set_sessionState WORLD_SESSION_STATE_CREATED
          (set_requestSocket (Some new_socket) session_without_player))
       [EvLock m_recvQueueLock; EvUnlock m_recvQueueLock].
Proof.
  split; [reflexivity|].
  exact (proj1 (proj2 (@X9_RequestNewSocket_first_wins new_socket open_socket
                         session_without_player) eq_refl)).
Defined.

Lemma X10_reconnect_takes_over_witness :
  m_requestSocket session_dropped = None
  /\ exists s' tr,
       (RequestNewSocket new_socket ;; Update_state (example_world false) 1000)
         session_dropped = Returned true s' tr
       /\ m_Socket s' = Some new_socket
       /\ m_requestSocket s' = None
       /\ m_sessionState s' = WORLD_SESSION_STATE_CHAR_SELECTION
       /\ m_kickTime s' = 1000 + 15 * 60
       /\ _player s' = _player session_dropped
       /\ (forall old, m_Socket session_dropped = Some old ->
           In (EvSocketFinalizeSession (sock_id old)) tr).
Proof.
  split; [reflexivity|].
  exact (@X10_reconnect_takes_over (example_world false) 1000 new_socket
           session_dropped eq_refl).
Defined.

Lemma X11_removal_cases_witness :
  reported_for_removal (example_world false) 1000 session_ready_without_player
  = true
  /\ exists s' tr,
       Update_state (example_world false) 1000 session_ready_without_player =
       Returned
         (negb (reported_for_removal (example_world false) 1000
                  session_ready_without_player)) s' tr
       /\ (reported_for_removal (example_world false) 1000
             session_ready_without_player = true ->
           m_sessionState session_ready_without_player
           <> WORLD_SESSION_STATE_CHAR_SELECTION ->
           _player s' = None).
Proof.
  split; [reflexivity|].
  exact (@X11_removal_cases (example_world false) 1000
           session_ready_without_player).
Defined.

Lemma X12_LogoutPlayer_saves_by_flag_witness :
  _player session_playing = Some example_player
  /\ exists s' tr,
       LogoutPlayer 1000 session_playing = Returned tt s' tr
       /\ save_count tr = 1%nat
       /\ _player s' = None.
Proof.
  split; [reflexivity|].
  destruct (@X12_LogoutPlayer_saves_by_flag 1000 session_playing
              example_player eq_refl)
    as (s' & tr & E & C & P & _).
  exists s', tr. repeat split; assumption.
Defined.

Lemma X13_KickPlayer_witness :
  _player session_playing = Some example_player
  /\ exists s' tr,
       KickPlayer 1000 false true session_playing = Returned tt s' tr
       /\ save_count tr = 0%nat
       /\ _player s' = None
       /\ m_sessionState s' = WORLD_SESSION_STATE_CHAR_SELECTION.
Proof.
  split; [reflexivity|].
  exact (proj2 (@X13_KickPlayer 1000 false session_playing example_player
                  eq_refl)).
Defined.

Lemma X15_filters_partition_witness :
  packetProcessing (example_table 1) <> PROCESS_INPLACE
  /\ packetProcessing (example_table 1) <> PROCESS_THREADUNSAFE
  /\ _player session_playing = Some example_player
  /\ IsInWorld example_player = true
  /\ MapSessionFilter_Process (example_world false) session_playing
       (envelope 1) = true
  /\ WorldSessionFilter_Process (example_world false) session_playing
       (envelope 1) = false.
Proof.
  assert (H : packetProcessing (example_table 1) <> PROCESS_INPLACE)
    by discriminate.
  assert (H' : packetProcessing (example_table 1) <> PROCESS_THREADUNSAFE)
    by discriminate.
  split; [exact H|]. split; [exact H'|].
  split; [reflexivity|]. split; [reflexivity|].
  destruct (@X15_filters_partition (example_world false) session_playing
              (envelope 1)) as (_ & A & B & _).
  assert (E : MapSessionFilter_Process (example_world false) session_playing
                (envelope 1) = true).
  { apply (proj2 (B H)). split; [exact H'|].
    exists example_player. split; reflexivity. }
  split; [exact E|]. rewrite (A H), E. reflexivity.
Defined.


Lemma X17_SynchronizeMovement_witness :
  0 <= 1000 < 2 ^ 32
  /\ - 2 ^ 63 <= m_timeSyncClockDelta example_data < 2 ^ 63 - 2 ^ 32
  /\ snd (SynchronizeMovement 1000 77 example_data) = false
  /\ fst (SynchronizeMovement 1000 77 example_data) = 1500.
Proof.
  assert (H1 : 0 <= 1000 < 2 ^ 32)
    by (vm_compute; split; [discriminate | reflexivity]).
  assert (H2 : - 2 ^ 63 <= m_timeSyncClockDelta example_data
               < 2 ^ 63 - 2 ^ 32)
    by (vm_compute; split; [discriminate | reflexivity]).
  split; [exact H1|]. split; [exact H2|]. split; [reflexivity|].
  exact (proj1 (proj1 (proj2 (@X17_SynchronizeMovement 1000 77 example_data
                                 H1 H2))
                  eq_refl)).
Defined.

Lemma X18_time_sync_run_witness :
  Z.of_nat (List.length [10; 20; 30]) <= 2 ^ 32
  /\ m_timeSyncNextCounter
       (fst (SendTimeSyncs (Some open_socket) [10; 20; 30]
               (ResetTimeSync example_data))) = 3
  /\ map_find 1
       (m_pendingTimeSyncRequests
          (fst (SendTimeSyncs (Some open_socket) [10; 20; 30]
                  (ResetTimeSync example_data)))) = Some 20.
Proof.
  assert (H : Z.of_nat (List.length [10; 20; 30]) <= 2 ^ 32)
    by (vm_compute; discriminate).
  split; [exact H|].
  destruct (@X18_time_sync_run (Some open_socket) [10; 20; 30] example_data H)
    as (_ & B & C & _).
  split; [exact B | exact (C 1%nat 20 eq_refl)].
Defined.


Lemma X20_character_data_lost_after_logout_witness :
  _player session_playing = Some example_player
  /\ mask_has (GLOBAL_CACHE_MASK example_consts) 1 = false
  /\ exists s' tr,
       LogoutPlayer 1000 session_playing = Returned tt s' tr
       /\ SetAccountData example_consts (m_GUIDLow s') 1 1000 "bindings"
            example_data = (example_data, []).
Proof.
  split; [reflexivity|]. split; [reflexivity|].
  exact (@X20_character_data_lost_after_logout example_consts 1000
           session_playing example_player 1 1000 "bindings" example_data
           eq_refl eq_refl).
Defined.

Lemma X21_LoadAccountData_entries_witness :
  List.length (m_accountData example_data)
  = NUM_ACCOUNT_DATA_TYPES example_consts
  /\ nth_error
       (m_accountData
          (fst (LoadAccountData example_consts
                  (Some [mkAccountDataRow 2 5 "old"; mkAccountDataRow 9 6 "far";
                         mkAccountDataRow 2 7 "new"; mkAccountDataRow 1 8 "own"])
                  21 example_data))) 2
     = Some (mkAccountData 7 "new").
Proof.
  split; [reflexivity|].
  refine (@X21_LoadAccountData_entries example_consts
            (Some [mkAccountDataRow 2 5 "old"; mkAccountDataRow 9 6 "far";
                   mkAccountDataRow 2 7 "new"; mkAccountDataRow 1 8 "own"])
            21 example_data 2 eq_refl _).
  vm_compute. lia.
Defined.

Lemma X23_LoadTutorialsData_witness :
  List.length (m_Tutorials example_data) = 8%nat
  /\ m_Tutorials
       (LoadTutorialsData (Some [[1; 2; 3; 4; 5; 6; 7; 8]; [9; 8; 7; 6; 5; 4; 3; 2]])
          example_data)
     = [9; 8; 7; 6; 5; 4; 3; 2].
Proof.
  split; [reflexivity|].
  refine (proj1 (proj2 (proj2
            (@X23_LoadTutorialsData
               [[1; 2; 3; 4; 5; 6; 7; 8]; [9; 8; 7; 6; 5; 4; 3; 2]]
               example_data eq_refl _)))).
  discriminate.
Defined.

Lemma X24_SendAddonsInfo_witness :
  exists pkt,
    snd (SendAddonsInfo (Some open_socket) example_data) = [EfSend 1 pkt]
    /\ out_opcode pkt = SMSG_ADDON_INFO
    /\ packet_size pkt = 276%nat.
Proof.
  exact (proj1 (proj2 (@X24_SendAddonsInfo (Some open_socket) example_data))
           open_socket eq_refl eq_refl).
Defined.

Lemma X25_SendMotd_lines_witness :
  getline_loop None "Welcome@to the realm@" = ["Welcome"; "to the realm"]
  /\ terminated_lines (getline_loop None "Welcome@to the realm@")
     = "Welcome@to the realm@".
Proof.
  split; [reflexivity|].
  exact (proj1 (proj2 (@X25_SendMotd_lines None "Welcome@to the realm@"))).
Defined.

Lemma X26_fault_is_survived_witness :
  _player session_playing <> None
  /\ exists s' tr,
       ProcessByteBufferException (example_world true) (envelope 3)
         session_playing = Returned tt s' tr
       /\ _player s' = _player session_playing
       /\ m_Socket s' = m_Socket session_playing
       /\ m_messager s' = [MsgKickPlayer 7].
Proof.
  assert (H : _player session_playing <> None) by discriminate.
  split; [exact H|].
  destruct (@X26_fault_is_survived (example_world true) (envelope 3)
              session_playing (or_intror H))
    as (s' & tr & E & P & S & _ & _ & _ & _ & Hm).
  exists s', tr. repeat split; assumption.
Defined.

Lemma X27_tick_leaves_CREATED_witness :
  exists b s' tr,
    Update (example_world false) 1000 session_reconnecting = Returned b s' tr
    /\ m_sessionState s' <> WORLD_SESSION_STATE_CREATED.
Proof.
  eexists. eexists. eexists. split; [reflexivity|].
  eapply (@X27_tick_leaves_CREATED (example_world false) 1000
            session_reconnecting). reflexivity.
Defined.

Lemma X28_SendAccountDataTimes_size_witness :
  IsClosed open_socket = false
  /\ List.length (m_accountData example_data) = 8%nat
  /\ exists pkt,
       SendAccountDataTimes (Some open_socket) 1000 21 example_data
       = [EfSend (sock_id open_socket) pkt]
       /\ out_opcode pkt = SMSG_ACCOUNT_DATA_TIMES
       /\ (9 <= packet_size pkt <= 4 + 1 + 4 + 8 * 4)%nat
       /\ (21 = 0 -> packet_size pkt = 9%nat).
Proof.
  split; [reflexivity|]. split; [reflexivity|].
  exact (@X28_SendAccountDataTimes_size open_socket 1000 21 example_data
           eq_refl eq_refl).
Defined.
